(** * VirtualBox-Microservices: gateway, users service and products service

    A shallow embedding of the three Express programs of the repository
    (gateway/index.js, users-service/index.js, products-service/index.js)
    and the properties of their request handlers.

    Layout:
    - [Js]: the fragment of JavaScript the handlers rely on: JSON values,
      truthiness, strict equality, [parseInt], [parseFloat], [Number(...)],
      [String(...)] and [Array.prototype.slice].
    - [Http]: responses.
    - [Users]: users-service/index.js.
    - [Products]: products-service/index.js.
    - [Gateway]: gateway/index.js.
    - [JsText], [UsersStats], [Catalog], [GatewayCollections]: the
      statistics of the users service, the listing and the search of the
      products service, and the texts of the gateway's collection routes.
    - [JsFacts], [GatewayFacts], [UsersFacts], [ProductsFacts], [StoreFacts],
      [UsersMoreFacts], [ProductsMoreFacts], [StoreMoreFacts],
      [GatewayMoreFacts]: the properties.

    Conventions of the embedding:
    - a JavaScript string is a [string] of characters with codes below 256;
      white space is TAB, LF, VT, FF, CR, SP and NBSP;
    - a finite JavaScript number is an exact decimal [Dec m e], standing for
      m * 10^e; the binary rounding of IEEE doubles and overflow to Infinity
      are not modelled, and -0 is identified with 0: the model is the code on
      integers of magnitude at most 2^53 and on decimals of at most 15
      significant digits; IDs and counters are integers, far from 2^53;
    - the gateway is given what Express hands to a handler: the route it
      has matched, with [req.params.id] percent-decoded, and [req.body];
      the HTTP client is axios with its defaults, redirects followed;
    - a request body is the value [express.json()] leaves in [req.body]; a
      query parameter is absent or a string;
    - the clock reading [new Date().toISOString()] is an argument [now] of
      every handler that reads it;
    - a thrown [TypeError] is an explicit result; Express turns it into the
      500 response of the error-handling middleware. *)

From Stdlib Require Import ZArith Ascii String Bool Lia.
From stdpp Require Import base tactics option list numbers strings sorting.

Set Warnings "-register-all".
Local Open Scope Z_scope.

(** ** The JavaScript fragment *)
Module Js.

(** *** Characters *)

Definition code (c : ascii) : Z := Z.of_N (N_of_ascii c).

(** StrWhiteSpaceChar, among the characters below 256. *)
Definition is_ws (c : ascii) : bool :=
  let n := code c in
  ((9 <=? n) && (n <=? 13)) || (n =? 32) || (n =? 160).

(** Value of a character as a digit in some radix up to 36. *)
Definition digit_val (c : ascii) : option Z :=
  let n := code c in
  if (48 <=? n) && (n <=? 57) then Some (n - 48)
  else if (97 <=? n) && (n <=? 122) then Some (n - 87)
  else if (65 <=? n) && (n <=? 90) then Some (n - 55)
  else None.

Definition radix_digit (R : Z) (c : ascii) : option Z :=
  match digit_val c with
  | Some d => if d <? R then Some d else None
  | None => None
  end.

Definition is_digit (R : Z) (c : ascii) : bool :=
  match radix_digit R c with Some _ => true | None => false end.

Definition digit_char (d : Z) : ascii := ascii_of_N (Z.to_N (48 + d)).

(** *** Scanning *)

Fixpoint skip_ws (s : string) : string :=
  match s with
  | String c r => if is_ws c then skip_ws r else s
  | EmptyString => EmptyString
  end.

Fixpoint all_ws (s : string) : bool :=
  match s with
  | String c r => is_ws c && all_ws r
  | EmptyString => true
  end.

(** [read_digits R acc n s] consumes the longest prefix of [s] made of
    radix-[R] digits; it returns the accumulated value, the number of digits
    consumed (added to [n]) and the rest of the string. *)
Fixpoint read_digits (R : Z) (acc : Z) (n : nat) (s : string) : Z * nat * string :=
  match s with
  | String c r =>
      match radix_digit R c with
      | Some d => read_digits R (acc * R + d) (S n) r
      | None => (acc, n, s)
      end
  | EmptyString => (acc, n, EmptyString)
  end.

(** An optional sign: [true] for "-". *)
Definition strip_sign (s : string) : bool * string :=
  match s with
  | String c r =>
      if Ascii.eqb c "-" then (true, r)
      else if Ascii.eqb c "+" then (false, r)
      else (false, s)
  | EmptyString => (false, s)
  end.

(** The "0x" / "0X" prefix that [parseInt] honours when no radix is given. *)
Definition hex_prefixed (s : string) : bool :=
  match s with
  | String c0 (String c1 _) =>
      Ascii.eqb c0 "0" && (Ascii.eqb c1 "x" || Ascii.eqb c1 "X")
  | _ => false
  end.

Definition strip_hex_prefix (s : string) : Z * string :=
  match s with
  | String _ (String _ r) => if hex_prefixed s then (16, r) else (10, s)
  | _ => (10, s)
  end.

(** [parseInt(s)] on a string, radix argument absent. [None] is NaN. *)
Definition parseInt_string (s : string) : option Z :=
  let '(neg, s1) := strip_sign (skip_ws s) in
  let '(R, s2) := strip_hex_prefix s1 in
  let '(v, n, _) := read_digits R 0 O s2 in
  match n with
  | O => None
  | S _ => Some (if neg then - v else v)
  end.

(** Strings of decimal digits, and the integer such a string writes after
    the digits already read as [acc]. *)
Fixpoint dec_string (s : string) : bool :=
  match s with
  | String c r => is_digit 10 c && dec_string r
  | EmptyString => true
  end.

Fixpoint dec_value (acc : Z) (s : string) : Z :=
  match s with
  | String c r => dec_value (acc * 10 + (code c - 48)) r
  | EmptyString => acc
  end.

(** Whether the first character is a decimal digit. *)
Definition head_digit (s : string) : bool :=
  match s with
  | String c _ => is_digit 10 c
  | EmptyString => false
  end.

(** Whether the first character is a decimal digit other than "0". *)
Definition head_nonzero (s : string) : bool :=
  match s with
  | String c _ => is_digit 10 c && (48 <? code c)
  | EmptyString => false
  end.

(** Strings over the characters [Number::toString] writes for a finite
    number that is not negative: digits, ".", "e", "+" and "-". *)
Definition plain_char (c : ascii) : bool :=
  is_digit 10 c || Ascii.eqb c "." || Ascii.eqb c "e"
  || Ascii.eqb c "+" || Ascii.eqb c "-".

Fixpoint plain (s : string) : bool :=
  match s with
  | String c r => plain_char c && plain r
  | EmptyString => true
  end.

(** *** Numbers *)

(** A JavaScript number. [Dec m e] is the finite number m * 10^e, held
    exactly, where the code has the double nearest to it. The two agree on
    what the handlers compute from a number (its sign, its comparison with
    another number, its decimal text, the integer [parseInt] reads in this
    text) for the integers of magnitude at most 2^53 and for the decimals of
    at most 15 significant digits within the range of doubles: a double
    holds the former without rounding and prints the latter back as they
    were written. Outside of these the code rounds where the model does
    not: statements on the value of a number carry a bound within them. *)
Inductive number :=
  | NaN
  | Infinity (neg : bool)
  | Dec (m e : Z).

(** The result of [parseInt] as a number. *)
Definition int_number (o : option Z) : number :=
  match o with
  | Some z => Dec z 0
  | None => NaN
  end.

(** Numeric equality of [===]: NaN differs from everything. *)
Definition num_eqb (x y : number) : bool :=
  match x, y with
  | Infinity a, Infinity b => Bool.eqb a b
  | Dec m1 e1, Dec m2 e2 =>
      let mn := Z.min e1 e2 in
      m1 * 10 ^ (e1 - mn) =? m2 * 10 ^ (e2 - mn)
  | _, _ => false
  end.

(** [x <= 0] on numbers: false on NaN. *)
Definition num_le_zero (x : number) : bool :=
  match x with
  | NaN => false
  | Infinity neg => neg
  | Dec m _ => m <=? 0
  end.

(** [0 < x] on numbers. *)
Definition num_positive (x : number) : bool :=
  match x with
  | NaN => false
  | Infinity neg => negb neg
  | Dec m _ => 0 <? m
  end.

(** Whether the number is an integer, and whether it is one that is not
    negative. *)
Definition num_is_int (x : number) : bool :=
  match x with
  | Dec m e => (0 <=? e) || (m mod 10 ^ (- e) =? 0)
  | _ => false
  end.

(** The integer a number is, when it is one. *)
Definition num_int_value (x : number) : option Z :=
  match x with
  | Dec m e =>
      if 0 <=? e then Some (m * 10 ^ e)
      else if m mod 10 ^ (- e) =? 0 then Some (m / 10 ^ (- e))
      else None
  | _ => None
  end.

Definition num_is_nonneg_int (x : number) : bool :=
  match x with
  | Dec m _ => (0 <=? m) && num_is_int x
  | _ => false
  end.

(** *** Number::toString (radix 10) *)

(** The decimal digits of an integer that is not negative, most
    significant first. *)
Fixpoint digits_aux (fuel : nat) (n : Z) (acc : string) : string :=
  match fuel with
  | O => acc
  | S f =>
      let acc' := String (digit_char (n mod 10)) acc in
      if n <? 10 then acc' else digits_aux f (n / 10) acc'
  end.

Definition digits (n : Z) : string :=
  digits_aux (S (Z.to_nat (Z.log2 n))) n EmptyString.

Fixpoint zeros (n : nat) : string :=
  match n with
  | O => EmptyString
  | S k => String "0" (zeros k)
  end.

(** Drop the trailing zeros of the mantissa: m * 10^e is unchanged. *)
Fixpoint strip_zeros (fuel : nat) (m e : Z) : Z * Z :=
  match fuel with
  | O => (m, e)
  | S f => if m mod 10 =? 0 then strip_zeros f (m / 10) (e + 1) else (m, e)
  end.

(** The positive finite number m * 10^e, with [m] free of trailing zeros:
    [k] digits, and 10^(n-1) <= m * 10^e < 10^n. *)
Definition positive_to_string (m e : Z) : string :=
  let ds := digits m in
  let k := Z.of_nat (String.length ds) in
  let n := k + e in
  if (k <=? n) && (n <=? 21) then
    ds +:+ zeros (Z.to_nat (n - k))
  else if (0 <? n) && (n <=? 21) then
    substring 0 (Z.to_nat n) ds +:+ "." +:+ substring (Z.to_nat n) (Z.to_nat (k - n)) ds
  else if (-6 <? n) && (n <=? 0) then
    "0." +:+ zeros (Z.to_nat (- n)) +:+ ds
  else
    let ex := (if n - 1 <? 0 then "-" else "+") +:+ digits (Z.abs (n - 1)) in
    match ds with
    | String d EmptyString => String d ("e" +:+ ex)
    | String d r => String d ("." +:+ r +:+ "e" +:+ ex)
    | EmptyString => EmptyString
    end.

Definition number_to_string (x : number) : string :=
  match x with
  | NaN => "NaN"
  | Infinity neg => if neg then "-Infinity" else "Infinity"
  | Dec m e =>
      if m =? 0 then "0"
      else
        let '(m', e') := strip_zeros (S (Z.to_nat (Z.log2 (Z.abs m)))) (Z.abs m) e in
        (if m <? 0 then "-" else "") +:+ positive_to_string m' e'
  end.

(** *** Strings to numbers *)

Fixpoint drop_prefix (p s : string) : option string :=
  match p, s with
  | EmptyString, _ => Some s
  | String a p', String b s' => if Ascii.eqb a b then drop_prefix p' s' else None
  | String _ _, EmptyString => None
  end.

(** ExponentPart, when one is there: the exponent and the rest. *)
Definition read_exponent (s : string) : Z * string :=
  match s with
  | String c r =>
      if Ascii.eqb c "e" || Ascii.eqb c "E" then
        let '(neg, r1) := strip_sign r in
        let '(v, n, r2) := read_digits 10 0 O r1 in
        match n with
        | O => (0, s)
        | S _ => (if neg then - v else v, r2)
        end
      else (0, s)
  | EmptyString => (0, s)
  end.

(** The digits of a StrDecimalLiteral, with or without a ".": the integer
    that the digits write, the number of digits after the ".", and the
    rest. At least one digit is required, before or after the ".". *)
Definition read_mantissa (s : string) : option (Z * nat * string) :=
  let '(ip, ni, s2) := read_digits 10 0 O s in
  let whole := match ni with O => None | S _ => Some (ip, O, s2) end in
  match s2 with
  | String c r =>
      if Ascii.eqb c "." then
        let '(m, nf, s3) := read_digits 10 ip O r in
        match ni, nf with
        | O, O => None
        | _, _ => Some (m, nf, s3)
        end
      else whole
  | EmptyString => whole
  end.

(** The longest prefix of [s] that is a StrDecimalLiteral: its value and
    the rest of [s]; [None] when no prefix is one. *)
Definition parse_decimal (s : string) : option (number * string) :=
  let '(neg, s1) := strip_sign s in
  match drop_prefix "Infinity" s1 with
  | Some r => Some (Infinity neg, r)
  | None =>
      match read_mantissa s1 with
      | None => None
      | Some (m, nf, s3) =>
          let '(ex, s4) := read_exponent s3 in
          Some (Dec (if neg then - m else m) (ex - Z.of_nat nf), s4)
      end
  end.

(** [parseFloat(s)] on a string. *)
Definition parseFloat_string (s : string) : number :=
  match parse_decimal (skip_ws s) with
  | Some (x, _) => x
  | None => NaN
  end.

(** NonDecimalIntegerLiteral: 0x, 0o and 0b literals, no sign. *)
Definition nondecimal_radix (s : string) : option (Z * string) :=
  match s with
  | String "0" (String c r) =>
      if Ascii.eqb c "x" || Ascii.eqb c "X" then Some (16, r)
      else if Ascii.eqb c "o" || Ascii.eqb c "O" then Some (8, r)
      else if Ascii.eqb c "b" || Ascii.eqb c "B" then Some (2, r)
      else None
  | _ => None
  end.

(** StringToNumber, the conversion behind [Number(s)] and the comparison
    operators: white space is trimmed on both sides, the empty string is 0,
    and the whole of what is left has to be a numeric literal. *)
Definition string_to_number (s : string) : number :=
  let t := skip_ws s in
  match t with
  | EmptyString => Dec 0 0
  | String _ _ =>
      match nondecimal_radix t with
      | Some (R, r) =>
          let '(v, n, rest) := read_digits R 0 O r in
          match n with
          | O => NaN
          | S _ => if all_ws rest then Dec v 0 else NaN
          end
      | None =>
          match parse_decimal t with
          | Some (x, rest) => if all_ws rest then x else NaN
          | None => NaN
          end
      end
  end.

(** *** Values *)

(** A JSON value as [JSON.parse] builds it, plus [undefined] for a
    property that is not there. *)
Inductive value :=
  | VUndefined
  | VNull
  | VBool (b : bool)
  | VNum (n : number)
  | VStr (s : string)
  | VArr (items : list value)
  | VObj (fields : list (string * value)).

(** What evaluating an expression gives: a value, or a thrown TypeError. *)
Inductive result (A : Type) :=
  | Ok (a : A)
  | TypeError.
Arguments Ok {A} a.
Arguments TypeError {A}.

Definition bind {A B} (r : result A) (f : A -> result B) : result B :=
  match r with
  | Ok a => f a
  | TypeError => TypeError
  end.

Notation "'let*' x := r 'in' k" := (bind r (fun x => k))
  (at level 10, x name, r at level 100, k at level 200,
   format "'let*'  x  :=  r  'in' '//' k").

(** Own property [k] of a parsed object: a later duplicate key wins. *)
Fixpoint lookup_key (k : string) (fs : list (string * value)) : option value :=
  match fs with
  | [] => None
  | (k', v) :: r =>
      match lookup_key k r with
      | Some w => Some w
      | None => if String.eqb k k' then Some v else None
      end
  end.

(** [body.k], for the property names the handlers destructure (none of them
    is on Object.prototype or Array.prototype). *)
Definition get_field (body : value) (k : string) : value :=
  match body with
  | VObj fs => default VUndefined (lookup_key k fs)
  | _ => VUndefined
  end.

(** ToBoolean. *)
Definition truthy (v : value) : bool :=
  match v with
  | VUndefined | VNull => false
  | VBool b => b
  | VNum NaN => false
  | VNum (Infinity _) => true
  | VNum (Dec m _) => negb (m =? 0)
  | VStr s => negb (String.eqb s "")
  | VArr _ | VObj _ => true
  end.

(** [a === b] between a value held by the store and a value of the request
    being handled. Arrays and objects are compared by identity, and the
    request's are fresh: never equal. *)
Definition strict_eq (a b : value) : bool :=
  match a, b with
  | VUndefined, VUndefined => true
  | VNull, VNull => true
  | VBool x, VBool y => Bool.eqb x y
  | VNum x, VNum y => num_eqb x y
  | VStr x, VStr y => String.eqb x y
  | _, _ => false
  end.

(** [a || b]. *)
Definition or_else (a b : value) : value := if truthy a then a else b.

(** ToString. A parsed object with an own "toString" property shadows
    Object.prototype.toString by something that is not callable, and
    Object.prototype.valueOf gives the object back: ToPrimitive throws.
    An array goes through [join], where undefined and null print as the
    empty string. *)
Fixpoint to_string (v : value) : result string :=
  match v with
  | VUndefined => Ok "undefined"
  | VNull => Ok "null"
  | VBool b => Ok (if b then "true" else "false")
  | VNum n => Ok (number_to_string n)
  | VStr s => Ok s
  | VArr items =>
      (fix join (l : list value) : result string :=
         match l with
         | [] => Ok ""
         | x :: r =>
             let* sx :=
               match x with
               | VUndefined | VNull => Ok ""
               | _ => to_string x
               end in
             match r with
             | [] => Ok sx
             | _ :: _ => let* sr := join r in Ok (sx +:+ "," +:+ sr)
             end
         end) items
  | VObj fs =>
      match lookup_key "toString" fs with
      | Some _ => TypeError
      | None => Ok "[object Object]"
      end
  end.

(** ToNumber. Arrays and objects go through ToPrimitive, which for them
    ends in the same string as [to_string]. *)
Definition to_number (v : value) : result number :=
  match v with
  | VUndefined => Ok NaN
  | VNull => Ok (Dec 0 0)
  | VBool b => Ok (Dec (if b then 1 else 0) 0)
  | VNum n => Ok n
  | VStr s => Ok (string_to_number s)
  | VArr _ | VObj _ => let* s := to_string v in Ok (string_to_number s)
  end.

(** [parseInt(v)], [parseFloat(v)] and [v <= 0]. *)
Definition parseInt (v : value) : result number :=
  let* s := to_string v in Ok (int_number (parseInt_string s)).

Definition parseFloat (v : value) : result number :=
  let* s := to_string v in Ok (parseFloat_string s).

Definition le_zero (v : value) : result bool :=
  let* n := to_number v in Ok (num_le_zero n).

(** [l.slice(0, end)], with [end] the result of [parseInt]. *)
Definition slice0 {A} (l : list A) (end_ : option Z) : list A :=
  let len := Z.of_nat (length l) in
  let rel := default 0 end_ in
  let fin := if rel <? 0 then Z.max (len + rel) 0 else Z.min rel len in
  take (Z.to_nat fin) l.

End Js.

(** ** Responses *)
Module Http.

(** [res.status(status).json(json)]. *)
Record response (B : Type) := Response { status : Z; json : B }.
Arguments Response {B} status json.
Arguments status {B} r.
Arguments json {B} r.

(** The bodies the two services send, over their record type [R]. *)
Inductive body (R : Type) :=
  | Listing (count : nat) (items : list R)
      (* { count, users } / { count, products } *)
  | Single (r : R)
      (* the record itself *)
  | Done (message : string) (r : R)
      (* { message, user } / { message, product } *)
  | Failure (error : string)
      (* { error } *)
  | Missing (error : string) (id : option Z)
      (* { error, userId } / { error, productId }; [None] is NaN *)
  | Internal (error message : string).
      (* the error-handling middleware: { error, message } *)
Arguments Listing {R} count items.
Arguments Single {R} r.
Arguments Done {R} message r.
Arguments Failure {R} error.
Arguments Missing {R} error id.
Arguments Internal {R} error message.

(** What Express sends when a handler throws: the error-handling
    middleware of each service. *)
Definition internal_error {R} : response (body R) :=
  Response 500 (Internal "Internal server error"
                         "Cannot convert object to primitive value").

End Http.

(** ** users-service/index.js *)
Module Users.
Import Js Http.

Record user := User {
  id : Z;
  name : value;
  email : value;
  role : value;
  createdAt : string;
  updatedAt : option string
}.

(** The module-level state: [users] and [nextUserId]. *)
Record store := Store {
  users : list user;
  nextUserId : Z
}.

Definition seed : store :=
  {| users :=
       [ User 1 (VStr "John Doe") (VStr "john.doe@example.com") (VStr "admin")
              "2024-01-01T00:00:00.000Z" None;
         User 2 (VStr "Jane Smith") (VStr "jane.smith@example.com") (VStr "user")
              "2024-01-15T00:00:00.000Z" None;
         User 3 (VStr "Bob Johnson") (VStr "bob.johnson@example.com") (VStr "user")
              "2024-02-01T00:00:00.000Z" None ];
     nextUserId := 4 |}.

Definition reply := response (body user).

(** [u.id === userId], with [userId] the result of [parseInt]. *)
Definition has_id (userId : option Z) (u : user) : Prop := Some (id u) = userId.

(** [u.email === email]. *)
Definition has_email (e : value) (u : user) : Prop := Is_true (strict_eq (email u) e).

#[global] Instance has_id_dec userId u : Decision (has_id userId u).
Proof. unfold has_id. apply _. Defined.

#[global] Instance has_email_dec e u : Decision (has_email e u).
Proof. unfold has_email. apply _. Defined.

(** A query parameter: absent, or the string after the "=". *)
Definition query (q : option string) : value :=
  match q with
  | Some s => VStr s
  | None => VUndefined
  end.

(** app.get('/users') *)
Definition get_users (s : store) (qrole qlimit : option string) : reply :=
  let filteredUsers := users s in
  let filteredUsers :=
    if truthy (query qrole)
    then List.filter (fun u => strict_eq (role u) (query qrole)) filteredUsers
    else filteredUsers in
  let filteredUsers :=
    match qlimit with
    | Some l =>
        if truthy (VStr l) then slice0 filteredUsers (parseInt_string l)
        else filteredUsers
    | None => filteredUsers
    end in
  Response 200 (Listing (length filteredUsers) filteredUsers).

(** app.get('/users/:id') *)
Definition get_user (s : store) (param : string) : reply :=
  let userId := parseInt_string param in
  match list_find (has_id userId) (users s) with
  | None => Response 404 (Missing "User not found" userId)
  | Some (_, u) => Response 200 (Single u)
  end.

(** app.post('/users') *)
Definition post_users (s : store) (now : string) (req_body : value) : reply * store :=
  let name := get_field req_body "name" in
  let email := get_field req_body "email" in
  let role := get_field req_body "role" in
  if negb (truthy name) || negb (truthy email) then
    (Response 400 (Failure "Name and email are required"), s)
  else
    match list_find (has_email email) (users s) with
    | Some _ =>
        (Response 409 (Failure "User with this email already exists"), s)
    | None =>
        let newUser :=
          {| id := nextUserId s;
             name := name;
             email := email;
             role := or_else role (VStr "user");
             createdAt := now;
             updatedAt := None |} in
        (Response 201 (Done "User created successfully" newUser),
         {| users := users s ++ [newUser]; nextUserId := nextUserId s + 1 |})
    end.

(** The field assignments of the update handler. *)
Definition set_name (v : value) (u : user) : user :=
  User (id u) v (email u) (role u) (createdAt u) (updatedAt u).
Definition set_email (v : value) (u : user) : user :=
  User (id u) (name u) v (role u) (createdAt u) (updatedAt u).
Definition set_role (v : value) (u : user) : user :=
  User (id u) (name u) (email u) v (createdAt u) (updatedAt u).
Definition set_updatedAt (t : string) (u : user) : user :=
  User (id u) (name u) (email u) (role u) (createdAt u) (Some t).

(** [if (v) u.field = v]. *)
Definition assign_if_truthy (set : value -> user -> user) (v : value) (u : user) : user :=
  if truthy v then set v u else u.

(** app.put('/users/:id') *)
Definition put_user (s : store) (now : string) (param : string) (req_body : value)
  : reply * store :=
  let userId := parseInt_string param in
  match list_find (has_id userId) (users s) with
  | None => (Response 404 (Missing "User not found" userId), s)
  | Some (userIndex, u) =>
      let name := get_field req_body "name" in
      let email := get_field req_body "email" in
      let role := get_field req_body "role" in
      if truthy email && negb (strict_eq (Users.email u) email)
         && bool_decide (is_Some (list_find (has_email email) (users s)))
      then (Response 409 (Failure "User with this email already exists"), s)
      else
        let u := assign_if_truthy set_name name u in
        let u := assign_if_truthy set_email email u in
        let u := assign_if_truthy set_role role u in
        let u := set_updatedAt now u in
        (Response 200 (Done "User updated successfully" u),
         {| users := <[userIndex := u]> (users s); nextUserId := nextUserId s |})
  end.

(** app.delete('/users/:id') *)
Definition delete_user (s : store) (param : string) : reply * store :=
  let userId := parseInt_string param in
  match list_find (has_id userId) (users s) with
  | None => (Response 404 (Missing "User not found" userId), s)
  | Some (userIndex, deletedUser) =>
      (Response 200 (Done "User deleted successfully" deletedUser),
       {| users := delete userIndex (users s); nextUserId := nextUserId s |})
  end.

(** The requests of the service, and the service as a transition system. *)
Inductive request :=
  | GetUsers (qrole qlimit : option string)
  | GetUser (param : string)
  | PostUsers (now : string) (req_body : value)
  | PutUser (now : string) (param : string) (req_body : value)
  | DeleteUser (param : string).

Definition handle (s : store) (r : request) : reply * store :=
  match r with
  | GetUsers qrole qlimit => (get_users s qrole qlimit, s)
  | GetUser param => (get_user s param, s)
  | PostUsers now req_body => post_users s now req_body
  | PutUser now param req_body => put_user s now param req_body
  | DeleteUser param => delete_user s param
  end.

(** Handling a sequence of requests: the replies, in order, and the final
    store. *)
Fixpoint run (s : store) (rs : list request) : list reply * store :=
  match rs with
  | [] => ([], s)
  | r :: rs' =>
      let '(a, s1) := handle s r in
      let '(out, s2) := run s1 rs' in
      (a :: out, s2)
  end.

(** The ID a reply to a create carries when the create succeeded. *)
Definition assigned_id (r : request) (a : reply) : option Z :=
  match r, a with
  | PostUsers _ _, Response 201 (Done _ u) => Some (id u)
  | _, _ => None
  end.

(** The IDs assigned while handling [rs] from [s], in order. *)
Fixpoint assigned_ids (s : store) (rs : list request) : list Z :=
  match rs with
  | [] => []
  | r :: rs' =>
      let '(a, s1) := handle s r in
      match assigned_id r a with
      | Some i => i :: assigned_ids s1 rs'
      | None => assigned_ids s1 rs'
      end
  end.

(** Every ID in the store is below the counter. *)
Definition ids_below_counter (s : store) : Prop :=
  Forall (fun u => id u < nextUserId s) (users s).

(** The reading of the path parameter by its leading digits alone: a
    parameter made of the digits [d] followed by [r], which does not start
    with a digit, is answered like [d]. *)
Definition answered_by_leading_digits (s : store) (d r : string) : Prop :=
  dec_string d = true -> d <> "" -> head_digit r = false ->
  get_user s (d +:+ r) = get_user s d.

(** The specification's reading of two of the handlers, to compare with
    the handlers themselves. *)

(** POST /users with the e-mail of an existing user: 409, store unchanged. *)
Definition duplicate_email_rejected (s : store) (now : string) (req_body : value)
  : Prop :=
  (exists u, u ∈ users s /\ has_email (get_field req_body "email") u) ->
  status (post_users s now req_body).1 = 409 /\
  (post_users s now req_body).2 = s.

(** PUT /users/:id: a successful update has written every field the body
    supplies. *)
Definition supplied_fields_written (s : store) (now param : string)
    (req_body : value) : Prop :=
  forall u' s',
    put_user s now param req_body
      = (Response 200 (Done "User updated successfully" u'), s') ->
    (get_field req_body "name" <> VUndefined ->
     name u' = get_field req_body "name") /\
    (get_field req_body "email" <> VUndefined ->
     email u' = get_field req_body "email") /\
    (get_field req_body "role" <> VUndefined ->
     role u' = get_field req_body "role").

(** GET /users?role=&limit=: all users, filtered to the exact role when a
    role is given, then cut to the first [limit] records; no cut when the
    limit is absent or not numeric. *)
Definition spec_listing (s : store) (qrole qlimit : option string) : list user :=
  let filtered :=
    match qrole with
    | Some r => List.filter (fun u => strict_eq (role u) (VStr r)) (users s)
    | None => users s
    end in
  match qlimit with
  | Some l =>
      match parseInt_string l with
      | Some n => take (Z.to_nat n) filtered
      | None => filtered
      end
  | None => filtered
  end.

End Users.

(** ** products-service/index.js *)
Module Products.
Import Js Http.

Record product := Product {
  id : Z;
  name : value;
  description : value;
  price : number;
  category : value;
  stock : value;
  createdAt : string;
  updatedAt : option string
}.

(** The module-level state: [products] and [nextProductId]. *)
Record store := Store {
  products : list product;
  nextProductId : Z
}.

Definition seed : store :=
  {| products :=
       [ Product 1 (VStr "Laptop Pro X1")
           (VStr "High-performance laptop for professionals")
           (Dec 129999 (-2)) (VStr "Electronics") (VNum (Dec 45 0))
           "2024-01-10T00:00:00.000Z" None;
         Product 2 (VStr "Wireless Mouse")
           (VStr "Ergonomic wireless mouse with precision tracking")
           (Dec 2999 (-2)) (VStr "Accessories") (VNum (Dec 150 0))
           "2024-01-15T00:00:00.000Z" None;
         Product 3 (VStr "USB-C Hub")
           (VStr "7-in-1 USB-C hub with HDMI, USB 3.0, and card reader")
           (Dec 4999 (-2)) (VStr "Accessories") (VNum (Dec 80 0))
           "2024-02-01T00:00:00.000Z" None;
         Product 4 (VStr "Mechanical Keyboard")
           (VStr "RGB mechanical gaming keyboard with Cherry MX switches")
           (Dec 15999 (-2)) (VStr "Accessories") (VNum (Dec 60 0))
           "2024-02-05T00:00:00.000Z" None;
         Product 5 (VStr "4K Monitor")
           (VStr "27-inch 4K IPS monitor with HDR support")
           (Dec 39999 (-2)) (VStr "Electronics") (VNum (Dec 25 0))
           "2024-02-10T00:00:00.000Z" None ];
     nextProductId := 6 |}.

Definition reply := response (body product).

(** [p.id === productId], with [productId] the result of [parseInt]. *)
Definition has_id (productId : option Z) (p : product) : Prop :=
  Some (id p) = productId.

#[global] Instance has_id_dec productId p : Decision (has_id productId p).
Proof. unfold has_id. apply _. Defined.

(** [v !== undefined]. *)
Definition defined (v : value) : bool :=
  match v with
  | VUndefined => false
  | _ => true
  end.

(** app.get('/products/:id') *)
Definition get_product (s : store) (param : string) : reply :=
  let productId := parseInt_string param in
  match list_find (has_id productId) (products s) with
  | None => Response 404 (Missing "Product not found" productId)
  | Some (_, p) => Response 200 (Single p)
  end.

(** app.post('/products'). The counter is read and incremented before
    [parseFloat(price)] is evaluated. *)
Definition post_products (s : store) (now : string) (req_body : value) : reply * store :=
  let name := get_field req_body "name" in
  let description := get_field req_body "description" in
  let price := get_field req_body "price" in
  let category := get_field req_body "category" in
  let stock := get_field req_body "stock" in
  if negb (truthy name) || negb (truthy price) || negb (truthy category) then
    (Response 400 (Failure "Name, price, and category are required"), s)
  else
    match le_zero price with
    | TypeError => (internal_error, s)
    | Ok true => (Response 400 (Failure "Price must be greater than 0"), s)
    | Ok false =>
        match parseFloat price with
        | TypeError =>
            (internal_error,
             {| products := products s; nextProductId := nextProductId s + 1 |})
        | Ok parsed =>
            let newProduct :=
              {| id := nextProductId s;
                 name := name;
                 description := or_else description (VStr "");
                 price := parsed;
                 category := category;
                 stock := or_else stock (VNum (Dec 0 0));
                 createdAt := now;
                 updatedAt := None |} in
            (Response 201 (Done "Product created successfully" newProduct),
             {| products := products s ++ [newProduct];
                nextProductId := nextProductId s + 1 |})
        end
    end.

(** The field assignments of the update handlers. *)
Definition set_name (v : value) (p : product) : product :=
  Product (id p) v (description p) (price p) (category p) (stock p)
          (createdAt p) (updatedAt p).
Definition set_description (v : value) (p : product) : product :=
  Product (id p) (name p) v (price p) (category p) (stock p)
          (createdAt p) (updatedAt p).
Definition set_price (x : number) (p : product) : product :=
  Product (id p) (name p) (description p) x (category p) (stock p)
          (createdAt p) (updatedAt p).
Definition set_category (v : value) (p : product) : product :=
  Product (id p) (name p) (description p) (price p) v (stock p)
          (createdAt p) (updatedAt p).
Definition set_stock (x : number) (p : product) : product :=
  Product (id p) (name p) (description p) (price p) (category p) (VNum x)
          (createdAt p) (updatedAt p).
Definition set_updatedAt (t : string) (p : product) : product :=
  Product (id p) (name p) (description p) (price p) (category p) (stock p)
          (createdAt p) (Some t).

(** [products[productIndex] = p] as a store. *)
Definition write (s : store) (productIndex : nat) (p : product) : store :=
  {| products := <[productIndex := p]> (products s);
     nextProductId := nextProductId s |}.

(** app.put('/products/:id'). The record is updated field by field, in
    place: a conversion that throws leaves the earlier assignments done. *)
Definition put_product (s : store) (now : string) (param : string) (req_body : value)
  : reply * store :=
  let productId := parseInt_string param in
  match list_find (has_id productId) (products s) with
  | None => (Response 404 (Missing "Product not found" productId), s)
  | Some (productIndex, p) =>
      let name := get_field req_body "name" in
      let description := get_field req_body "description" in
      let price := get_field req_body "price" in
      let category := get_field req_body "category" in
      let stock := get_field req_body "stock" in
      match (if defined price then le_zero price else Ok false) with
      | TypeError => (internal_error, s)
      | Ok true => (Response 400 (Failure "Price must be greater than 0"), s)
      | Ok false =>
          let p := if truthy name then set_name name p else p in
          let p := if defined description then set_description description p else p in
          match (if truthy price
                 then let* x := parseFloat price in Ok (set_price x p)
                 else Ok p) with
          | TypeError => (internal_error, write s productIndex p)
          | Ok p =>
              let p := if truthy category then set_category category p else p in
              match (if defined stock
                     then let* x := parseInt stock in Ok (set_stock x p)
                     else Ok p) with
              | TypeError => (internal_error, write s productIndex p)
              | Ok p =>
                  let p := set_updatedAt now p in
                  (Response 200 (Done "Product updated successfully" p),
                   write s productIndex p)
              end
          end
      end
  end.

(** app.delete('/products/:id') *)
Definition delete_product (s : store) (param : string) : reply * store :=
  let productId := parseInt_string param in
  match list_find (has_id productId) (products s) with
  | None => (Response 404 (Missing "Product not found" productId), s)
  | Some (productIndex, deletedProduct) =>
      (Response 200 (Done "Product deleted successfully" deletedProduct),
       {| products := delete productIndex (products s);
          nextProductId := nextProductId s |})
  end.

(** app.patch('/products/:id/stock') *)
Definition patch_stock (s : store) (now : string) (param : string) (req_body : value)
  : reply * store :=
  let productId := parseInt_string param in
  match list_find (has_id productId) (products s) with
  | None => (Response 404 (Missing "Product not found" productId), s)
  | Some (productIndex, p) =>
      let quantity := get_field req_body "quantity" in
      if negb (defined quantity) then
        (Response 400 (Failure "Quantity is required"), s)
      else
        match parseInt quantity with
        | TypeError => (internal_error, s)
        | Ok x =>
            let p := set_stock x p in
            let p := set_updatedAt now p in
            (Response 200 (Done "Stock updated successfully" p),
             write s productIndex p)
        end
  end.

(** The requests of the service, and the service as a transition system. *)
Inductive request :=
  | GetProduct (param : string)
  | PostProducts (now : string) (req_body : value)
  | PutProduct (now : string) (param : string) (req_body : value)
  | DeleteProduct (param : string)
  | PatchStock (now : string) (param : string) (req_body : value).

Definition handle (s : store) (r : request) : reply * store :=
  match r with
  | GetProduct param => (get_product s param, s)
  | PostProducts now req_body => post_products s now req_body
  | PutProduct now param req_body => put_product s now param req_body
  | DeleteProduct param => delete_product s param
  | PatchStock now param req_body => patch_stock s now param req_body
  end.

Fixpoint run (s : store) (rs : list request) : list reply * store :=
  match rs with
  | [] => ([], s)
  | r :: rs' =>
      let '(a, s1) := handle s r in
      let '(out, s2) := run s1 rs' in
      (a :: out, s2)
  end.

(** The ID a reply to a create carries when the create succeeded. *)
Definition assigned_id (r : request) (a : reply) : option Z :=
  match r, a with
  | PostProducts _ _, Response 201 (Done _ p) => Some (id p)
  | _, _ => None
  end.

(** The IDs assigned while handling [rs] from [s], in order. *)
Fixpoint assigned_ids (s : store) (rs : list request) : list Z :=
  match rs with
  | [] => []
  | r :: rs' =>
      let '(a, s1) := handle s r in
      match assigned_id r a with
      | Some i => i :: assigned_ids s1 rs'
      | None => assigned_ids s1 rs'
      end
  end.

(** Every ID in the store is below the counter. *)
Definition ids_below_counter (s : store) : Prop :=
  Forall (fun p => id p < nextProductId s) (products s).

(** The invariants the specification puts on a product record. *)
Definition price_valid (p : product) : bool := num_positive (price p).

Definition stock_valid (p : product) : bool :=
  match stock p with
  | VNum x => num_is_nonneg_int x
  | _ => false
  end.

(** A request whose price, when the body has one, is a JSON number. *)
Definition price_input_numeric (v : value) : bool :=
  match v with
  | VUndefined | VNum _ => true
  | _ => false
  end.

Definition request_price_numeric (r : request) : bool :=
  match r with
  | PostProducts _ req_body | PutProduct _ _ req_body =>
      price_input_numeric (get_field req_body "price")
  | GetProduct _ | DeleteProduct _ | PatchStock _ _ _ => true
  end.

(** A request whose stock or quantity, when the body has one, is a number
    that is not negative: an integer on POST, which stores it as it is, and
    any finite number on PUT and PATCH, which store [parseInt] of it. *)
Definition stock_input_ok (v : value) : bool :=
  match v with
  | VUndefined => true
  | VNum x => num_is_nonneg_int x
  | _ => false
  end.

Definition stock_update_ok (v : value) : bool :=
  match v with
  | VUndefined => true
  | VNum (Dec m _) => 0 <=? m
  | _ => false
  end.

Definition request_stock_ok (r : request) : bool :=
  match r with
  | PostProducts _ req_body => stock_input_ok (get_field req_body "stock")
  | PutProduct _ _ req_body => stock_update_ok (get_field req_body "stock")
  | PatchStock _ _ req_body => stock_update_ok (get_field req_body "quantity")
  | GetProduct _ | DeleteProduct _ => true
  end.

(** The specification's reading of the stock endpoint and of the stock
    invariant, to compare with the handlers. *)

(** PATCH /products/:id/stock {quantity: q} on an existing product: 200,
    and the stock of that product is the integer [q]. *)
Definition patch_sets_quantity (s : store) (now param : string) (q : Z) : Prop :=
  forall i p,
    list_find (has_id (parseInt_string param)) (products s) = Some (i, p) ->
    exists p',
      patch_stock s now param (VObj [("quantity", VNum (Dec q 0))])
        = (Response 200 (Done "Stock updated successfully" p'), write s i p') /\
      stock p' = VNum (Dec q 0).

(** No request that succeeds leaves a record whose stock is negative or
    not an integer. *)
Definition stock_invariant_kept (s : store) (r : request) : Prop :=
  Forall (fun p => stock_valid p = true) (products s) ->
  200 <= status (handle s r).1 < 300 ->
  Forall (fun p => stock_valid p = true) (products (handle s r).2).

End Products.

(** ** gateway/index.js *)
Module Gateway.
Import Js Http.

(** The two backend base URLs, read from the environment at start-up. *)
Record config := Config {
  USERS_SERVICE_URL : string;
  PRODUCTS_SERVICE_URL : string
}.

Definition default_config : config :=
  {| USERS_SERVICE_URL := "http://192.168.56.11:3001";
     PRODUCTS_SERVICE_URL := "http://192.168.56.12:3002" |}.

Inductive method := GET | POST | PUT | DELETE.

(** A request on the wire: what the gateway asks axios to send, and what
    axios sends after it when it follows a redirect. *)
Record outbound := Outbound {
  o_method : method;
  o_url : string;
  o_data : option value
}.

(** What one request gets back: a response, with its status code, its
    Location header when it has one and its parsed body, or no response at
    all (connection refused, timeout), with the description of the
    failure. *)
Inductive outcome :=
  | Responded (status : Z) (location : option string) (data : value)
  | NoResponse (message : string).

(** What the awaited axios promise does: it is fulfilled with a response,
    or rejected with an error, [error.response] being there when the
    exchange ended with a response. *)
Inductive settled :=
  | Fulfilled (status : Z) (data : value)
  | Rejected (response_status : option Z) (message : string).

(** The network the gateway talks to: what each request gets back. *)
Definition backend := outbound -> outcome.

(** What the HTTP client does on its own account, with the defaults the
    gateway leaves in place, and what this repository does not hold: how
    many redirects it follows (a default of the library, and not 0, which
    would turn the following of redirects off); the request it issues for
    a redirect, by the rules of the library (the Location resolved against
    the URL of the request, GET in place of POST after a 301 or a 302 and
    in place of every method but GET and HEAD after a 303), or the message
    of the error when it cannot; and the message of the error when the
    redirects are too many. *)
Record client := Client {
  maxRedirects : nat;
  redirected : outbound -> Z -> string -> outbound + string;
  too_many_redirects : string
}.

(** The [validateStatus] axios has by default, on the response an exchange
    ends with: statuses from 200 to 299 fulfil the promise. *)
Definition validate (st : Z) (data : value) : settled :=
  if (200 <=? st) && (st <? 300) then Fulfilled st data
  else Rejected (Some st)
         ("Request failed with status code " +:+ number_to_string (Dec st 0)).

(** One axios call, from the request [o] on, with [left] redirects still
    allowed: a response with a status from 300 to 399 and a Location is not
    handed over, the request of the redirect is issued in its place; any
    other response ends the exchange. *)
Fixpoint follow (k : client) (b : backend) (left : nat) (o : outbound) : settled :=
  match b o with
  | NoResponse message => Rejected None message
  | Responded st (Some location) data =>
      if (300 <=? st) && (st <? 400) then
        match left with
        | O => Rejected None (too_many_redirects k)
        | S left' =>
            match redirected k o st location with
            | inl o' => follow k b left' o'
            | inr message => Rejected None message
            end
        end
      else validate st data
  | Responded st None data => validate st data
  end.

(** [axios.get(url)], [axios.post(url, data)], ...: the request the call
    starts with, and how the promise settles. *)
Definition axios (k : client) (b : backend) (m : method) (url : string)
    (data : option value) : outbound * settled :=
  let o := Outbound m url data in (o, follow k b (maxRedirects k) o).

(** The bodies the gateway sends. *)
Inductive gbody :=
  | Relay (data : value)                  (* res.json(response.data) *)
  | NotFound (error : string)             (* { error } *)
  | Failed (error message : string).      (* { error, message } *)

Definition greply := response gbody.

(** [error.response && error.response.status === 404] *)
Definition is_404 (response_status : option Z) : bool :=
  match response_status with
  | Some st => st =? 404
  | None => false
  end.

Section Handlers.
Context (c : config) (k : client) (b : backend).

(** Every handler gives the request its axios call starts with and the
    response it sent. [id] is [req.params.id]. *)

(** app.get('/api/users') *)
Definition get_api_users : outbound * greply :=
  let '(o, r) := axios k b GET (USERS_SERVICE_URL c +:+ "/users") None in
  (o, match r with
      | Fulfilled _ data => Response 200 (Relay data)
      | Rejected _ message => Response 500 (Failed "Failed to fetch users" message)
      end).

(** app.get('/api/users/:id') *)
Definition get_api_user (id : string) : outbound * greply :=
  let '(o, r) := axios k b GET (USERS_SERVICE_URL c +:+ "/users/" +:+ id) None in
  (o, match r with
      | Fulfilled _ data => Response 200 (Relay data)
      | Rejected st message =>
          if is_404 st then Response 404 (NotFound "User not found")
          else Response 500 (Failed "Failed to fetch user" message)
      end).

(** app.post('/api/users') *)
Definition post_api_users (req_body : value) : outbound * greply :=
  let '(o, r) :=
    axios k b POST (USERS_SERVICE_URL c +:+ "/users") (Some req_body) in
  (o, match r with
      | Fulfilled _ data => Response 201 (Relay data)
      | Rejected _ message => Response 500 (Failed "Failed to create user" message)
      end).

(** app.put('/api/users/:id') *)
Definition put_api_user (id : string) (req_body : value) : outbound * greply :=
  let '(o, r) :=
    axios k b PUT (USERS_SERVICE_URL c +:+ "/users/" +:+ id) (Some req_body) in
  (o, match r with
      | Fulfilled _ data => Response 200 (Relay data)
      | Rejected st message =>
          if is_404 st then Response 404 (NotFound "User not found")
          else Response 500 (Failed "Failed to update user" message)
      end).

(** app.delete('/api/users/:id') *)
Definition delete_api_user (id : string) : outbound * greply :=
  let '(o, r) :=
    axios k b DELETE (USERS_SERVICE_URL c +:+ "/users/" +:+ id) None in
  (o, match r with
      | Fulfilled _ data => Response 200 (Relay data)
      | Rejected st message =>
          if is_404 st then Response 404 (NotFound "User not found")
          else Response 500 (Failed "Failed to delete user" message)
      end).

(** app.get('/api/products') *)
Definition get_api_products : outbound * greply :=
  let '(o, r) := axios k b GET (PRODUCTS_SERVICE_URL c +:+ "/products") None in
  (o, match r with
      | Fulfilled _ data => Response 200 (Relay data)
      | Rejected _ message => Response 500 (Failed "Failed to fetch products" message)
      end).

(** app.get('/api/products/:id') *)
Definition get_api_product (id : string) : outbound * greply :=
  let '(o, r) :=
    axios k b GET (PRODUCTS_SERVICE_URL c +:+ "/products/" +:+ id) None in
  (o, match r with
      | Fulfilled _ data => Response 200 (Relay data)
      | Rejected st message =>
          if is_404 st then Response 404 (NotFound "Product not found")
          else Response 500 (Failed "Failed to fetch product" message)
      end).

(** app.post('/api/products') *)
Definition post_api_products (req_body : value) : outbound * greply :=
  let '(o, r) :=
    axios k b POST (PRODUCTS_SERVICE_URL c +:+ "/products") (Some req_body) in
  (o, match r with
      | Fulfilled _ data => Response 201 (Relay data)
      | Rejected _ message => Response 500 (Failed "Failed to create product" message)
      end).

(** app.put('/api/products/:id') *)
Definition put_api_product (id : string) (req_body : value) : outbound * greply :=
  let '(o, r) :=
    axios k b PUT (PRODUCTS_SERVICE_URL c +:+ "/products/" +:+ id) (Some req_body) in
  (o, match r with
      | Fulfilled _ data => Response 200 (Relay data)
      | Rejected st message =>
          if is_404 st then Response 404 (NotFound "Product not found")
          else Response 500 (Failed "Failed to update product" message)
      end).

(** app.delete('/api/products/:id') *)
Definition delete_api_product (id : string) : outbound * greply :=
  let '(o, r) :=
    axios k b DELETE (PRODUCTS_SERVICE_URL c +:+ "/products/" +:+ id) None in
  (o, match r with
      | Fulfilled _ data => Response 200 (Relay data)
      | Rejected st message =>
          if is_404 st then Response 404 (NotFound "Product not found")
          else Response 500 (Failed "Failed to delete product" message)
      end).

End Handlers.

(** The proxied routes, as Express has matched them. On an :id route, [id]
    is [req.params.id]: the segment of the path after Express has
    percent-decoded it, so that the segment "1%3Flimit=1" comes as the id
    "1?limit=1". *)
Inductive resource := UsersR | ProductsR.

Inductive route :=
  | Collection (m : method) (res : resource)      (* /api/users, /api/products *)
  | Item (m : method) (res : resource) (id : string). (* /api/users/:id, ... *)

(** An incoming request on a proxied route, as Express hands it to the
    handler: the route, the path and the query string as they stand in the
    URL of the request (the query string empty, or from the "?" on) and
    the parsed body [req.body]. *)
Record request := Request {
  req_route : route;
  req_path : string;
  req_query : string;
  req_body : value
}.

(** Dispatch. [None]: no proxied route is defined for this method and
    path, and the request falls through to the gateway's 404 handler. *)
Definition gateway (c : config) (k : client) (b : backend) (r : request)
  : option (outbound * greply) :=
  match req_route r with
  | Collection GET UsersR => Some (get_api_users c k b)
  | Collection POST UsersR => Some (post_api_users c k b (req_body r))
  | Item GET UsersR id => Some (get_api_user c k b id)
  | Item PUT UsersR id => Some (put_api_user c k b id (req_body r))
  | Item DELETE UsersR id => Some (delete_api_user c k b id)
  | Collection GET ProductsR => Some (get_api_products c k b)
  | Collection POST ProductsR => Some (post_api_products c k b (req_body r))
  | Item GET ProductsR id => Some (get_api_product c k b id)
  | Item PUT ProductsR id => Some (put_api_product c k b id (req_body r))
  | Item DELETE ProductsR id => Some (delete_api_product c k b id)
  | _ => None
  end.

(** Whether a route is one of the ten defined ones. *)
Definition defined_route (rt : route) : bool :=
  match rt with
  | Collection GET _ | Collection POST _ => true
  | Item GET _ _ | Item PUT _ _ | Item DELETE _ _ => true
  | _ => false
  end.

(** Reading a route: its method and the backend it names. *)
Definition route_method (rt : route) : method :=
  match rt with
  | Collection m _ | Item m _ _ => m
  end.

Definition route_resource (rt : route) : resource :=
  match rt with
  | Collection _ res | Item _ res _ => res
  end.

Definition base_url (c : config) (res : resource) : string :=
  match res with
  | UsersR => USERS_SERVICE_URL c
  | ProductsR => PRODUCTS_SERVICE_URL c
  end.

Definition collection_path (res : resource) : string :=
  match res with
  | UsersR => "/users"
  | ProductsR => "/products"
  end.

(** The text a handler puts after the base URL: the path of the
    collection and, on an :id route, "/" and [req.params.id] as it is. *)
Definition path_suffix (rt : route) : string :=
  match rt with
  | Collection _ res => collection_path res
  | Item _ res id => collection_path res +:+ "/" +:+ id
  end.

(** The path of the incoming request without its "/api" prefix. *)
Definition spec_path_suffix (r : request) : string :=
  match drop_prefix "/api" (req_path r) with
  | Some suffix => suffix
  | None => req_path r
  end.

(** The outbound request the specification describes: method, path
    suffix, query string and JSON body forwarded unchanged. *)
Definition spec_outbound (c : config) (r : request) : outbound :=
  let rt := req_route r in
  {| o_method := route_method rt;
     o_url := base_url c (route_resource rt) +:+ spec_path_suffix r
                +:+ req_query r;
     o_data :=
       match route_method rt with
       | POST | PUT => Some (req_body r)
       | GET | DELETE => None
       end |}.

(** Verbatim forwarding, as the specification words it: the request
    issued is [spec_outbound], and a successful backend response is relayed
    with its own status code and body. *)
Definition forwards_verbatim (c : config) (k : client) (b : backend)
    (r : request) : Prop :=
  forall o a, gateway c k b r = Some (o, a) ->
    o = spec_outbound c r /\
    forall st location data,
      b o = Responded st location data -> 200 <= st < 300 ->
      a = Response st (Relay data).

(** A client for the examples: it follows up to 21 redirects and takes the
    Location for the URL of the next request, which is right for an
    absolute Location, with the method and the body of the request before,
    which is right for a GET. *)
Definition example_client : client :=
  {| maxRedirects := 21;
     redirected := fun o _ location =>
                     inl (Outbound (o_method o) location (o_data o));
     too_many_redirects := "Maximum number of redirects exceeded" |}.

(** The words of the error bodies. *)
Definition verb (m : method) : string :=
  match m with
  | GET => "fetch"
  | POST => "create"
  | PUT => "update"
  | DELETE => "delete"
  end.

Definition singular (res : resource) : string :=
  match res with
  | UsersR => "user"
  | ProductsR => "product"
  end.

Definition not_found_error (res : resource) : string :=
  match res with
  | UsersR => "User not found"
  | ProductsR => "Product not found"
  end.

End Gateway.

(** ** More of the JavaScript fragment: text and order *)
Module JsText.
Import Js.

(** What a call or a property read gives: a value, or a thrown TypeError
    with its message. *)
Inductive completion (A : Type) :=
  | Returns (a : A)
  | Throws (message : string).
Arguments Returns {A} a.
Arguments Throws {A} message.

(** [String.prototype.toLowerCase] on characters below 256: the letters A
    to Z, and the letters from code 192 to 222 but for the multiplication
    sign 215, move up by 32. *)
Definition lower_char (c : ascii) : ascii :=
  let n := code c in
  if ((65 <=? n) && (n <=? 90))
     || ((192 <=? n) && (n <=? 222) && negb (n =? 215))
  then ascii_of_N (Z.to_N (n + 32))
  else c.

Fixpoint toLowerCase (s : string) : string :=
  match s with
  | String c r => String (lower_char c) (toLowerCase r)
  | EmptyString => EmptyString
  end.

(** [v.toLowerCase()] on a value of the store, [expr] being the text of
    the expression [v] in the source: a string has the method; on null and
    undefined the property read throws; on anything else the property is
    undefined and the call throws. *)
Definition call_toLowerCase (expr : string) (v : value) : completion string :=
  match v with
  | VStr s => Returns (toLowerCase s)
  | VNull => Throws "Cannot read properties of null (reading 'toLowerCase')"
  | VUndefined =>
      Throws "Cannot read properties of undefined (reading 'toLowerCase')"
  | VBool _ | VNum _ | VArr _ | VObj _ =>
      Throws (expr +:+ ".toLowerCase is not a function")
  end.

(** [s.includes(t)]: [t] occurs in [s]. *)
Fixpoint includes (s t : string) : bool :=
  String.prefix t s ||
  match s with
  | String _ r => includes r t
  | EmptyString => false
  end.

(** [l.filter(f)] with a callback that may throw: the first throw ends
    the filtering. *)
Fixpoint filter_throwing {A} (f : A -> completion bool) (l : list A)
  : completion (list A) :=
  match l with
  | [] => Returns []
  | x :: r =>
      match f x with
      | Throws message => Throws message
      | Returns keep =>
          match filter_throwing f r with
          | Throws message => Throws message
          | Returns r' => Returns (if keep then x :: r' else r')
          end
      end
  end.

(** The order of numbers; [None] when one of them is NaN. *)
Definition num_compare (x y : number) : option comparison :=
  match x, y with
  | NaN, _ | _, NaN => None
  | Infinity a, Infinity b =>
      Some (if a then (if b then Eq else Lt) else (if b then Gt else Eq))
  | Infinity a, Dec _ _ => Some (if a then Lt else Gt)
  | Dec _ _, Infinity b => Some (if b then Gt else Lt)
  | Dec m1 e1, Dec m2 e2 =>
      let mn := Z.min e1 e2 in
      Some (m1 * 10 ^ (e1 - mn) ?= m2 * 10 ^ (e2 - mn))
  end.

(** [x >= y] and [x <= y]: false when one of them is NaN. *)
Definition num_ge (x y : number) : bool :=
  match num_compare x y with
  | Some Gt | Some Eq => true
  | Some Lt | None => false
  end.

Definition num_le (x y : number) : bool :=
  match num_compare x y with
  | Some Lt | Some Eq => true
  | Some Gt | None => false
  end.

End JsText.

(** ** users-service/index.js: the statistics *)
Module UsersStats.
Import Js Http Users.

(** The body of GET /stats/users: { total, byRole: { admin, user },
    recentUsers }. *)
Record stats := Stats {
  total : nat;
  byRole_admin : nat;
  byRole_user : nat;
  recentUsers : list user
}.

(** [users.slice(-5)] *)
Definition last_five (l : list user) : list user := drop (length l - 5) l.

(** app.get('/stats/users') *)
Definition get_stats_users (s : store) : response stats :=
  Response 200
    {| total := length (users s);
       byRole_admin :=
         length (List.filter (fun u => strict_eq (role u) (VStr "admin")) (users s));
       byRole_user :=
         length (List.filter (fun u => strict_eq (role u) (VStr "user")) (users s));
       recentUsers := reverse (last_five (users s)) |}.

(** Every ID in the store is there once. *)
Definition ids_unique (s : store) : Prop := NoDup (id <$> users s).

(** No two records of the store have the same e-mail. *)
Definition emails_unique (s : store) : Prop :=
  forall i j ui uj,
    users s !! i = Some ui -> users s !! j = Some uj -> i <> j ->
    strict_eq (email ui) (email uj) = false.

End UsersStats.

(** ** products-service/index.js: the queries *)
Module Catalog.
Import Js JsText Http Products.

(** A query parameter: absent, or the string after the "=". *)
Definition query (q : option string) : value :=
  match q with
  | Some s => VStr s
  | None => VUndefined
  end.

(** One filtering step of the listing, skipped when the parameter is
    falsy. *)
Definition refine (q : option string)
    (f : string -> product -> completion bool)
    (c : completion (list product)) : completion (list product) :=
  match c with
  | Throws message => Throws message
  | Returns l =>
      match q with
      | Some v => if truthy (VStr v) then filter_throwing (f v) l else Returns l
      | None => Returns l
      end
  end.

(** app.get('/products') *)
Definition get_products (s : store)
    (qcategory qminPrice qmaxPrice qlimit : option string) : reply :=
  let filteredProducts := Returns (products s) in
  let filteredProducts :=
    refine qcategory
      (fun category p =>
         match call_toLowerCase "p.category" (Products.category p) with
         | Throws message => Throws message
         | Returns c => Returns (String.eqb c (toLowerCase category))
         end)
      filteredProducts in
  let filteredProducts :=
    refine qminPrice
      (fun minPrice p => Returns (num_ge (price p) (parseFloat_string minPrice)))
      filteredProducts in
  let filteredProducts :=
    refine qmaxPrice
      (fun maxPrice p => Returns (num_le (price p) (parseFloat_string maxPrice)))
      filteredProducts in
  match filteredProducts with
  | Throws message => Response 500 (Internal "Internal server error" message)
  | Returns l =>
      let l :=
        match qlimit with
        | Some limit =>
            if truthy (VStr limit) then slice0 l (parseInt_string limit) else l
        | None => l
        end in
      Response 200 (Listing (length l) l)
  end.

(** The bodies of GET /search. *)
Inductive sbody :=
  | Found (query : string) (count : nat) (products : list product)
      (* { query, count, products } *)
  | Usage (error usage : string)
      (* { error, usage } *)
  | Crashed (error message : string).
      (* the error-handling middleware: { error, message } *)

(** The callback of the filter of GET /search: the three tests are tried
    in order, and a later one is not evaluated once one holds. *)
Definition matches (searchTerm : string) (p : product) : completion bool :=
  match call_toLowerCase "p.name" (name p) with
  | Throws message => Throws message
  | Returns n =>
      if includes n searchTerm then Returns true
      else
        match call_toLowerCase "p.description" (description p) with
        | Throws message => Throws message
        | Returns d =>
            if includes d searchTerm then Returns true
            else
              match call_toLowerCase "p.category" (category p) with
              | Throws message => Throws message
              | Returns c => Returns (includes c searchTerm)
              end
        end
  end.

(** app.get('/search') *)
Definition search (s : store) (qq : option string) : response sbody :=
  match qq with
  | Some q =>
      if truthy (VStr q) then
        let searchTerm := toLowerCase q in
        match filter_throwing (matches searchTerm) (products s) with
        | Returns results => Response 200 (Found q (length results) results)
        | Throws message => Response 500 (Crashed "Internal server error" message)
        end
      else Response 400 (Usage "Search query is required" "/search?q=laptop")
  | None => Response 400 (Usage "Search query is required" "/search?q=laptop")
  end.

(** Every ID in the store is there once. *)
Definition ids_unique (s : store) : Prop := NoDup (id <$> products s).

(** The records whose name, description and category are strings. *)
Definition is_string (v : value) : bool :=
  match v with
  | VStr _ => true
  | _ => false
  end.

Definition textual (p : product) : bool :=
  is_string (name p) && is_string (description p) && is_string (category p).

(** A query parameter that is there and is not the empty string. *)
Definition given (q : option string) : option string :=
  match q with
  | Some v => if truthy (VStr v) then Some v else None
  | None => None
  end.

(** What the category, minPrice and maxPrice of a listing ask of a record,
    taken together. *)
Definition selected (qcategory qminPrice qmaxPrice : option string) (p : product)
  : bool :=
  match given qcategory with
  | Some c =>
      match category p with
      | VStr pc => String.eqb (toLowerCase pc) (toLowerCase c)
      | _ => false
      end
  | None => true
  end
  && match given qminPrice with
     | Some v => num_ge (price p) (parseFloat_string v)
     | None => true
     end
  && match given qmaxPrice with
     | Some v => num_le (price p) (parseFloat_string v)
     | None => true
     end.

(** The cut of a listing by its limit. *)
Definition limited {A} (qlimit : option string) (l : list A) : list A :=
  match given qlimit with
  | Some v => slice0 l (parseInt_string v)
  | None => l
  end.

(** Whether the text [x], in lower case, has the search term in it. *)
Definition has_term (term : string) (v : value) : bool :=
  match v with
  | VStr x => includes (toLowerCase x) term
  | _ => false
  end.

Definition found (q : string) (p : product) : bool :=
  has_term (toLowerCase q) (name p)
  || has_term (toLowerCase q) (description p)
  || has_term (toLowerCase q) (category p).

End Catalog.

(** ** gateway/index.js: the texts and codes of the collection routes *)
Module GatewayCollections.
Import Gateway.

Definition plural (res : resource) : string :=
  match res with
  | UsersR => "users"
  | ProductsR => "products"
  end.

(** The [error] of the catch block of a collection route. *)
Definition collection_error (m : method) (res : resource) : string :=
  "Failed to " +:+ verb m +:+ " "
  +:+ match m with
      | GET => plural res
      | _ => singular res
      end.

(** The status the route sends when the backend call is fulfilled. *)
Definition success_status (m : method) : Z :=
  match m with
  | POST => 201
  | _ => 200
  end.

End GatewayCollections.

(** * Properties *)

(** ** Facts on the JavaScript fragment *)
Module JsFacts.
Import Js.

(** stdpp keeps [simpl] from unfolding string concatenation: its two
    equations, as rewrite rules. *)
Lemma append_cons x (a b : string) : String x a +:+ b = String x (a +:+ b).
Proof. reflexivity. Qed.

Lemma append_nil_l (b : string) : "" +:+ b = b.
Proof. reflexivity. Qed.

Ltac str_simpl := rewrite ?append_cons, ?append_nil_l.

Lemma append_assoc (a b c : string) : (a +:+ b) +:+ c = a +:+ (b +:+ c).
Proof. induction a as [|x a IH]; str_simpl; [done | by rewrite IH]. Qed.

Lemma append_empty_r (a : string) : a +:+ "" = a.
Proof. induction a as [|x a IH]; str_simpl; [done | by rewrite IH]. Qed.

Lemma length_append (a b : string) :
  String.length (a +:+ b) = (String.length a + String.length b)%nat.
Proof. induction a as [|x a IH]; str_simpl; simpl; [done | by rewrite IH]. Qed.

(** A decimal digit character: its code is between 48 and 57. *)
Lemma is_digit_code c : is_digit 10 c = true <-> 48 <= code c <= 57.
Proof.
  unfold is_digit, radix_digit, digit_val.
  assert (0 <= code c < 256) as Hc.
  { unfold code. pose proof (N_ascii_bounded c). lia. }
  repeat case_match; simplify_eq; split; intros; try done; lia.
Qed.

Lemma radix_digit_dec c :
  is_digit 10 c = true -> radix_digit 10 c = Some (code c - 48).
Proof.
  intros H. pose proof (proj1 (is_digit_code c) H) as Hc.
  unfold radix_digit, digit_val.
  repeat case_match; simplify_eq; try done; lia.
Qed.

Lemma radix_digit_not_dec c : is_digit 10 c = false -> radix_digit 10 c = None.
Proof. unfold is_digit. by destruct (radix_digit 10 c). Qed.

Lemma code_digit_char d : 0 <= d < 10 -> code (digit_char d) = 48 + d.
Proof.
  intros H. unfold code, digit_char.
  rewrite N_ascii_embedding; lia.
Qed.

Lemma is_digit_digit_char d : 0 <= d < 10 -> is_digit 10 (digit_char d) = true.
Proof. intros H. apply is_digit_code. rewrite code_digit_char; lia. Qed.

Lemma digit_not_ws c : is_digit 10 c = true -> is_ws c = false.
Proof. intros H%is_digit_code. unfold is_ws. lia. Qed.

Lemma digit_not_char c (x : ascii) :
  is_digit 10 c = true -> ¬ (48 <= code x <= 57) -> Ascii.eqb c x = false.
Proof.
  intros H%is_digit_code Hx. apply Ascii.eqb_neq. intros ->. lia.
Qed.

Lemma strip_sign_digit s : head_digit s = true -> strip_sign s = (false, s).
Proof.
  destruct s as [|c r]; simpl; [done|]. intros H.
  rewrite !(digit_not_char c) by (done || (vm_compute; intros [? ?]; done)).
  done.
Qed.

Lemma skip_ws_digit s : head_digit s = true -> skip_ws s = s.
Proof.
  destruct s as [|c r]; simpl; [done|]. intros H. by rewrite digit_not_ws.
Qed.

Lemma strip_hex_prefix_plain s :
  hex_prefixed s = false -> strip_hex_prefix s = (10, s).
Proof.
  destruct s as [|c0 [|c1 r]]; try done.
  unfold strip_hex_prefix. by intros ->.
Qed.

Lemma dec_string_not_hex d : dec_string d = true -> hex_prefixed d = false.
Proof.
  destruct d as [|c0 [|c1 r]]; try done. simpl.
  rewrite !andb_true_iff. intros (_ & H1 & _).
  rewrite (digit_not_char c1 "x"), (digit_not_char c1 "X");
    [by rewrite andb_false_r | idtac..];
    (done || (vm_compute; intros [? ?]; done)).
Qed.

Lemma head_digit_app d r :
  d <> "" -> head_digit (d +:+ r) = head_digit d.
Proof. by destruct d. Qed.

Lemma dec_string_head d : dec_string d = true -> d <> "" -> head_digit d = true.
Proof.
  destruct d as [|c r]; simpl; [done|]. by intros [? _]%andb_true_iff.
Qed.

(** Reading a string of decimal digits followed by something that does
    not start with one. *)
Lemma read_digits_dec d r acc n :
  dec_string d = true -> head_digit r = false ->
  read_digits 10 acc n (d +:+ r) = (dec_value acc d, (n + String.length d)%nat, r).
Proof.
  intros Hd Hr. revert acc n Hd.
  induction d as [|c d IH]; intros acc n Hd; str_simpl; simpl.
  - rewrite Nat.add_0_r. destruct r as [|c r]; simpl in *; [done|].
    by rewrite radix_digit_not_dec.
  - simpl in Hd. apply andb_true_iff in Hd as [Hc Hd].
    rewrite (radix_digit_dec c Hc), IH by done.
    do 2 f_equal. lia.
Qed.

Lemma read_digits_dec_all d acc n :
  dec_string d = true ->
  read_digits 10 acc n d = (dec_value acc d, (n + String.length d)%nat, "").
Proof.
  intros Hd. rewrite <- (append_empty_r d) at 1. by apply read_digits_dec.
Qed.

(** [parseInt] on a string that starts with decimal digits and carries no
    hexadecimal prefix: the value of the digits. *)
Lemma parseInt_string_dec d r :
  dec_string d = true -> d <> "" -> head_digit r = false ->
  hex_prefixed (d +:+ r) = false ->
  parseInt_string (d +:+ r) = Some (dec_value 0 d).
Proof.
  intros Hd Hne Hr Hx. unfold parseInt_string.
  assert (head_digit (d +:+ r) = true) as Hh.
  { rewrite head_digit_app by done. by apply dec_string_head. }
  rewrite skip_ws_digit, strip_sign_digit, strip_hex_prefix_plain by done.
  rewrite read_digits_dec by done.
  destruct d; [done|]. done.
Qed.

Lemma parseInt_string_dec_all d :
  dec_string d = true -> d <> "" -> parseInt_string d = Some (dec_value 0 d).
Proof.
  intros Hd Hne. rewrite <- (append_empty_r d) at 1.
  apply parseInt_string_dec; try done.
  rewrite append_empty_r. by apply dec_string_not_hex.
Qed.

Lemma parseInt_leading_digits d r :
  dec_string d = true -> d <> "" -> head_digit r = false ->
  hex_prefixed (d +:+ r) = false ->
  parseInt_string (d +:+ r) = parseInt_string d.
Proof.
  intros. by rewrite parseInt_string_dec, parseInt_string_dec_all.
Qed.

Lemma dec_string_app a b :
  dec_string (a +:+ b) = dec_string a && dec_string b.
Proof.
  induction a as [|c a IH]; str_simpl; simpl; [done|].
  by rewrite IH, andb_assoc.
Qed.

Lemma dec_value_app a b acc :
  dec_value acc (a +:+ b) = dec_value (dec_value acc a) b.
Proof.
  revert acc. induction a as [|c a IH]; intros acc; str_simpl; simpl; [done|].
  by rewrite IH.
Qed.

Lemma dec_string_zeros k : dec_string (zeros k) = true.
Proof. induction k; simpl; [done|]. by rewrite IHk. Qed.

Lemma length_zeros k : String.length (zeros k) = k.
Proof. induction k; simpl; [done|]. by rewrite IHk. Qed.

Lemma dec_value_zeros k acc :
  dec_value acc (zeros k) = acc * 10 ^ Z.of_nat k.
Proof.
  revert acc. induction k as [|k IH]; intros acc.
  - simpl. lia.
  - cbn [zeros dec_value]. rewrite IH.
    replace (code "0" - 48) with 0 by done.
    rewrite Nat2Z.inj_succ, Z.pow_succ_r by lia. lia.
Qed.

(** The digits the printer emits for [n]: decimal, at least one, writing
    [n], and without a leading zero unless [n] is 0. *)
Lemma digits_aux_spec fuel n acc :
  0 <= n < 2 ^ Z.of_nat fuel -> (0 < fuel)%nat ->
  exists ds,
    digits_aux fuel n acc = ds +:+ acc /\
    dec_string ds = true /\ ds <> "" /\
    (forall a, dec_value a ds = a * 10 ^ Z.of_nat (String.length ds) + n) /\
    (0 < n -> 10 ^ (Z.of_nat (String.length ds) - 1) <= n).
Proof.
  revert n acc. induction fuel as [|f IH]; intros n acc Hn Hf; [lia|].
  cbn [digits_aux].
  assert (0 <= n mod 10 < 10) as Hmod by (apply Z.mod_pos_bound; lia).
  destruct (n <? 10) eqn:Hlt.
  - apply Z.ltb_lt in Hlt. rewrite Z.mod_small by lia.
    exists (String (digit_char n) ""). split_and!; try done.
    + simpl. by rewrite is_digit_digit_char by lia.
    + intros a. simpl. rewrite code_digit_char by lia. lia.
    + intros ?. simpl. lia.
  - apply Z.ltb_ge in Hlt.
    assert (0 < f)%nat as Hf'.
    { destruct f; [|lia]. simpl in Hn. lia. }
    assert (0 < n / 10) as Hq by (apply Z.div_str_pos; lia).
    destruct (IH (n / 10) (String (digit_char (n mod 10)) acc)) as
      (ds & Heq & Hdec & Hne & Hval & Hlow); [|done|].
    { split; [lia|].
      rewrite Nat2Z.inj_succ, Z.pow_succ_r in Hn by lia.
      apply Z.div_lt_upper_bound; lia. }
    exists (ds +:+ String (digit_char (n mod 10)) "").
    rewrite Heq, append_assoc. split_and!; try done.
    + rewrite dec_string_app, Hdec. simpl.
      by rewrite is_digit_digit_char.
    + by destruct ds.
    + intros a. rewrite dec_value_app, Hval, length_append. simpl.
      rewrite code_digit_char by done.
      rewrite Nat2Z.inj_add, Z.pow_add_r by lia.
      pose proof (Z.div_mod n 10). lia.
    + intros _. rewrite length_append. simpl.
      replace (Z.of_nat (String.length ds + 1) - 1)
        with (Z.succ (Z.of_nat (String.length ds) - 1)) by lia.
      assert (0 < Z.of_nat (String.length ds)).
      { destruct ds; [done | simpl; lia]. }
      rewrite Z.pow_succ_r by lia.
      pose proof (Z.div_mod n 10). specialize (Hlow Hq). lia.
Qed.

Lemma digits_spec n :
  0 <= n ->
  dec_string (digits n) = true /\ digits n <> "" /\
  (forall a, dec_value a (digits n)
             = a * 10 ^ Z.of_nat (String.length (digits n)) + n) /\
  (0 < n -> 10 ^ (Z.of_nat (String.length (digits n)) - 1) <= n).
Proof.
  intros Hn. unfold digits.
  destruct (digits_aux_spec (S (Z.to_nat (Z.log2 n))) n "")
    as (ds & Heq & H); [|lia|].
  - split; [done|]. rewrite Nat2Z.inj_succ, Z2Nat.id by apply Z.log2_nonneg.
    destruct (decide (n = 0)) as [->|]; [done|].
    apply Z.log2_spec. lia.
  - rewrite Heq, append_empty_r. done.
Qed.

(** Dropping trailing zeros keeps the number. *)
Lemma strip_zeros_spec fuel m e m' e' :
  0 < m -> strip_zeros fuel m e = (m', e') ->
  0 < m' /\ e <= e' /\ m' * 10 ^ (e' - e) = m.
Proof.
  revert m e. induction fuel as [|f IH]; intros m e Hm; simpl.
  - intros [= <- <-]. rewrite Z.sub_diag. lia.
  - destruct (m mod 10 =? 0) eqn:Hmod.
    + apply Z.eqb_eq in Hmod. intros Heq.
      pose proof (Z.div_mod m 10).
      apply IH in Heq as (? & ? & Hval); [|lia].
      split_and!; [done | lia |].
      replace (e' - e) with (Z.succ (e' - (e + 1))) by lia.
      rewrite Z.pow_succ_r by lia. lia.
    + intros [= <- <-]. rewrite Z.sub_diag. lia.
Qed.

(** An integer below 10^21 prints as its digits, in full. *)
Lemma positive_to_string_int m e :
  0 < m -> 0 <= e -> m * 10 ^ e < 10 ^ 21 ->
  positive_to_string m e = digits m +:+ zeros (Z.to_nat e).
Proof.
  intros Hm He Hlt. unfold positive_to_string.
  destruct (digits_spec m) as (_ & Hne & _ & Hlow); [lia|].
  specialize (Hlow Hm).
  set (k := Z.of_nat (String.length (digits m))) in *.
  assert (0 < k).
  { unfold k. destruct (digits m); [done | simpl; lia]. }
  assert (k - 1 + e < 21).
  { apply (Z.pow_lt_mono_r_iff 10); [lia | lia |].
    rewrite Z.pow_add_r by lia.
    assert (0 < 10 ^ e) by (apply Z.pow_pos_nonneg; lia). nia. }
  replace ((k <=? k + e) && (k + e <=? 21)) with true.
  - do 2 f_equal. lia.
  - symmetry. apply andb_true_iff. lia.
Qed.

Lemma parseInt_string_neg b :
  dec_string b = true -> b <> "" ->
  parseInt_string (String "-" b) = Some (- dec_value 0 b).
Proof.
  intros Hb Hne. unfold parseInt_string.
  cbn [skip_ws]. replace (is_ws "-") with false by done.
  cbn [strip_sign]. replace (Ascii.eqb "-" "-") with true by done.
  rewrite strip_hex_prefix_plain by (by apply dec_string_not_hex).
  rewrite read_digits_dec_all by done.
  destruct b; [done|]. done.
Qed.

(** On an integer, dropping the trailing zeros of the mantissa ends on an
    exponent that is not negative. *)
Lemma strip_zeros_int fuel m e m' e' :
  0 < m < 2 ^ Z.of_nat fuel ->
  (0 <= e \/ (10 ^ (- e) | m)) ->
  strip_zeros fuel m e = (m', e') -> 0 <= e'.
Proof.
  revert m e. induction fuel as [|f IH]; intros m e Hm Hint; [simpl in Hm; lia|].
  cbn [strip_zeros]. destruct (m mod 10 =? 0) eqn:Hmod.
  - apply Z.eqb_eq in Hmod. pose proof (Z.div_mod m 10) as Hdm.
    apply IH.
    + split; [lia|].
      rewrite Nat2Z.inj_succ, Z.pow_succ_r in Hm by lia.
      apply Z.div_lt_upper_bound; lia.
    + destruct Hint as [He|[j Hj]]; [left; lia|].
      destruct (decide (0 <= e + 1)) as [|Hneg]; [by left|]. right.
      exists j. replace (- e) with (Z.succ (- (e + 1))) in Hj by lia.
      rewrite Z.pow_succ_r in Hj by lia. lia.
  - apply Z.eqb_neq in Hmod. intros [= <- <-].
    destruct Hint as [He|[j Hj]]; [done|].
    destruct (decide (0 <= e)) as [|Hneg]; [done|]. exfalso. apply Hmod.
    replace (- e) with (Z.succ (- e - 1)) in Hj by lia.
    rewrite Z.pow_succ_r in Hj by lia.
    rewrite Hj, (Z.mul_comm 10), Z.mul_assoc. apply Z.mod_mul. lia.
Qed.

(** [parseInt] of an integer below 10^21 in magnitude, passed as a number:
    the integer itself. *)
Lemma parseInt_integer x q :
  num_int_value x = Some q -> Z.abs q < 10 ^ 21 ->
  parseInt_string (number_to_string x) = Some q.
Proof.
  destruct x as [| |m e]; try done. unfold num_int_value, number_to_string.
  intros Hx Hq.
  destruct (m =? 0) eqn:H0.
  { apply Z.eqb_eq in H0 as ->. assert (q = 0) as ->; [|done].
    destruct (0 <=? e); [by simplify_eq|].
    destruct (0 mod 10 ^ (- e) =? 0); [|done].
    simplify_eq. apply Zdiv_0_l. }
  apply Z.eqb_neq in H0.
  destruct (strip_zeros _ (Z.abs m) e) as [m' e'] eqn:Hs.
  assert (0 <= e') as He'.
  { eapply strip_zeros_int; [| |exact Hs].
    - split; [lia|]. rewrite Nat2Z.inj_succ, Z2Nat.id by apply Z.log2_nonneg.
      apply Z.log2_spec. lia.
    - destruct (0 <=? e) eqn:He; [left; lia|]. right.
      destruct (m mod 10 ^ (- e) =? 0) eqn:Hmod; [|done].
      apply Z.eqb_eq in Hmod. apply Z.divide_abs_r.
      apply Z.mod_divide; [|done]. apply Z.pow_nonzero; lia. }
  apply strip_zeros_spec in Hs as (Hm' & Hee' & Hval); [|lia].
  assert (m' * 10 ^ e' = Z.abs q /\ (q < 0 <-> m < 0)) as [Habs Hsign].
  { destruct (0 <=? e) eqn:He.
    - apply Z.leb_le in He. simplify_eq.
      assert (0 < 10 ^ e) by (apply Z.pow_pos_nonneg; lia).
      split; [|nia].
      rewrite Z.abs_mul, (Z.abs_eq (10 ^ e)) by lia.
      replace e' with ((e' - e) + e) by lia.
      rewrite Z.pow_add_r by lia. lia.
    - apply Z.leb_gt in He.
      destruct (m mod 10 ^ (- e) =? 0) eqn:Hmod; [|done].
      apply Z.eqb_eq in Hmod. simplify_eq.
      assert (0 < 10 ^ (- e)) as Hpow by (apply Z.pow_pos_nonneg; lia).
      pose proof (Z.div_mod m (10 ^ (- e))) as Hdm.
      set (q := m / 10 ^ (- e)) in *.
      assert (m = q * 10 ^ (- e)) as Hm by lia.
      split; [|nia].
      replace (e' - e) with (e' + - e) in Hval by lia.
      rewrite Z.pow_add_r in Hval by lia.
      rewrite Hm, Z.abs_mul, (Z.abs_eq (10 ^ (- e))) in Hval by lia.
      nia. }
  rewrite positive_to_string_int by lia.
  destruct (digits_spec m') as (Hdec & Hne & Hv & _); [lia|].
  set (b := digits m' +:+ zeros (Z.to_nat e')).
  assert (dec_string b = true) as Hb.
  { unfold b. by rewrite dec_string_app, Hdec, dec_string_zeros. }
  assert (b <> "") as Hbne.
  { unfold b. by destruct (digits m'). }
  assert (dec_value 0 b = Z.abs q) as Hbv.
  { unfold b. rewrite dec_value_app, dec_value_zeros, Hv, Z2Nat.id by lia. lia. }
  destruct (m <? 0) eqn:Hneg.
  - apply Z.ltb_lt in Hneg. str_simpl.
    rewrite parseInt_string_neg, Hbv by done. f_equal. lia.
  - apply Z.ltb_ge in Hneg. str_simpl.
    rewrite parseInt_string_dec_all, Hbv by done. f_equal. lia.
Qed.

Lemma plain_app a b : plain (a +:+ b) = plain a && plain b.
Proof.
  induction a as [|c a IH]; str_simpl; simpl; [done|].
  by rewrite IH, andb_assoc.
Qed.

Lemma plain_dec s : dec_string s = true -> plain s = true.
Proof.
  induction s as [|c s IH]; simpl; [done|].
  intros [Hc Hs]%andb_true_iff. unfold plain_char. by rewrite Hc, IH.
Qed.

Lemma plain_substring s i n : plain s = true -> plain (substring i n s) = true.
Proof.
  revert i n. induction s as [|c s IH]; intros i n; simpl.
  - by destruct i, n.
  - intros [Hc Hs]%andb_true_iff.
    destruct i as [|i]; [destruct n as [|n]|]; simpl; auto.
    by rewrite Hc, IH.
Qed.

Lemma plain_char_not_x c :
  plain_char c = true -> Ascii.eqb c "x" || Ascii.eqb c "X" = false.
Proof.
  unfold plain_char. rewrite !orb_true_iff.
  intros [[[[H|H]|H]|H]|H].
  - rewrite !(digit_not_char c) by (done || (vm_compute; intros [? ?]; done)).
    done.
  - by apply Ascii.eqb_eq in H as ->.
  - by apply Ascii.eqb_eq in H as ->.
  - by apply Ascii.eqb_eq in H as ->.
  - by apply Ascii.eqb_eq in H as ->.
Qed.

Lemma plain_not_hex s : plain s = true -> hex_prefixed s = false.
Proof.
  destruct s as [|c0 [|c1 r]]; try done. simpl.
  rewrite !andb_true_iff. intros (_ & H1 & _).
  by rewrite plain_char_not_x, andb_false_r.
Qed.

Lemma head_digit_substring s n :
  head_digit s = true -> head_digit (substring 0 (S n) s) = true.
Proof. by destruct s. Qed.

(** The string of a positive finite number starts with a digit and has
    only plain characters. *)
Lemma positive_to_string_shape m e :
  0 < m ->
  head_digit (positive_to_string m e) = true /\
  plain (positive_to_string m e) = true.
Proof.
  intros Hm. unfold positive_to_string.
  destruct (digits_spec m) as (Hdec & Hne & _ & _); [lia|].
  pose proof (dec_string_head _ Hdec Hne) as Hhead.
  pose proof (plain_dec _ Hdec) as Hplain.
  set (ds := digits m) in *.
  set (k := Z.of_nat (String.length ds)).
  set (ex := (if k + e - 1 <? 0 then "-" else "+") +:+ digits (Z.abs (k + e - 1))).
  assert (plain ex = true) as Hex.
  { unfold ex. destruct (digits_spec (Z.abs (k + e - 1))) as (Hdx & _); [lia|].
    rewrite plain_app, (plain_dec _ Hdx). by case_match. }
  destruct ((k <=? k + e) && (k + e <=? 21)) eqn:C1.
  { rewrite head_digit_app, plain_app, Hplain by done.
    by rewrite plain_dec by apply dec_string_zeros. }
  destruct ((0 <? k + e) && (k + e <=? 21)) eqn:C2.
  { destruct (Z.to_nat (k + e)) as [|n] eqn:Hn; [lia|]. split.
    - rewrite head_digit_app; [by apply head_digit_substring|].
      clearbody ds. by destruct ds.
    - rewrite !plain_app, !plain_substring by done. done. }
  destruct ((-6 <? k + e) && (k + e <=? 0)) eqn:C3.
  { split; [done|]. rewrite !plain_app, Hplain.
    by rewrite (plain_dec (zeros _)) by apply dec_string_zeros. }
  clearbody ex. clear C1 C2 C3. clearbody k. clearbody ds.
  destruct ds as [|d [|c r]]; [done | |].
  - split; [done|]. cbn [plain head_digit] in *.
    apply andb_true_iff in Hplain as [-> _].
    str_simpl. cbn [plain]. by rewrite Hex.
  - split; [done|]. cbn [plain head_digit] in *.
    apply andb_true_iff in Hplain as [-> Hr].
    str_simpl. cbn [plain]. rewrite !plain_app.
    apply andb_true_iff in Hr as [-> ->]. cbn [plain]. by rewrite Hex.
Qed.

Lemma radix_digit_nonneg R c d : radix_digit R c = Some d -> 0 <= d.
Proof.
  unfold radix_digit, digit_val. intros H.
  repeat case_match; simplify_eq; lia.
Qed.

Lemma read_digits_nonneg R acc n s :
  0 <= R -> 0 <= acc ->
  0 <= (read_digits R acc n s).1.1 /\ (n <= (read_digits R acc n s).1.2)%nat.
Proof.
  intros HR. revert acc n.
  induction s as [|c s IH]; intros acc n Hacc; simpl; [lia|].
  destruct (radix_digit R c) as [d|] eqn:Hd; simpl; [|lia].
  apply radix_digit_nonneg in Hd.
  destruct (IH (acc * R + d) (S n)); [nia|]. lia.
Qed.

(** [parseInt] on a string that starts with a decimal digit and has no
    hexadecimal prefix gives an integer that is not negative. *)
Lemma parseInt_string_head_digit s :
  head_digit s = true -> hex_prefixed s = false ->
  exists z, parseInt_string s = Some z /\ 0 <= z.
Proof.
  intros Hh Hx. unfold parseInt_string.
  rewrite skip_ws_digit, strip_sign_digit, strip_hex_prefix_plain by done.
  destruct s as [|c r]; [done|]. simpl in Hh. cbn [read_digits].
  rewrite (radix_digit_dec c Hh).
  pose proof (proj1 (is_digit_code c) Hh).
  destruct (read_digits_nonneg 10 (0 * 10 + (code c - 48)) 1 r) as [Hv Hn];
    [lia | lia |].
  destruct (read_digits 10 _ 1 r) as [[v n] rest]. simpl in *.
  destruct n; [lia|]. eauto.
Qed.

(** [parseInt] of a finite number that is not negative: an integer that is
    not negative. *)
Lemma parseInt_nonneg_number m e :
  0 <= m ->
  exists z, parseInt_string (number_to_string (Dec m e)) = Some z /\ 0 <= z.
Proof.
  intros Hm. unfold number_to_string.
  destruct (m =? 0) eqn:H0; [by exists 0|].
  apply Z.eqb_neq in H0.
  destruct (strip_zeros _ (Z.abs m) e) as [m' e'] eqn:Hs.
  apply strip_zeros_spec in Hs as (Hm' & _ & _); [|lia].
  replace (m <? 0) with false by (symmetry; apply Z.ltb_ge; lia).
  str_simpl.
  destruct (positive_to_string_shape m' e' Hm') as [Hh Hp].
  apply parseInt_string_head_digit; [done|]. by apply plain_not_hex.
Qed.

(** *** [parseFloat] of a positive number *)

Lemma head_nonzero_app a b :
  head_nonzero a = true -> head_nonzero (a +:+ b) = true.
Proof. by destruct a. Qed.

Lemma digits_aux_head fuel n acc :
  0 < n < 2 ^ Z.of_nat fuel -> head_nonzero (digits_aux fuel n acc) = true.
Proof.
  revert n acc. induction fuel as [|f IH]; intros n acc Hn; [simpl in Hn; lia|].
  cbn [digits_aux]. destruct (n <? 10) eqn:Hlt.
  - apply Z.ltb_lt in Hlt. rewrite Z.mod_small by lia. simpl.
    rewrite is_digit_digit_char, code_digit_char by lia.
    apply andb_true_iff. split; [done|]. lia.
  - apply Z.ltb_ge in Hlt. apply IH. split.
    + apply Z.div_str_pos. lia.
    + rewrite Nat2Z.inj_succ, Z.pow_succ_r in Hn by lia.
      apply Z.div_lt_upper_bound; lia.
Qed.

Lemma digits_head_nonzero n : 0 < n -> head_nonzero (digits n) = true.
Proof.
  intros Hn. unfold digits. apply digits_aux_head. split; [done|].
  rewrite Nat2Z.inj_succ, Z2Nat.id by apply Z.log2_nonneg.
  by apply Z.log2_spec.
Qed.

Lemma read_digits_ge R acc n s :
  1 <= R -> 0 <= acc -> acc <= (read_digits R acc n s).1.1.
Proof.
  intros HR. revert acc n.
  induction s as [|c s IH]; intros acc n Hacc; simpl; [lia|].
  destruct (radix_digit R c) as [d|] eqn:Hd; simpl; [|lia].
  apply radix_digit_nonneg in Hd.
  specialize (IH (acc * R + d) (S n)). nia.
Qed.

(** A literal that starts with a digit other than 0 has a positive
    mantissa. *)
Lemma read_mantissa_head_nonzero s :
  head_nonzero s = true ->
  exists m nf s3, read_mantissa s = Some (m, nf, s3) /\ 0 < m.
Proof.
  destruct s as [|c r]; simpl; [done|].
  intros [Hc Hpos]%andb_true_iff. apply Z.ltb_lt in Hpos.
  unfold read_mantissa. cbn [read_digits]. rewrite (radix_digit_dec c Hc).
  pose proof (read_digits_ge 10 (0 * 10 + (code c - 48)) 1 r) as Hge.
  destruct (read_digits_nonneg 10 (0 * 10 + (code c - 48)) 1 r) as [_ Hn];
    [lia | lia |].
  destruct (read_digits 10 _ 1 r) as [[ip ni] s2]. simpl in *.
  destruct ni as [|ni]; [lia|].
  assert (0 < ip) by lia.
  destruct s2 as [|c2 r2]; [by eauto|].
  destruct (Ascii.eqb c2 "."); [|by eauto].
  pose proof (read_digits_ge 10 ip 0 r2) as Hge2.
  destruct (read_digits 10 ip 0 r2) as [[m nf] s3]. simpl in *.
  exists m, nf, s3. split; [by destruct nf | lia].
Qed.

(** The mantissa of "0.00...0ddd". *)
Lemma read_mantissa_zero_point k ds :
  dec_string ds = true ->
  read_mantissa ("0." +:+ zeros k +:+ ds)
  = Some (dec_value 0 ds, (k + String.length ds)%nat, "").
Proof.
  intros Hds. unfold read_mantissa.
  change ("0." +:+ zeros k +:+ ds)
    with (String "0" (String "." (zeros k +:+ ds))).
  cbn [read_digits].
  replace (radix_digit 10 "0") with (Some 0) by done.
  replace (radix_digit 10 ".") with (@None Z) by done.
  replace (Ascii.eqb "." ".") with true by done.
  rewrite read_digits_dec_all by (by rewrite dec_string_app, dec_string_zeros).
  rewrite dec_value_app, dec_value_zeros, length_append, length_zeros.
  by rewrite Z.mul_0_l.
Qed.

(** On a string that starts with a digit, [parse_decimal] gives the number
    of the mantissa that [read_mantissa] reads. *)
Lemma parse_decimal_mantissa s m nf s3 :
  head_digit s = true -> read_mantissa s = Some (m, nf, s3) ->
  exists E rest, parse_decimal s = Some (Dec m E, rest).
Proof.
  intros Hh Hm. unfold parse_decimal. rewrite strip_sign_digit by done.
  assert (drop_prefix "Infinity" s = None) as ->.
  { destruct s as [|c r]; [done|]. cbn [head_digit] in Hh.
    change (drop_prefix "Infinity" (String c r))
      with (if Ascii.eqb "I" c then drop_prefix "nfinity" r else None).
    rewrite Ascii.eqb_sym, (digit_not_char c "I");
      (done || (vm_compute; intros [? ?]; done)). }
  rewrite Hm. destruct (read_exponent s3) as [ex s4]. eauto.
Qed.

(** The string of a positive number starts with a digit other than 0, or
    is "0." followed by zeros and the digits of the mantissa. *)
Lemma positive_to_string_cases m e :
  0 < m ->
  head_nonzero (positive_to_string m e) = true \/
  exists k, positive_to_string m e = "0." +:+ zeros k +:+ digits m.
Proof.
  intros Hm. unfold positive_to_string.
  pose proof (digits_head_nonzero m Hm) as Hhead.
  set (ds := digits m) in *.
  set (k := Z.of_nat (String.length ds)).
  set (ex := (if k + e - 1 <? 0 then "-" else "+") +:+ digits (Z.abs (k + e - 1))).
  destruct ((k <=? k + e) && (k + e <=? 21)) eqn:C1.
  { left. by apply head_nonzero_app. }
  destruct ((0 <? k + e) && (k + e <=? 21)) eqn:C2.
  { left. destruct (Z.to_nat (k + e)) as [|n] eqn:Hn; [lia|].
    apply head_nonzero_app. clearbody ds. by destruct ds. }
  destruct ((-6 <? k + e) && (k + e <=? 0)) eqn:C3.
  { right. eauto. }
  left. clearbody ex. clear C1 C2 C3. clearbody k. clearbody ds.
  by destruct ds as [|d [|c r]].
Qed.

(** [parseFloat] of a positive finite number, passed as a number, is a
    positive finite number. *)
Lemma parseFloat_positive m e :
  0 < m ->
  exists M E, parseFloat_string (number_to_string (Dec m e)) = Dec M E /\ 0 < M.
Proof.
  intros Hm. unfold number_to_string.
  replace (m =? 0) with false by (symmetry; apply Z.eqb_neq; lia).
  destruct (strip_zeros _ (Z.abs m) e) as [m' e'] eqn:Hs.
  apply strip_zeros_spec in Hs as (Hm' & _ & _); [|lia].
  replace (m <? 0) with false by (symmetry; apply Z.ltb_ge; lia).
  str_simpl.
  destruct (positive_to_string_shape m' e' Hm') as [Hh _].
  unfold parseFloat_string. rewrite skip_ws_digit by done.
  assert (exists M nf s3,
            read_mantissa (positive_to_string m' e') = Some (M, nf, s3) /\ 0 < M)
    as (M & nf & s3 & HM & Hpos).
  { destruct (positive_to_string_cases m' e' Hm') as [Hnz|[k ->]].
    - by apply read_mantissa_head_nonzero.
    - destruct (digits_spec m') as (Hdec & _ & Hv & _); [lia|].
      rewrite read_mantissa_zero_point by done.
      eexists _, _, _. split; [done|]. rewrite Hv. lia. }
  destruct (parse_decimal_mantissa _ _ _ _ Hh HM) as (E & rest & ->).
  eauto.
Qed.

(** [slice(0, end)]: nothing on NaN, the first [n] elements on an integer
    that is not negative, all but the last [-n] on a negative one. *)
Lemma slice0_NaN {A} (l : list A) : slice0 l None = [].
Proof. unfold slice0. simpl. by rewrite Z.min_l by lia. Qed.

Lemma slice0_nonneg {A} (l : list A) n :
  0 <= n -> slice0 l (Some n) = take (Z.to_nat n) l.
Proof.
  intros Hn. unfold slice0. simpl.
  replace (n <? 0) with false by (symmetry; apply Z.ltb_ge; lia).
  destruct (Z.le_gt_cases n (Z.of_nat (length l))).
  - by rewrite Z.min_l by lia.
  - rewrite Z.min_r, Nat2Z.id by lia. rewrite !take_ge; [done | lia | lia].
Qed.

Lemma slice0_neg {A} (l : list A) n :
  n < 0 -> slice0 l (Some n) = take (length l - Z.to_nat (- n)) l.
Proof.
  intros Hn. unfold slice0. simpl.
  replace (n <? 0) with true by (symmetry; apply Z.ltb_lt; lia).
  f_equal. lia.
Qed.

Lemma strict_eq_string v r : strict_eq v (VStr r) = true <-> v = VStr r.
Proof.
  destruct v; simpl; try (split; [discriminate | intros; discriminate]).
  rewrite String.eqb_eq. split; congruence.
Qed.

End JsFacts.

(** ** The gateway *)
Module GatewayFacts.
Import Js Http Gateway.

(** *** How an axios call settles *)

(** A response that is no redirect ends the exchange. *)
Lemma follow_final k b left o st location data :
  b o = Responded st location data ->
  (300 <= st < 400 -> location = None) ->
  follow k b left o = validate st data.
Proof.
  intros Hb Hloc. destruct left; simpl; rewrite Hb;
    (destruct location as [l|]; [|done]);
    (destruct ((300 <=? st) && (st <? 400)) eqn:E; [|done]);
    apply andb_true_iff in E as [?%Z.leb_le ?%Z.ltb_lt];
    by specialize (Hloc ltac:(lia)).
Qed.

Lemma follow_no_response k b left o message :
  b o = NoResponse message -> follow k b left o = Rejected None message.
Proof. intros Hb. destruct left; simpl; by rewrite Hb. Qed.

Lemma validate_success st data :
  200 <= st < 300 -> validate st data = Fulfilled st data.
Proof.
  intros H. unfold validate.
  by replace ((200 <=? st) && (st <? 300)) with true
    by (symmetry; apply andb_true_iff; lia).
Qed.

Lemma validate_failure st data :
  ~ 200 <= st < 300 ->
  validate st data
  = Rejected (Some st)
      ("Request failed with status code " +:+ number_to_string (Dec st 0)).
Proof.
  intros H. unfold validate.
  by replace ((200 <=? st) && (st <? 300)) with false
    by (symmetry; apply andb_false_iff; lia).
Qed.

(** *** The routes, one by one *)

(** Each of the six routes with an :id parameter makes its axios call and
    answers from how the call settles. *)
Lemma item_route_reply c k b m res id path q body :
  defined_route (Item m res id) = true ->
  let o := {| o_method := m;
              o_url := base_url c res +:+ collection_path res +:+ "/" +:+ id;
              o_data := match m with
                        | PUT => Some body
                        | _ => None
                        end |} in
  gateway c k b (Request (Item m res id) path q body)
  = Some (o,
          match follow k b (maxRedirects k) o with
          | Fulfilled _ data => Response 200 (Relay data)
          | Rejected st message =>
              if is_404 st then Response 404 (NotFound (not_found_error res))
              else Response 500
                     (Failed ("Failed to " +:+ verb m +:+ " " +:+ singular res)
                             message)
          end).
Proof. intros Hdef. by destruct m, res. Qed.

(** Each of the four collection routes makes its axios call and answers
    from how the call settles. *)
Lemma collection_route_reply c k b m res path q body :
  defined_route (Collection m res) = true ->
  let o := {| o_method := m;
              o_url := base_url c res +:+ collection_path res;
              o_data := match m with
                        | POST => Some body
                        | _ => None
                        end |} in
  gateway c k b (Request (Collection m res) path q body)
  = Some (o,
          match follow k b (maxRedirects k) o with
          | Fulfilled _ data =>
              Response (match m with
                        | POST => 201
                        | _ => 200
                        end) (Relay data)
          | Rejected _ message =>
              Response 500
                (Failed ("Failed to " +:+ verb m +:+ " "
                           +:+ match m, res with
                               | GET, UsersR => "users"
                               | GET, ProductsR => "products"
                               | _, _ => singular res
                               end)
                        message)
          end).
Proof. intros Hdef. by destruct m, res. Qed.

(** C4. Each of the six gateway routes with an :id parameter (GET, PUT and
    DELETE on /api/users/:id and on /api/products/:id) is handled, by one
    axios call to the backend of the route. When the backend answers this
    request with status 404, the gateway answers 404 with exactly the body
    {error: "User not found"} or {error: "Product not found"}, the body of
    the backend being dropped. On every other failure the gateway answers
    500 with the error "Failed to <verb> <resource>" and the message of the
    failure: when there is no response at all (connection refused,
    timeout), and when the backend answers with an error status other than
    404, or with any status outside 200..299 other than 404 that is not a
    redirect with a Location, which axios follows. A status from 200 to 299
    is answered by 200 with the body of the backend. After redirects, the
    same translation applies to the response the exchange ends with. *)
Theorem item_route_failure_translation
    (c : config) (k : client) (b : backend) (m : method) (res : resource)
    (id path q : string) (body : value) :
  defined_route (Item m res id) = true ->
  let o := {| o_method := m;
              o_url := base_url c res +:+ collection_path res +:+ "/" +:+ id;
              o_data := match m with
                        | PUT => Some body
                        | _ => None
                        end |} in
  let failed := Failed ("Failed to " +:+ verb m +:+ " " +:+ singular res) in
  exists a,
    gateway c k b (Request (Item m res id) path q body) = Some (o, a) /\
    match b o with
    | Responded st location data =>
        (st = 404 -> a = Response 404 (NotFound (not_found_error res))) /\
        (200 <= st < 300 -> a = Response 200 (Relay data)) /\
        (st <> 404 -> ~ 200 <= st < 300 ->
         (300 <= st < 400 -> location = None) ->
         a = Response 500
               (failed ("Request failed with status code "
                          +:+ number_to_string (Dec st 0))))
    | NoResponse message => a = Response 500 (failed message)
    end /\
    match follow k b (maxRedirects k) o with
    | Fulfilled _ data => a = Response 200 (Relay data)
    | Rejected st message =>
        if is_404 st then a = Response 404 (NotFound (not_found_error res))
        else a = Response 500 (failed message)
    end.
Proof.
  intros Hdef o failed. eexists. split; [by apply item_route_reply|].
  subst o failed. split.
  - destruct (b _) as [st location data|message] eqn:Hb.
    + split_and!.
      * intros ->. rewrite (follow_final _ _ _ _ _ _ _ Hb) by lia.
        by rewrite validate_failure by lia.
      * intros Hst. rewrite (follow_final _ _ _ _ _ _ _ Hb) by lia.
        by rewrite validate_success.
      * intros Hne Hst Hloc. rewrite (follow_final _ _ _ _ _ _ _ Hb) by done.
        rewrite validate_failure by done. cbn [is_404].
        by replace (st =? 404) with false by (symmetry; apply Z.eqb_neq; lia).
    + by rewrite (follow_no_response _ _ _ _ _ Hb).
  - destruct (follow _ _ _ _) as [st data|st message]; [done|].
    by destruct (is_404 st).
Qed.

Lemma item_route_failure_translation_witness :
  let b : backend :=
    fun _ => Responded 404 None
               (VObj [("error", VStr "User not found");
                      ("userId", VNum (Dec 999 0))]) in
  defined_route (Item GET UsersR "999") = true /\
  exists a,
    gateway default_config example_client b
      (Request (Item GET UsersR "999") "/api/users/999" "" (VObj []))
    = Some (Outbound GET "http://192.168.56.11:3001/users/999" None, a) /\
    a = Response 404 (NotFound "User not found").
Proof.
  intros b. split; [reflexivity|].
  destruct (item_route_failure_translation default_config example_client b
              GET UsersR "999" "/api/users/999" "" (VObj []) eq_refl)
    as (a & Hgw & Hfirst & _).
  exists a. split; [exact Hgw|]. exact (proj1 Hfirst eq_refl).
Defined.

(** C5, as the specification states it, fails: GET /api/users?role=admin is
    issued to the backend as GET /users, without its query string. *)
Lemma query_string_not_forwarded :
  ~ forwards_verbatim default_config example_client
      (fun _ => Responded 200 None (VObj []))
      (Request (Collection GET UsersR) "/api/users" "?role=admin" (VObj [])).
Proof.
  intros H.
  destruct (H _ _ eq_refl) as [Ho _].
  discriminate Ho.
Qed.

(** The id of an :id route is pasted into the URL as Express hands it
    over, decoded: GET /api/users/1%3Flimit=1 is issued to the backend as
    GET /users/1?limit=1, where the path of the request has no "?". *)
Lemma decoded_id_is_pasted_unescaped :
  let r := Request (Item GET UsersR "1?limit=1") "/api/users/1%3Flimit=1" ""
             (VObj []) in
  fst <$> gateway default_config example_client
            (fun _ => Responded 200 None (VObj [])) r
  = Some (Outbound GET "http://192.168.56.11:3001/users/1?limit=1" None) /\
  spec_outbound default_config r
  = Outbound GET "http://192.168.56.11:3001/users/1%3Flimit=1" None.
Proof. split; reflexivity. Qed.

(** A redirect is not handed to the handler: when the backend answers
    GET /users/1 with a 302 to another URL and the GET of that URL with a
    200, the gateway answers 200 with the body of the second response. *)
Lemma redirect_is_followed :
  let b : backend :=
    fun o =>
      if String.eqb (o_url o) "http://192.168.56.11:3001/users/1"
      then Responded 302 (Some "http://192.168.56.11:3001/v2/users/1") VUndefined
      else Responded 200 None (VObj [("id", VNum (Dec 1 0))]) in
  gateway default_config example_client b
    (Request (Item GET UsersR "1") "/api/users/1" "" (VObj []))
  = Some (Outbound GET "http://192.168.56.11:3001/users/1" None,
          Response 200 (Relay (VObj [("id", VNum (Dec 1 0))]))).
Proof. reflexivity. Qed.

(** C5, amended. On every defined route the gateway makes one axios call
    to the backend of the route: same method; as URL the base URL of that
    backend followed by "/users" or "/products" and, on an :id route, by
    "/" and [req.params.id], the id segment as Express has percent-decoded
    it, pasted without being encoded again; the JSON body [req.body] on
    POST and PUT, none on GET and DELETE. The query string is never
    forwarded. So the URL is the base URL followed by the path of the
    request without its "/api" prefix when this path is written as the
    route is, with an id free of percent escapes, and not in general.
    axios follows redirects by requests of its own. When the backend
    answers the request with a status from 200 to 299, and whenever the
    call is fulfilled after redirects, the gateway relays the body
    verbatim, with status 201 on the POST routes and 200 on the others,
    whatever the status of the backend. *)
Theorem gateway_forwarding
    (c : config) (k : client) (b : backend) (r : request) :
  defined_route (req_route r) = true ->
  exists o a,
    gateway c k b r = Some (o, a) /\
    o = {| o_method := route_method (req_route r);
           o_url := base_url c (route_resource (req_route r))
                      +:+ path_suffix (req_route r);
           o_data := match route_method (req_route r) with
                     | POST | PUT => Some (req_body r)
                     | GET | DELETE => None
                     end |} /\
    (req_path r = "/api" +:+ path_suffix (req_route r) ->
     o_url o = base_url c (route_resource (req_route r)) +:+ spec_path_suffix r) /\
    (forall st location data,
       b o = Responded st location data -> 200 <= st < 300 ->
       a = Response (match route_method (req_route r) with
                     | POST => 201
                     | _ => 200
                     end) (Relay data)) /\
    (forall st data,
       follow k b (maxRedirects k) o = Fulfilled st data ->
       a = Response (match route_method (req_route r) with
                     | POST => 201
                     | _ => 200
                     end) (Relay data)).
Proof.
  destruct r as [[m res|m res id] path q body]; cbn [req_route req_body];
    intros Hdef.
  - eexists _, _. split; [by apply collection_route_reply|].
    split; [by destruct m|]. split.
    { cbn [req_path o_url]. intros ->. unfold spec_path_suffix. cbn [req_path].
      by destruct res. }
    split.
    + intros st location data Hb Hst. cbn [route_method].
      rewrite (follow_final _ _ _ _ _ _ _ Hb) by lia.
      by rewrite validate_success.
    + intros st data ->. by destruct m.
  - eexists _, _. split; [by apply item_route_reply|].
    split; [by destruct m|]. split.
    { cbn [req_path o_url]. intros ->. unfold spec_path_suffix. cbn [req_path].
      by destruct res. }
    split.
    + intros st location data Hb Hst. cbn [route_method].
      rewrite (follow_final _ _ _ _ _ _ _ Hb) by lia.
      rewrite validate_success by done. by destruct m.
    + intros st data ->. by destruct m.
Qed.

Lemma gateway_forwarding_witness :
  defined_route (Collection GET UsersR) = true /\
  exists o a,
    gateway default_config example_client
      (fun _ => Responded 200 None (VObj []))
      (Request (Collection GET UsersR) "/api/users" "?role=admin" (VObj []))
    = Some (o, a) /\
    o = Outbound GET "http://192.168.56.11:3001/users" None /\
    a = Response 200 (Relay (VObj [])).
Proof.
  split; [reflexivity|].
  destruct (gateway_forwarding default_config example_client
              (fun _ => Responded 200 None (VObj []))
              (Request (Collection GET UsersR) "/api/users" "?role=admin"
                 (VObj [])) eq_refl)
    as (o & a & Hgw & Ho & _ & Hfirst & _).
  exists o, a. split; [exact Hgw|]. split; [exact Ho|].
  subst o. exact (Hfirst 200 None (VObj []) eq_refl ltac:(lia)).
Defined.

End GatewayFacts.

(** ** The users service *)
Module UsersFacts.
Import Js Http Users.

(** Looking a user up by ID after writing, at its index, a record with the
    same ID. *)
Lemma list_find_insert_same (userId : option Z) (l : list user) i u u' :
  list_find (has_id userId) l = Some (i, u) ->
  id u' = id u ->
  list_find (has_id userId) (<[i:=u']> l) = Some (i, u').
Proof.
  intros (Hi & Hu & Hmin)%list_find_Some Hid.
  apply list_find_Some. split_and!.
  - apply list_lookup_insert_eq. by eapply lookup_lt_Some.
  - unfold has_id in *. by rewrite Hid.
  - intros j y Hj Hlt. rewrite list_lookup_insert_ne in Hj by lia. eauto.
Qed.

(** C6, as the specification states it, fails: a POST /users that repeats
    the e-mail of John Doe and has no name is answered by 400, not 409. *)
Lemma duplicate_email_without_name :
  ~ duplicate_email_rejected seed "2024-03-01T00:00:00.000Z"
      (VObj [("email", VStr "john.doe@example.com")]).
Proof.
  intros H. destruct H as [H _].
  - eexists. split; [apply list_elem_of_here | done].
  - vm_compute in H. discriminate H.
Qed.

(** C6, amended. For every store and every POST /users whose e-mail is that
    of an existing user, the store is left as it is (same records, same
    order, same counter), and the answer is 409 when the body has a name
    and an e-mail that are truthy; when the name is missing or empty the
    answer is the 400 of the validation, which comes first. *)
Theorem duplicate_email_conflict
    (s : store) (now : string) (req_body : value) (u : user) :
  u ∈ users s -> has_email (get_field req_body "email") u ->
  (post_users s now req_body).2 = s /\
  (post_users s now req_body).1 =
    if truthy (get_field req_body "name") && truthy (get_field req_body "email")
    then Response 409 (Failure "User with this email already exists")
    else Response 400 (Failure "Name and email are required").
Proof.
  intros Hin He. unfold post_users.
  destruct (truthy (get_field req_body "name")),
           (truthy (get_field req_body "email")); simpl; try done.
  destruct (list_find _ (users s)) as [[j x]|] eqn:Hf; [done|].
  apply list_find_None in Hf. rewrite Forall_forall in Hf.
  by destruct (Hf u Hin).
Qed.

Lemma duplicate_email_conflict_witness :
  (User 1 (VStr "John Doe") (VStr "john.doe@example.com") (VStr "admin")
        "2024-01-01T00:00:00.000Z" None) ∈ users seed /\
  (post_users seed "2024-03-01T00:00:00.000Z"
     (VObj [("name", VStr "Johnny"); ("email", VStr "john.doe@example.com")])).2
    = seed /\
  (post_users seed "2024-03-01T00:00:00.000Z"
     (VObj [("name", VStr "Johnny"); ("email", VStr "john.doe@example.com")])).1
    = Response 409 (Failure "User with this email already exists").
Proof.
  split; [apply list_elem_of_here|].
  exact (duplicate_email_conflict seed "2024-03-01T00:00:00.000Z"
           (VObj [("name", VStr "Johnny"); ("email", VStr "john.doe@example.com")])
           _ (list_elem_of_here _ _) I).
Defined.

(** C3, as the specification states it, fails: PUT /users/2 with the
    body {name: ""} is answered by 200 and leaves the name "Jane Smith":
    a field the body supplies is not written when its value is falsy. *)
Lemma empty_name_is_not_written :
  (put_user seed "2024-03-01T00:00:00.000Z" "2" (VObj [("name", VStr "")])).1
  = Response 200
      (Done "User updated successfully"
         (User 2 (VStr "Jane Smith") (VStr "jane.smith@example.com")
            (VStr "user") "2024-01-15T00:00:00.000Z"
            (Some "2024-03-01T00:00:00.000Z"))) /\
  ~ supplied_fields_written seed "2024-03-01T00:00:00.000Z" "2"
      (VObj [("name", VStr "")]).
Proof.
  split; [reflexivity|].
  intros H. destruct (H _ _ eq_refl) as (Hname & _ & _).
  specialize (Hname ltac:(discriminate)). discriminate Hname.
Qed.

(** C3, amended. For every existing user ID and every body, a successful
    PUT /users/:id writes one record in place: each of name, e-mail and
    role becomes the value the body supplies when this value is truthy, and
    stays as it was when the body does not supply it or supplies a falsy
    value ("", 0, null, false); id and createdAt stay; updatedAt is set to
    the time of the update; no other record and not the counter changes;
    GET /users/:id then returns the record; an update that does not succeed
    is the 409 of an e-mail in use and changes nothing. In particular PUT
    with body {role: "x"} succeeds and GET /users/:id returns role "x" with
    name and e-mail as they were. *)
Theorem put_user_overwrites_supplied_only
    (s : store) (now param : string) (req_body : value) (i : nat) (u : user) :
  list_find (has_id (parseInt_string param)) (users s) = Some (i, u) ->
  (forall a s', put_user s now param req_body = (a, s') ->
     (status a <> 200 ->
      s' = s /\
      a = Response 409 (Failure "User with this email already exists")) /\
     (status a = 200 ->
      exists u',
        a = Response 200 (Done "User updated successfully" u') /\
        s' = {| users := <[i:=u']> (users s); nextUserId := nextUserId s |} /\
        get_user s' param = Response 200 (Single u') /\
        id u' = id u /\ createdAt u' = createdAt u /\ updatedAt u' = Some now /\
        name u' = (if truthy (get_field req_body "name")
                   then get_field req_body "name" else name u) /\
        email u' = (if truthy (get_field req_body "email")
                    then get_field req_body "email" else email u) /\
        role u' = (if truthy (get_field req_body "role")
                   then get_field req_body "role" else role u) /\
        (get_field req_body "name" = VUndefined -> name u' = name u) /\
        (get_field req_body "email" = VUndefined -> email u' = email u) /\
        (get_field req_body "role" = VUndefined -> role u' = role u))) /\
  (exists u' s',
     put_user s now param (VObj [("role", VStr "x")])
       = (Response 200 (Done "User updated successfully" u'), s') /\
     get_user s' param = Response 200 (Single u') /\
     role u' = VStr "x" /\ name u' = name u /\ email u' = email u /\
     updatedAt u' = Some now).
Proof.
  intros Hfind. split.
  - intros a s' Hput. unfold put_user in Hput. rewrite Hfind in Hput.
    destruct (truthy (get_field req_body "email") && _ && _);
      [by simplify_eq|].
    simplify_eq. split; [done|]. intros _.
    set (vn := get_field req_body "name").
    set (ve := get_field req_body "email").
    set (vr := get_field req_body "role").
    eexists. split; [reflexivity|]. split; [reflexivity|].
    split.
    { unfold get_user. cbn [users].
      erewrite list_find_insert_same; [done | done |].
      unfold assign_if_truthy. by repeat case_match. }
    unfold assign_if_truthy.
    destruct (truthy vn) eqn:Hn, (truthy ve) eqn:He, (truthy vr) eqn:Hr;
      cbn; split_and!; try done;
      intros Hun; rewrite Hun in *; done.
  - unfold put_user. rewrite Hfind. simpl.
    eexists _, _. split; [reflexivity|].
    split; [|done].
    unfold get_user. cbn [users].
    by erewrite list_find_insert_same.
Qed.

Lemma put_user_overwrites_supplied_only_witness :
  list_find (has_id (parseInt_string "2")) (users seed)
    = Some (1%nat, User 2 (VStr "Jane Smith") (VStr "jane.smith@example.com")
                      (VStr "user") "2024-01-15T00:00:00.000Z" None) /\
  exists u' s',
    put_user seed "2024-03-01T00:00:00.000Z" "2" (VObj [("role", VStr "x")])
      = (Response 200 (Done "User updated successfully" u'), s') /\
    get_user s' "2" = Response 200 (Single u') /\
    role u' = VStr "x" /\ name u' = VStr "Jane Smith" /\
    email u' = VStr "jane.smith@example.com" /\
    updatedAt u' = Some "2024-03-01T00:00:00.000Z".
Proof.
  split; [reflexivity|].
  exact (proj2 (put_user_overwrites_supplied_only seed
                  "2024-03-01T00:00:00.000Z" "2" (VObj []) 1%nat _ eq_refl)).
Defined.

(** C8, as the specification states it, fails: with limit=abc the service
    returns no user at all, where the specification has all three. *)
Lemma non_numeric_limit_returns_nothing :
  get_users seed None (Some "abc") = Response 200 (Listing 0 []) /\
  spec_listing seed None (Some "abc") = users seed /\
  get_users seed None (Some "abc")
    <> Response 200 (Listing (length (spec_listing seed None (Some "abc")))
                             (spec_listing seed None (Some "abc"))).
Proof. split_and!; [reflexivity | reflexivity | discriminate]. Qed.

(** C8, amended. GET /users?role=&limit= answers 200 with the users, in
    store order, filtered to the exact role when a role is given and is not
    the empty string, then cut by [slice(0, parseInt(limit))] when a limit
    is given and is not the empty string: to the first n records when the
    limit parses to an integer n that is not negative, to all but the last
    -n when n is negative, and to nothing when the limit is not numeric. An
    absent or empty limit leaves the list whole. [count] is the length of
    the list returned. *)
Theorem get_users_listing (s : store) (qrole qlimit : option string) :
  let filtered :=
    match qrole with
    | Some r =>
        if String.eqb r "" then users s
        else List.filter (fun u => strict_eq (role u) (VStr r)) (users s)
    | None => users s
    end in
  let result :=
    match qlimit with
    | None => filtered
    | Some l =>
        if String.eqb l "" then filtered
        else
          match parseInt_string l with
          | None => []
          | Some n =>
              if 0 <=? n then take (Z.to_nat n) filtered
              else take (length filtered - Z.to_nat (- n)) filtered
          end
    end in
  get_users s qrole qlimit = Response 200 (Listing (length result) result) /\
  match qrole with
  | Some r => if String.eqb r "" then True
              else Forall (fun u => role u = VStr r) result
  | None => True
  end.
Proof.
  intros filtered result. split.
  - unfold get_users.
    assert ((if truthy (query qrole)
             then List.filter (fun u => strict_eq (role u) (query qrole)) (users s)
             else users s) = filtered) as ->.
    { unfold filtered. destruct qrole as [r|]; simpl; [|done].
      by destruct (String.eqb r ""). }
    assert (match qlimit with
            | Some l => if truthy (VStr l)
                        then slice0 filtered (parseInt_string l) else filtered
            | None => filtered
            end = result) as ->; [|done].
    unfold result. destruct qlimit as [l|]; simpl; [|done].
    destruct (String.eqb l ""); simpl; [done|].
    destruct (parseInt_string l) as [n|]; [|apply JsFacts.slice0_NaN].
    destruct (0 <=? n) eqn:Hn.
    + apply JsFacts.slice0_nonneg. lia.
    + apply JsFacts.slice0_neg. lia.
  - destruct qrole as [r|]; [|done].
    destruct (String.eqb r "") eqn:Hr; [done|].
    assert (Forall (fun u => role u = VStr r) filtered) as Hf.
    { unfold filtered. rewrite ?Hr. apply Forall_forall. intros u Hu.
      apply list_elem_of_In, filter_In in Hu as [_ Hu].
      by apply JsFacts.strict_eq_string. }
    unfold result. destruct qlimit as [l|]; [|done].
    destruct (String.eqb l ""); [done|].
    destruct (parseInt_string l) as [n|]; [|constructor].
    destruct (0 <=? n); by apply Forall_take.
Qed.

(** *** IDs *)

(** No ID is NaN. *)
Lemma users_list_find_NaN (l : list user) : list_find (has_id None) l = None.
Proof. apply list_find_None, Forall_forall. intros u _. unfold has_id. done. Qed.

(** The answer to GET /users/:id depends on the path parameter through
    [parseInt] alone. *)
Lemma get_user_parseInt s p1 p2 :
  parseInt_string p1 = parseInt_string p2 -> get_user s p1 = get_user s p2.
Proof. unfold get_user. by intros ->. Qed.

Lemma get_user_NaN s p :
  parseInt_string p = None ->
  get_user s p = Response 404 (Missing "User not found" None).
Proof. unfold get_user. intros ->. by rewrite users_list_find_NaN. Qed.

Lemma users_handle_counter s r : nextUserId s <= nextUserId (handle s r).2.
Proof.
  destruct r; simpl; try lia.
  - unfold post_users. repeat case_match; simpl; lia.
  - unfold put_user. repeat case_match; simpl; lia.
  - unfold delete_user. repeat case_match; simpl; lia.
Qed.

Lemma users_handle_assigned s r i :
  assigned_id r (handle s r).1 = Some i ->
  i = nextUserId s /\ nextUserId (handle s r).2 = i + 1.
Proof.
  destruct r; simpl; try done.
  unfold post_users.
  destruct (negb _ || negb _); [done|].
  destruct (list_find _ _); [done|]. simpl. by intros [= <-].
Qed.

Lemma users_handle_ids_below_counter s r :
  ids_below_counter s -> ids_below_counter (handle s r).2.
Proof.
  unfold ids_below_counter. intros Hs.
  destruct r; simpl; try done.
  - unfold post_users. repeat case_match; simpl; try done.
    apply Forall_app. split.
    + eapply Forall_impl; [done|]. intros; simpl in *; lia.
    + repeat constructor. simpl. lia.
  - unfold put_user.
    destruct (list_find _ _) as [[i u]|] eqn:Hf; [|done].
    case_match; simpl; [done|].
    apply Forall_insert; [done|].
    apply list_find_Some in Hf as (Hi & _ & _).
    pose proof (Forall_lookup_1 _ _ _ _ Hs Hi) as Hlt. simpl in Hlt.
    unfold assign_if_truthy. by repeat case_match.
  - unfold delete_user. repeat case_match; simpl; try done.
    by apply Forall_delete.
Qed.

Lemma users_run_ids_below_counter s rs :
  ids_below_counter s -> ids_below_counter (run s rs).2.
Proof.
  revert s. induction rs as [|r rs IH]; intros s Hs; simpl; [done|].
  pose proof (users_handle_ids_below_counter s r Hs) as H1.
  destruct (handle s r) as [a s1]. simpl in H1.
  specialize (IH s1 H1). by destruct (run s1 rs).
Qed.

Lemma users_run_counter s rs : nextUserId s <= nextUserId (run s rs).2.
Proof.
  revert s. induction rs as [|r rs IH]; intros s; simpl; [lia|].
  pose proof (users_handle_counter s r) as H1.
  destruct (handle s r) as [a s1]. simpl in H1.
  specialize (IH s1). destruct (run s1 rs). simpl in *. lia.
Qed.

(** The IDs handed out during a run: each at or above the counter the run
    started from, and each strictly above the ones handed out before it. *)
Lemma users_assigned_ids_sorted s rs :
  Forall (fun i => nextUserId s <= i) (assigned_ids s rs) /\
  StronglySorted Z.lt (assigned_ids s rs).
Proof.
  revert s. induction rs as [|r rs IH]; intros s; simpl.
  { split; constructor. }
  pose proof (users_handle_counter s r) as Hc.
  pose proof (users_handle_assigned s r) as Ha.
  destruct (handle s r) as [a s1]. simpl in *.
  destruct (IH s1) as [Hge Hsorted].
  destruct (assigned_id r a) as [i|].
  - destruct (Ha i eq_refl) as [-> Hnext]. split.
    + constructor; [lia|]. eapply Forall_impl; [done|]. intros; simpl in *; lia.
    + constructor; [done|]. eapply Forall_impl; [done|]. intros; simpl in *; lia.
  - split; [|done]. eapply Forall_impl; [done|]. intros; simpl in *; lia.
Qed.

End UsersFacts.

(** ** The products service *)
Module ProductsFacts.
Import Js Http Products.

(** *** Prices *)

(** C2 fails on the code. The body {name: "Widget", price: "-5abc",
    category: "Misc"} passes both checks of POST /products: the string is
    truthy, and [price <= 0] compares NaN, the value of [Number("-5abc")].
    The record is then stored with [parseFloat("-5abc")], that is -5, and
    the answer is 201. *)
Theorem non_numeric_price_is_stored :
  let req_body :=
    VObj [("name", VStr "Widget"); ("price", VStr "-5abc");
          ("category", VStr "Misc")] in
  let '(a, s') := post_products seed "2024-03-01T00:00:00.000Z" req_body in
  le_zero (get_field req_body "price") = Ok false /\
  status a = 201 /\
  products s' =
    products seed ++
    [ Product 6 (VStr "Widget") (VStr "") (Dec (-5) 0) (VStr "Misc")
        (VNum (Dec 0 0)) "2024-03-01T00:00:00.000Z" None ] /\
  ~ Forall (fun p => price_valid p = true) (products s').
Proof.
  vm_compute. split_and!; try reflexivity.
  intros H. pose proof (Forall_lookup_1 _ _ 5%nat _ H eq_refl) as Hp.
  discriminate Hp.
Qed.

(** The part of C2 the code does keep: a price for which [price <= 0]
    holds is answered by 400 and nothing is stored, on POST and on PUT. *)
Lemma post_products_rejects_nonpositive s now req_body :
  le_zero (get_field req_body "price") = Ok true ->
  status (post_products s now req_body).1 = 400 /\
  (post_products s now req_body).2 = s.
Proof.
  intros H. unfold post_products. rewrite H. by case_match.
Qed.

Lemma put_product_rejects_nonpositive s now param req_body i p :
  list_find (has_id (parseInt_string param)) (products s) = Some (i, p) ->
  defined (get_field req_body "price") = true ->
  le_zero (get_field req_body "price") = Ok true ->
  status (put_product s now param req_body).1 = 400 /\
  (put_product s now param req_body).2 = s.
Proof.
  intros Hf Hd H. unfold put_product. by rewrite Hf, Hd, H.
Qed.

(** With prices that are JSON numbers the two checks do their work: a
    number that passes them is positive, and so is what [parseFloat] makes
    of it. *)
Lemma parseFloat_checked_price x :
  truthy (VNum x) = true -> num_le_zero x = false ->
  exists y, parseFloat (VNum x) = Ok y /\ num_positive y = true.
Proof.
  unfold parseFloat. cbn [to_string bind].
  destruct x as [|[|]|m e]; cbn [truthy num_le_zero]; try done.
  - intros _ _. eexists. split; reflexivity.
  - intros _ Hm. apply Z.leb_gt in Hm.
    destruct (JsFacts.parseFloat_positive m e Hm) as (M & E & -> & HM).
    eexists. split; [done|]. simpl. by apply Z.ltb_lt.
Qed.

Lemma write_price_valid s i p :
  Forall (fun p => price_valid p = true) (products s) ->
  price_valid p = true ->
  Forall (fun p => price_valid p = true) (products (write s i p)).
Proof. intros. by apply Forall_insert. Qed.

Lemma handle_price_valid s r :
  Forall (fun p => price_valid p = true) (products s) ->
  request_price_numeric r = true ->
  Forall (fun p => price_valid p = true) (products (handle s r).2).
Proof.
  intros Hs Hr. destruct r as [param|now req_body|now param req_body|param
                               |now param req_body]; simpl in *.
  - done.
  - unfold post_products.
    destruct (get_field req_body "price") as [| | |x| | |] eqn:Hprice;
      try done.
    { by rewrite orb_true_r. }
    destruct (truthy (VNum x)) eqn:Ht;
      [|by rewrite orb_true_r].
    destruct (negb _ || negb true || negb _); [done|].
    unfold le_zero. cbn [to_number bind].
    destruct (num_le_zero x) eqn:Hle; [done|].
    destruct (parseFloat_checked_price x Ht Hle) as (y & -> & Hy).
    simpl. apply Forall_app. split; [done|]. by repeat constructor.
  - unfold put_product.
    destruct (list_find _ _) as [[i p]|] eqn:Hf; [|done].
    apply list_find_Some in Hf as (Hi & _ & _).
    pose proof (Forall_lookup_1 _ _ _ _ Hs Hi) as Hp. simpl in Hp.
    destruct (if defined _ then le_zero _ else Ok false) as [[|]|] eqn:Hle;
      [done| |done].
    set (p1 := if truthy (get_field req_body "name") then _ else p).
    set (p2 := if defined (get_field req_body "description") then _ else p1).
    assert (price_valid p2 = true) as Hp2.
    { unfold p2, p1.
      destruct (truthy (get_field req_body "name")),
               (defined (get_field req_body "description")); exact Hp. }
    clearbody p2. clear p1.
    destruct (if truthy (get_field req_body "price") then _ else Ok p2)
      as [p3|] eqn:H3; [|by apply write_price_valid].
    assert (price_valid p3 = true) as Hp3.
    { destruct (get_field req_body "price") as [| | |x| | |]; try done.
      - by simplify_eq/=.
      - destruct (truthy (VNum x)) eqn:Ht; [|by simplify_eq].
        unfold le_zero in Hle. cbn [defined to_number bind] in Hle.
        destruct (num_le_zero x) eqn:Hx; [done|].
        destruct (parseFloat_checked_price x Ht Hx) as (y & Hy & Hpos).
        rewrite Hy in H3. by simplify_eq/=. }
    clear H3.
    set (p4 := if truthy (get_field req_body "category") then _ else p3).
    assert (price_valid p4 = true) as Hp4.
    { unfold p4. destruct (truthy (get_field req_body "category")); exact Hp3. }
    clearbody p4.
    destruct (if defined (get_field req_body "stock") then _ else Ok p4)
      as [p5|] eqn:H5; [|by apply write_price_valid].
    apply write_price_valid; [done|].
    destruct (defined (get_field req_body "stock")); [|by simplify_eq].
    destruct (parseInt (get_field req_body "stock")); by simplify_eq/=.
  - unfold delete_product. destruct (list_find _ _) as [[i p]|]; [|done].
    simpl. by apply Forall_delete.
  - unfold patch_stock.
    destruct (list_find _ _) as [[i p]|] eqn:Hf; [|done].
    apply list_find_Some in Hf as (Hi & _ & _).
    pose proof (Forall_lookup_1 _ _ _ _ Hs Hi) as Hp. simpl in Hp.
    destruct (negb _); [done|]. destruct (parseInt _); [|done].
    by apply write_price_valid.
Qed.

(** Where the prices sent are JSON numbers, every record in the store
    has a price above 0 after every request. *)
Lemma numeric_prices_stay_positive (s : store) (rs : list request) :
  Forall (fun p => price_valid p = true) (products s) ->
  Forall (fun r => request_price_numeric r = true) rs ->
  Forall (fun p => price_valid p = true) (products (run s rs).2).
Proof.
  revert s. induction rs as [|r rs IH]; intros s Hs Hrs; simpl; [done|].
  apply Forall_cons in Hrs as [Hr Hrs].
  pose proof (handle_price_valid s r Hs Hr) as H1.
  destruct (handle s r) as [a s1]. simpl in H1.
  specialize (IH s1 H1 Hrs). by destruct (run s1 rs).
Qed.

(** *** Stock *)

(** C7, as the specification states it, fails: PATCH /products/1/stock with
    {quantity: 1000000000000000000000} is answered by 200 and sets the stock
    to 1, the leading digit of "1e+21". *)
Lemma patch_stock_large_quantity :
  (patch_stock seed "2024-03-01T00:00:00.000Z" "1"
     (VObj [("quantity", VNum (Dec (10 ^ 21) 0))])).1
  = Response 200
      (Done "Stock updated successfully"
         (Product 1 (VStr "Laptop Pro X1")
            (VStr "High-performance laptop for professionals")
            (Dec 129999 (-2)) (VStr "Electronics") (VNum (Dec 1 0))
            "2024-01-10T00:00:00.000Z" (Some "2024-03-01T00:00:00.000Z"))) /\
  ~ patch_sets_quantity seed "2024-03-01T00:00:00.000Z" "1" (10 ^ 21).
Proof.
  split; [reflexivity|].
  intros H. destruct (H _ _ eq_refl) as (p' & Heq & Hstock).
  vm_compute in Heq. injection Heq as Hp _. subst p'. discriminate Hstock.
Qed.

(** C7, amended. For every existing product ID, PATCH /products/:id/stock
    with a quantity that is a number whose value is an integer q of
    magnitude at most 2^53 (zero included), the integers a double holds
    without rounding, is answered by 200 and sets the stock of that product
    to exactly q, and updatedAt to the time of the request, leaving every
    other record as it is; the answer is 400, with the store unchanged,
    exactly when the body has no quantity. Beyond 2^53 the body parser
    rounds the number before the handler reads it, and from 10^21 on
    [parseInt] keeps the leading digits of the exponent form. *)
Theorem patch_stock_sets_quantity
    (s : store) (now param : string) (req_body : value) (i : nat) (p : product)
    (x : number) (q : Z) :
  list_find (has_id (parseInt_string param)) (products s) = Some (i, p) ->
  num_int_value x = Some q -> Z.abs q <= 2 ^ 53 ->
  (get_field req_body "quantity" = VNum x ->
     patch_stock s now param req_body
     = (Response 200
          (Done "Stock updated successfully"
             (set_updatedAt now (set_stock (Dec q 0) p))),
        write s i (set_updatedAt now (set_stock (Dec q 0) p)))) /\
  (get_field req_body "quantity" = VUndefined ->
     patch_stock s now param req_body
     = (Response 400 (Failure "Quantity is required"), s)) /\
  (status (patch_stock s now param req_body).1 = 400
   <-> get_field req_body "quantity" = VUndefined).
Proof.
  intros Hf Hx Hq. unfold patch_stock. rewrite Hf. split_and!.
  - intros ->. cbn [defined negb]. unfold parseInt. cbn [to_string bind].
    assert (Z.abs q < 10 ^ 21) as Hq'.
    { change (2 ^ 53) with 9007199254740992 in Hq.
      change (10 ^ 21) with 1000000000000000000000. lia. }
    by rewrite (JsFacts.parseInt_integer x q).
  - by intros ->.
  - destruct (get_field req_body "quantity") eqn:Hv; simpl;
      try (destruct (parseInt _); simpl); split; done.
Qed.

Lemma patch_stock_sets_quantity_witness :
  list_find (has_id (parseInt_string "2")) (products seed)
    = Some (1%nat,
            Product 2 (VStr "Wireless Mouse")
              (VStr "Ergonomic wireless mouse with precision tracking")
              (Dec 2999 (-2)) (VStr "Accessories") (VNum (Dec 150 0))
              "2024-01-15T00:00:00.000Z" None) /\
  num_int_value (Dec 0 0) = Some 0 /\ Z.abs 0 <= 2 ^ 53 /\
  (get_field (VObj [("quantity", VNum (Dec 0 0))]) "quantity" = VNum (Dec 0 0) ->
   patch_stock seed "2024-03-01T00:00:00.000Z" "2"
     (VObj [("quantity", VNum (Dec 0 0))])
   = (Response 200
        (Done "Stock updated successfully"
           (Product 2 (VStr "Wireless Mouse")
              (VStr "Ergonomic wireless mouse with precision tracking")
              (Dec 2999 (-2)) (VStr "Accessories") (VNum (Dec 0 0))
              "2024-01-15T00:00:00.000Z" (Some "2024-03-01T00:00:00.000Z"))),
      write seed 1
        (Product 2 (VStr "Wireless Mouse")
           (VStr "Ergonomic wireless mouse with precision tracking")
           (Dec 2999 (-2)) (VStr "Accessories") (VNum (Dec 0 0))
           "2024-01-15T00:00:00.000Z" (Some "2024-03-01T00:00:00.000Z")))).
Proof.
  split; [reflexivity|]. split; [reflexivity|]. split; [done|].
  exact (proj1 (patch_stock_sets_quantity seed "2024-03-01T00:00:00.000Z" "2"
                  (VObj [("quantity", VNum (Dec 0 0))]) 1%nat _ (Dec 0 0) 0
                  eq_refl eq_refl ltac:(done))).
Defined.

(** C9, as the specification states it, fails: PATCH /products/1/stock with
    {quantity: -5} is answered by 200 and leaves product 1 with stock -5. *)
Lemma patch_stock_negative_quantity :
  ~ stock_invariant_kept seed
      (PatchStock "2024-03-01T00:00:00.000Z" "1"
         (VObj [("quantity", VNum (Dec (-5) 0))])).
Proof.
  intros H. unfold stock_invariant_kept in H.
  assert (Forall (fun p => stock_valid p = true) (products seed)) as Hseed.
  { repeat constructor. }
  assert (200 <= status (handle seed
            (PatchStock "2024-03-01T00:00:00.000Z" "1"
               (VObj [("quantity", VNum (Dec (-5) 0))]))).1 < 300) as Hst.
  { split; by vm_compute. }
  specialize (H Hseed Hst).
  pose proof (Forall_lookup_1 _ _ 0%nat _ H eq_refl) as Hp.
  discriminate Hp.
Qed.

Lemma parseInt_stock_update x :
  stock_update_ok (VNum x) = true ->
  exists z, parseInt (VNum x) = Ok (Dec z 0) /\ 0 <= z.
Proof.
  destruct x as [| |m e]; simpl; try done. intros Hm.
  destruct (JsFacts.parseInt_nonneg_number m e) as (z & Hz & Hpos); [lia|].
  exists z. unfold parseInt. cbn [to_string bind]. by rewrite Hz.
Qed.

Lemma stock_valid_set_stock z p :
  0 <= z -> stock_valid (set_stock (Dec z 0) p) = true.
Proof.
  intros Hz. unfold stock_valid. simpl. apply andb_true_iff. split; [lia|done].
Qed.

Lemma write_stock_valid s i p :
  Forall (fun p => stock_valid p = true) (products s) ->
  stock_valid p = true ->
  Forall (fun p => stock_valid p = true) (products (write s i p)).
Proof. intros. by apply Forall_insert. Qed.

(** One request whose stock input is as [request_stock_ok] has it keeps
    the stock of every record an integer that is not negative. *)
Lemma handle_stock_valid s r :
  Forall (fun p => stock_valid p = true) (products s) ->
  request_stock_ok r = true ->
  Forall (fun p => stock_valid p = true) (products (handle s r).2).
Proof.
  intros Hs Hr. destruct r as [param|now req_body|now param req_body|param
                               |now param req_body]; simpl in *.
  - done.
  - unfold post_products.
    destruct (negb _ || negb _ || negb _); [done|].
    destruct (le_zero _) as [[|]|]; [done| |done].
    destruct (parseFloat _); [|done]. simpl.
    apply Forall_app. split; [done|]. repeat constructor.
    unfold stock_valid, or_else. simpl.
    destruct (get_field req_body "stock") as [| | |x| | |]; try done.
    by destruct (truthy (VNum x)).
  - unfold put_product.
    destruct (list_find _ _) as [[i p]|] eqn:Hf; [|done].
    apply list_find_Some in Hf as (Hi & _ & _).
    pose proof (Forall_lookup_1 _ _ _ _ Hs Hi) as Hp. simpl in Hp.
    destruct (if defined _ then le_zero _ else Ok false) as [[|]|];
      [done| |done].
    set (p1 := if truthy (get_field req_body "name") then _ else p).
    set (p2 := if defined (get_field req_body "description") then _ else p1).
    assert (stock_valid p2 = true) as Hp2.
    { unfold p2, p1. by repeat case_match. }
    clearbody p2. clear p1.
    destruct (if truthy (get_field req_body "price") then _ else Ok p2)
      as [p3|] eqn:H3; [|by apply write_stock_valid].
    assert (stock_valid p3 = true) as Hp3.
    { destruct (truthy _); [|by simplify_eq].
      destruct (parseFloat _); by simplify_eq/=. }
    clear H3.
    set (p4 := if truthy (get_field req_body "category") then _ else p3).
    assert (stock_valid p4 = true) as Hp4.
    { unfold p4. by case_match. }
    clearbody p4.
    destruct (get_field req_body "stock") as [| | |x| | |]; try done;
      cbn [defined].
    + by apply write_stock_valid.
    + destruct (parseInt_stock_update x Hr) as (z & -> & Hz). cbn [bind].
      by apply write_stock_valid, (stock_valid_set_stock z p4).
  - unfold delete_product. destruct (list_find _ _) as [[i p]|]; [|done].
    simpl. by apply Forall_delete.
  - unfold patch_stock.
    destruct (list_find _ _) as [[i p]|] eqn:Hf; [|done].
    destruct (get_field req_body "quantity") as [| | |x| | |]; try done;
      cbn [defined negb].
    destruct (parseInt_stock_update x Hr) as (z & -> & Hz).
    by apply write_stock_valid, (stock_valid_set_stock z p).
Qed.

(** C9, amended. The service rejects no stock value. What holds is: as long
    as every stock sent to POST /products is an integer that is not
    negative, and every stock sent to PUT /products/:id and quantity sent to
    PATCH /products/:id/stock is a finite number that is not negative (of
    which [parseInt] keeps an integer), the stock of every record in the
    store is an integer that is not negative, after every request. *)
Theorem stock_stays_valid (s : store) (rs : list request) :
  Forall (fun p => stock_valid p = true) (products s) ->
  Forall (fun r => request_stock_ok r = true) rs ->
  Forall (fun p => stock_valid p = true) (products (run s rs).2).
Proof.
  revert s. induction rs as [|r rs IH]; intros s Hs Hrs; simpl; [done|].
  apply Forall_cons in Hrs as [Hr Hrs].
  pose proof (handle_stock_valid s r Hs Hr) as H1.
  destruct (handle s r) as [a s1]. simpl in H1.
  specialize (IH s1 H1 Hrs). by destruct (run s1 rs).
Qed.

Lemma stock_stays_valid_witness :
  Forall (fun p => stock_valid p = true) (products seed) /\
  Forall (fun r => request_stock_ok r = true)
    [ PostProducts "2024-03-01T00:00:00.000Z"
        (VObj [("name", VStr "Gaming Mouse"); ("price", VNum (Dec 7999 (-2)));
               ("category", VStr "Accessories"); ("stock", VNum (Dec 100 0))]);
      PatchStock "2024-03-02T00:00:00.000Z" "1"
        (VObj [("quantity", VNum (Dec 755 (-1)))]) ] /\
  Forall (fun p => stock_valid p = true)
    (products
       (run seed
          [ PostProducts "2024-03-01T00:00:00.000Z"
              (VObj [("name", VStr "Gaming Mouse"); ("price", VNum (Dec 7999 (-2)));
                     ("category", VStr "Accessories"); ("stock", VNum (Dec 100 0))]);
            PatchStock "2024-03-02T00:00:00.000Z" "1"
              (VObj [("quantity", VNum (Dec 755 (-1)))]) ]).2).
Proof.
  assert (Forall (fun p => stock_valid p = true) (products seed)) as Hs.
  { repeat constructor. }
  assert (Forall (fun r => request_stock_ok r = true)
    [ PostProducts "2024-03-01T00:00:00.000Z"
        (VObj [("name", VStr "Gaming Mouse"); ("price", VNum (Dec 7999 (-2)));
               ("category", VStr "Accessories"); ("stock", VNum (Dec 100 0))]);
      PatchStock "2024-03-02T00:00:00.000Z" "1"
        (VObj [("quantity", VNum (Dec 755 (-1)))]) ]) as Hr.
  { repeat constructor. }
  split; [exact Hs|]. split; [exact Hr|].
  exact (stock_stays_valid seed _ Hs Hr).
Defined.

(** *** IDs *)

(** No ID is NaN. *)
Lemma products_list_find_NaN (l : list product) : list_find (has_id None) l = None.
Proof. apply list_find_None, Forall_forall. intros u _. unfold has_id. done. Qed.

(** The answer to GET /products/:id depends on the path parameter through
    [parseInt] alone. *)
Lemma get_product_parseInt s p1 p2 :
  parseInt_string p1 = parseInt_string p2 -> get_product s p1 = get_product s p2.
Proof. unfold get_product. by intros ->. Qed.

Lemma get_product_NaN s p :
  parseInt_string p = None ->
  get_product s p = Response 404 (Missing "Product not found" None).
Proof. unfold get_product. intros ->. by rewrite products_list_find_NaN. Qed.

(** PUT /products/:id leaves the store as it is or writes, at the index of
    the record found, a record with the same ID. *)
Lemma put_product_store s now param req_body i p :
  list_find (has_id (parseInt_string param)) (products s) = Some (i, p) ->
  (put_product s now param req_body).2 = s \/
  exists p', (put_product s now param req_body).2 = write s i p' /\ id p' = id p.
Proof.
  intros Hf. unfold put_product. rewrite Hf.
  destruct (if defined _ then le_zero _ else Ok false) as [[|]|];
    [by left| |by left].
  right.
  set (p1 := if truthy (get_field req_body "name") then _ else p).
  set (p2 := if defined (get_field req_body "description") then _ else p1).
  assert (id p2 = id p) as Hp2.
  { unfold p2, p1. by repeat case_match. }
  clearbody p2. clear p1.
  destruct (if truthy (get_field req_body "price") then _ else Ok p2)
    as [p3|] eqn:H3; [|by exists p2].
  assert (id p3 = id p) as Hp3.
  { destruct (truthy _); [|by simplify_eq].
    destruct (parseFloat _); by simplify_eq/=. }
  clear H3.
  set (p4 := if truthy (get_field req_body "category") then _ else p3).
  assert (id p4 = id p) as Hp4.
  { unfold p4. by case_match. }
  clearbody p4.
  destruct (if defined (get_field req_body "stock") then _ else Ok p4)
    as [p5|] eqn:H5; [|by exists p4].
  eexists. split; [reflexivity|]. simpl.
  destruct (defined _); [|by simplify_eq].
  destruct (parseInt _); by simplify_eq/=.
Qed.

Lemma products_handle_counter s r : nextProductId s <= nextProductId (handle s r).2.
Proof.
  destruct r as [param|now req_body|now param req_body|param
                 |now param req_body]; simpl; try lia.
  - unfold post_products. repeat case_match; simpl; lia.
  - unfold put_product.
    destruct (list_find _ _) as [[i p]|] eqn:Hf; [|simpl; lia].
    destruct (put_product_store s now param req_body i p Hf) as [H|(p' & H & _)];
      unfold put_product in H; rewrite Hf in H; rewrite H; simpl; lia.
  - unfold delete_product. repeat case_match; simpl; lia.
  - unfold patch_stock. repeat case_match; simpl; lia.
Qed.

Lemma products_handle_assigned s r i :
  assigned_id r (handle s r).1 = Some i ->
  i = nextProductId s /\ nextProductId (handle s r).2 = i + 1.
Proof.
  destruct r; simpl; try done.
  unfold post_products.
  destruct (negb _ || negb _ || negb _); [done|].
  destruct (le_zero _) as [[|]|]; [done| |done].
  destruct (parseFloat _); [|done]. simpl. by intros [= <-].
Qed.

Lemma write_ids_below_counter s i p p' :
  ids_below_counter s -> products s !! i = Some p -> id p' = id p ->
  ids_below_counter (write s i p').
Proof.
  unfold ids_below_counter. intros Hs Hi Hid. simpl.
  apply Forall_insert; [done|].
  pose proof (Forall_lookup_1 _ _ _ _ Hs Hi) as Hlt. simpl in Hlt. lia.
Qed.

Lemma products_handle_ids_below_counter s r :
  ids_below_counter s -> ids_below_counter (handle s r).2.
Proof.
  intros Hs.
  destruct r as [param|now req_body|now param req_body|param
                 |now param req_body]; simpl; try done.
  - unfold post_products.
    destruct (negb _ || negb _ || negb _); [done|].
    destruct (le_zero _) as [[|]|]; [done| |done].
    unfold ids_below_counter in *.
    destruct (parseFloat _); simpl.
    + apply Forall_app. split.
      * eapply Forall_impl; [done|]. intros; simpl in *; lia.
      * repeat constructor. simpl. lia.
    + eapply Forall_impl; [done|]. intros; simpl in *; lia.
  - destruct (list_find (has_id (parseInt_string param)) (products s))
      as [[i p]|] eqn:Hf.
    + destruct (put_product_store s now param req_body i p Hf)
        as [->|(p' & -> & Hid)]; [done|].
      apply list_find_Some in Hf as (Hi & _ & _).
      by eapply write_ids_below_counter.
    + unfold put_product. by rewrite Hf.
  - unfold delete_product. destruct (list_find _ _) as [[i p]|]; [|done].
    simpl. by apply Forall_delete.
  - unfold patch_stock.
    destruct (list_find _ _) as [[i p]|] eqn:Hf; [|done].
    apply list_find_Some in Hf as (Hi & _ & _).
    destruct (negb _); [done|]. destruct (parseInt _); [|done]. simpl.
    by eapply write_ids_below_counter.
Qed.

Lemma products_run_ids_below_counter s rs :
  ids_below_counter s -> ids_below_counter (run s rs).2.
Proof.
  revert s. induction rs as [|r rs IH]; intros s Hs; simpl; [done|].
  pose proof (products_handle_ids_below_counter s r Hs) as H1.
  destruct (handle s r) as [a s1]. simpl in H1.
  specialize (IH s1 H1). by destruct (run s1 rs).
Qed.

Lemma products_run_counter s rs : nextProductId s <= nextProductId (run s rs).2.
Proof.
  revert s. induction rs as [|r rs IH]; intros s; simpl; [lia|].
  pose proof (products_handle_counter s r) as H1.
  destruct (handle s r) as [a s1]. simpl in H1.
  specialize (IH s1). destruct (run s1 rs). simpl in *. lia.
Qed.

Lemma products_assigned_ids_sorted s rs :
  Forall (fun i => nextProductId s <= i) (assigned_ids s rs) /\
  StronglySorted Z.lt (assigned_ids s rs).
Proof.
  revert s. induction rs as [|r rs IH]; intros s; simpl.
  { split; constructor. }
  pose proof (products_handle_counter s r) as Hc.
  pose proof (products_handle_assigned s r) as Ha.
  destruct (handle s r) as [a s1]. simpl in *.
  destruct (IH s1) as [Hge Hsorted].
  destruct (assigned_id r a) as [i|].
  - destruct (Ha i eq_refl) as [-> Hnext]. split.
    + constructor; [lia|]. eapply Forall_impl; [done|]. intros; simpl in *; lia.
    + constructor; [done|]. eapply Forall_impl; [done|]. intros; simpl in *; lia.
  - split; [|done]. eapply Forall_impl; [done|]. intros; simpl in *; lia.
Qed.

End ProductsFacts.

(** ** The two stores *)
Module StoreFacts.
Import Js Http.

(** C1. For every sequence of requests on a service's store (creates and
    deletes, and the other requests as well), the IDs assigned by the
    successful creates are strictly increasing, and each is at or above the
    value the counter had when the sequence started, hence strictly greater
    than every ID the store held then; the counter never decreases, a
    delete leaves it as it is, and the IDs in the store stay below it. So an
    ID that was assigned once, whether its record has been deleted or not,
    is never assigned again. This holds for the users store and for the
    products store. *)
Theorem ids_never_reused
    (us : Users.store) (ps : Products.store)
    (urs : list Users.request) (prs : list Products.request) :
  Users.ids_below_counter us -> Products.ids_below_counter ps ->
  (StronglySorted Z.lt (Users.assigned_ids us urs) /\
   Forall (fun i => Users.nextUserId us <= i) (Users.assigned_ids us urs) /\
   Forall (fun i => Forall (fun u => Users.id u < i) (Users.users us))
          (Users.assigned_ids us urs) /\
   Users.nextUserId us <= Users.nextUserId (Users.run us urs).2 /\
   Users.ids_below_counter (Users.run us urs).2) /\
  (StronglySorted Z.lt (Products.assigned_ids ps prs) /\
   Forall (fun i => Products.nextProductId ps <= i) (Products.assigned_ids ps prs) /\
   Forall (fun i => Forall (fun p => Products.id p < i) (Products.products ps))
          (Products.assigned_ids ps prs) /\
   Products.nextProductId ps <= Products.nextProductId (Products.run ps prs).2 /\
   Products.ids_below_counter (Products.run ps prs).2).
Proof.
  intros Hu Hp. split.
  - destruct (UsersFacts.users_assigned_ids_sorted us urs) as [Hge Hsorted].
    split_and!; try done.
    + eapply Forall_impl; [exact Hge|]. intros i Hi.
      eapply Forall_impl; [exact Hu|]. intros u Hlt. simpl in *. lia.
    + apply UsersFacts.users_run_counter.
    + by apply UsersFacts.users_run_ids_below_counter.
  - destruct (ProductsFacts.products_assigned_ids_sorted ps prs) as [Hge Hsorted].
    split_and!; try done.
    + eapply Forall_impl; [exact Hge|]. intros i Hi.
      eapply Forall_impl; [exact Hp|]. intros u Hlt. simpl in *. lia.
    + apply ProductsFacts.products_run_counter.
    + by apply ProductsFacts.products_run_ids_below_counter.
Qed.

Lemma ids_never_reused_witness :
  let urs :=
    [ Users.PostUsers "2024-03-01T00:00:00.000Z"
        (VObj [("name", VStr "Alice Johnson"); ("email", VStr "alice@example.com")]);
      Users.DeleteUser "4";
      Users.PostUsers "2024-03-02T00:00:00.000Z"
        (VObj [("name", VStr "Alice Johnson"); ("email", VStr "alice@example.com")]) ] in
  let prs :=
    [ Products.PostProducts "2024-03-01T00:00:00.000Z"
        (VObj [("name", VStr "Gaming Mouse"); ("price", VNum (Dec 7999 (-2)));
               ("category", VStr "Accessories"); ("stock", VNum (Dec 100 0))]);
      Products.DeleteProduct "6";
      Products.PostProducts "2024-03-02T00:00:00.000Z"
        (VObj [("name", VStr "Gaming Mouse"); ("price", VNum (Dec 7999 (-2)));
               ("category", VStr "Accessories"); ("stock", VNum (Dec 100 0))]) ] in
  Users.ids_below_counter Users.seed /\
  Products.ids_below_counter Products.seed /\
  Users.assigned_ids Users.seed urs = [4; 5] /\
  Products.assigned_ids Products.seed prs = [6; 7] /\
  StronglySorted Z.lt (Users.assigned_ids Users.seed urs) /\
  StronglySorted Z.lt (Products.assigned_ids Products.seed prs).
Proof.
  intros urs prs.
  assert (Users.ids_below_counter Users.seed) as Hu.
  { repeat constructor. }
  assert (Products.ids_below_counter Products.seed) as Hp.
  { repeat constructor. }
  split; [exact Hu|]. split; [exact Hp|].
  split; [reflexivity|]. split; [reflexivity|].
  pose proof (ids_never_reused Users.seed Products.seed urs prs Hu Hp) as H.
  exact (conj (proj1 (proj1 H)) (proj1 (proj2 H))).
Defined.

(** C10, as stated, fails: "0x1" starts with the digit 0 and is followed by
    "x1", yet GET /users/0x1 returns John Doe, the user of ID 1, where
    GET /users/0 is answered by 404: [parseInt] reads the "0x" prefix as
    the mark of a hexadecimal number. *)
Lemma hex_prefix_is_not_leading_zero :
  Users.get_user Users.seed "0x1"
  = Response 200
      (Single (Users.User 1 (VStr "John Doe") (VStr "john.doe@example.com")
                 (VStr "admin") "2024-01-01T00:00:00.000Z" None)) /\
  Users.get_user Users.seed "0"
  = Response 404 (Missing "User not found" (Some 0)) /\
  ~ Users.answered_by_leading_digits Users.seed "0" "x1".
Proof.
  split; [reflexivity|]. split; [reflexivity|].
  intros H. specialize (H eq_refl ltac:(discriminate) eq_refl).
  discriminate H.
Qed.

(** C10, amended. GET /users/:id and GET /products/:id see the path
    parameter through [parseInt] alone: two parameters with the same
    [parseInt] get the same answer. A parameter that starts with decimal
    digits, followed by anything that is not a digit, gets the answer of
    these digits alone, unless it starts with "0x" or "0X", which [parseInt]
    reads as a hexadecimal prefix. A parameter in which [parseInt] finds
    no integer gets the 404 answer of the handler, never a thrown error or
    a 500. *)
Theorem id_param_leading_integer
    (us : Users.store) (ps : Products.store) (d r param : string) :
  dec_string d = true -> d <> "" -> head_digit r = false ->
  hex_prefixed (d +:+ r) = false ->
  (Users.get_user us (d +:+ r) = Users.get_user us d /\
   Products.get_product ps (d +:+ r) = Products.get_product ps d) /\
  (parseInt_string param = None ->
   Users.get_user us param = Response 404 (Missing "User not found" None) /\
   Products.get_product ps param
     = Response 404 (Missing "Product not found" None)) /\
  (forall p1 p2, parseInt_string p1 = parseInt_string p2 ->
   Users.get_user us p1 = Users.get_user us p2 /\
   Products.get_product ps p1 = Products.get_product ps p2).
Proof.
  intros Hd Hne Hr Hx.
  pose proof (JsFacts.parseInt_leading_digits d r Hd Hne Hr Hx) as Hparse.
  split_and!.
  - by apply UsersFacts.get_user_parseInt.
  - by apply ProductsFacts.get_product_parseInt.
  - intros Hnan. split.
    + by apply UsersFacts.get_user_NaN.
    + by apply ProductsFacts.get_product_NaN.
  - intros p1 p2 Hp. split.
    + by apply UsersFacts.get_user_parseInt.
    + by apply ProductsFacts.get_product_parseInt.
Qed.

Lemma id_param_leading_integer_witness :
  dec_string "3" = true /\ "3" <> "" /\ head_digit "abc" = false /\
  hex_prefixed ("3" +:+ "abc") = false /\
  Users.get_user Users.seed ("3" +:+ "abc") = Users.get_user Users.seed "3" /\
  Products.get_product Products.seed ("3" +:+ "abc")
    = Products.get_product Products.seed "3".
Proof.
  split; [reflexivity|]. split; [discriminate|].
  split; [reflexivity|]. split; [reflexivity|].
  refine (proj1 (id_param_leading_integer Users.seed Products.seed
                   "3" "abc" "abc" eq_refl _ eq_refl eq_refl)).
  discriminate.
Defined.

End StoreFacts.

(** ** More on the users service *)
Module UsersMoreFacts.
Import Js Http Users UsersStats.

(** *** Strict equality is symmetric and Euclidean *)

Lemma num_eqb_sym x y : num_eqb x y = num_eqb y x.
Proof.
  destruct x as [| a |m1 e1], y as [| b |m2 e2]; simpl; try done.
  - by destruct a, b.
  - by rewrite (Z.min_comm e1 e2), Z.eqb_sym.
Qed.

Lemma strict_eq_sym a b : strict_eq a b = strict_eq b a.
Proof.
  destruct a, b; simpl; try done.
  - by destruct b0, b.
  - apply num_eqb_sym.
  - apply String.eqb_sym.
Qed.

(** Two decimals are equal at their lower exponent exactly when they are
    at any exponent below both. *)
Lemma dec_eq_shift m1 e1 m2 e2 k :
  k <= e1 -> k <= e2 ->
  (m1 * 10 ^ (e1 - Z.min e1 e2) = m2 * 10 ^ (e2 - Z.min e1 e2)
   <-> m1 * 10 ^ (e1 - k) = m2 * 10 ^ (e2 - k)).
Proof.
  intros H1 H2. set (mn := Z.min e1 e2).
  assert (k <= mn) by (unfold mn; lia).
  assert (mn <= e1 /\ mn <= e2) as [? ?] by (unfold mn; lia).
  replace (e1 - k) with ((e1 - mn) + (mn - k)) by lia.
  replace (e2 - k) with ((e2 - mn) + (mn - k)) by lia.
  rewrite !Z.pow_add_r by lia.
  assert (0 < 10 ^ (mn - k)) by (apply Z.pow_pos_nonneg; lia).
  split; intros Heq; nia.
Qed.

Lemma num_eqb_euclid x y z :
  num_eqb x z = true -> num_eqb y z = true -> num_eqb x y = true.
Proof.
  destruct x as [| a |m1 e1], y as [| b |m2 e2], z as [| c |m3 e3];
    simpl; try done.
  - by destruct a, b, c.
  - rewrite !Z.eqb_eq.
    set (k := Z.min e1 (Z.min e2 e3)).
    rewrite (dec_eq_shift m1 e1 m3 e3 k), (dec_eq_shift m2 e2 m3 e3 k),
      (dec_eq_shift m1 e1 m2 e2 k) by (unfold k; lia).
    congruence.
Qed.

Lemma strict_eq_euclid a b c :
  strict_eq a c = true -> strict_eq b c = true -> strict_eq a b = true.
Proof.
  destruct a, b, c; simpl; try done.
  - by destruct b0, b1, b.
  - apply num_eqb_euclid.
  - rewrite !String.eqb_eq. congruence.
Qed.

(** *** Looking up by ID *)

(** Removing the record at an index where the predicate fails does not
    change what is found. *)
Lemma list_find_delete_other {A} (P : A -> Prop) `{!forall x, Decision (P x)}
    (l : list A) i x :
  l !! i = Some x -> ~ P x ->
  snd <$> list_find P (delete i l) = snd <$> list_find P l.
Proof.
  revert i. induction l as [|y l IH]; intros i Hi HP; [done|].
  destruct i as [|i]; simpl in *.
  - simplify_eq. rewrite decide_False by done.
    by destruct (list_find P l) as [[? ?]|].
  - destruct (decide (P y)); [done|].
    specialize (IH i Hi HP).
    destruct (list_find P (delete i l)) as [[? ?]|],
             (list_find P l) as [[? ?]|]; simplify_eq/=; done.
Qed.

(** With IDs that are unique, the record found by ID is the only one of
    its ID: once it is removed, the ID is not found. *)
Lemma users_find_delete_same (userId : option Z) (l : list user) i u :
  NoDup (id <$> l) ->
  list_find (has_id userId) l = Some (i, u) ->
  list_find (has_id userId) (delete i l) = None.
Proof.
  intros Hnd (Hi & Hu & _)%list_find_Some.
  apply list_find_None, Forall_lookup. intros j v Hj Hv.
  unfold has_id in *.
  assert (id v = id u) as Hid by congruence.
  destruct (decide (j < i)%nat) as [Hlt|Hge].
  - rewrite list_lookup_delete_lt in Hj by done.
    assert (j = i); [|lia].
    eapply (NoDup_lookup (id <$> l) j i (id u)); [done|..];
      rewrite list_lookup_fmap; [by rewrite Hj; simpl; f_equal | by rewrite Hi].
  - rewrite list_lookup_delete_ge in Hj by lia.
    assert (S j = i); [|lia].
    eapply (NoDup_lookup (id <$> l) (S j) i (id u)); [done|..];
      rewrite list_lookup_fmap; [by rewrite Hj; simpl; f_equal | by rewrite Hi].
Qed.

(** *** IDs stay unique *)

Lemma users_handle_ids_unique s r :
  ids_below_counter s -> ids_unique s -> ids_unique (handle s r).2.
Proof.
  unfold ids_unique, ids_below_counter. intros Hlt Hnd.
  destruct r as [qrole qlimit|param|now req_body|now param req_body|param];
    simpl; try done.
  - unfold post_users.
    destruct (negb _ || negb _); [done|].
    destruct (list_find _ _); [done|]. simpl.
    rewrite fmap_app. apply NoDup_app. split_and!; [done| |].
    + intros x Hx Hin. apply list_elem_of_fmap in Hx as (u & -> & Hu).
      rewrite Forall_forall in Hlt. specialize (Hlt u Hu).
      apply list_elem_of_singleton in Hin. simpl in *. lia.
    + apply NoDup_singleton.
  - unfold put_user.
    destruct (list_find _ _) as [[i u]|] eqn:Hf; [|done].
    case_match; simpl; [done|].
    apply list_find_Some in Hf as (Hi & _ & _).
    rewrite list_fmap_insert, list_insert_id; [done|].
    rewrite list_lookup_fmap, Hi. simpl. f_equal.
    unfold assign_if_truthy. by repeat case_match.
  - unfold delete_user.
    destruct (list_find _ _) as [[i u]|]; [|done]. simpl.
    rewrite list_fmap_delete.
    eapply sublist_NoDup; [done | apply sublist_delete].
Qed.

Lemma users_run_ids_unique s rs :
  ids_below_counter s -> ids_unique s -> ids_unique (run s rs).2.
Proof.
  revert s. induction rs as [|r rs IH]; intros s Hlt Hnd; simpl; [done|].
  pose proof (users_handle_ids_unique s r Hlt Hnd) as H1.
  pose proof (UsersFacts.users_handle_ids_below_counter s r Hlt) as H2.
  destruct (handle s r) as [a s1]. simpl in *.
  specialize (IH s1 H2 H1). by destruct (run s1 rs).
Qed.

(** *** E-mails stay unique *)

(** What PUT /users/:id does to the store: nothing, or one record written
    in place whose e-mail is the old one or the one supplied, the latter
    only if it is the own e-mail of the record or the e-mail of no record. *)
Lemma put_user_store s now param req_body i u :
  list_find (has_id (parseInt_string param)) (users s) = Some (i, u) ->
  (put_user s now param req_body).2 = s \/
  exists u',
    (put_user s now param req_body).2
      = {| users := <[i:=u']> (users s); nextUserId := nextUserId s |} /\
    id u' = id u /\
    (email u' = email u \/
     (email u' = get_field req_body "email" /\
      (strict_eq (email u) (get_field req_body "email") = true \/
       list_find (has_email (get_field req_body "email")) (users s) = None))).
Proof.
  intros Hf. unfold put_user. rewrite Hf.
  set (e := get_field req_body "email").
  destruct (truthy e) eqn:Ht; simpl.
  - destruct (strict_eq (email u) e) eqn:Heq; simpl.
    + right. eexists. split; [done|]. unfold assign_if_truthy. rewrite Ht.
      split; [by repeat case_match|]. right.
      split; [by repeat case_match | by left].
    + destruct (list_find (has_email e) (users s)) as [[j x]|] eqn:Hfe.
      * left. by rewrite bool_decide_eq_true_2 by eauto.
      * right. rewrite bool_decide_eq_false_2 by (by intros [? ?]).
        eexists. split; [done|]. unfold assign_if_truthy. rewrite Ht.
        split; [by repeat case_match|]. right.
        split; [by repeat case_match | by right].
  - right. eexists. split; [done|]. unfold assign_if_truthy. rewrite Ht.
    split; [by repeat case_match|]. left. by repeat case_match.
Qed.

Lemma users_handle_emails_unique s r :
  emails_unique s -> emails_unique (handle s r).2.
Proof.
  intros Hs.
  destruct r as [qrole qlimit|param|now req_body|now param req_body|param];
    simpl; try done.
  - unfold post_users.
    destruct (negb _ || negb _); [done|].
    destruct (list_find _ _) eqn:Hf; [done|]. simpl.
    apply list_find_None in Hf. rewrite Forall_forall in Hf.
    assert (forall u, u ∈ users s ->
              strict_eq (email u) (get_field req_body "email") = false) as Hnew.
    { intros u Hu. specialize (Hf u Hu). unfold has_email in Hf.
      by destruct (strict_eq _ _). }
    intros i j ui uj Hi Hj Hne. simpl in *.
    apply lookup_app_Some in Hi as [Hi|[Hil Hi]];
      apply lookup_app_Some in Hj as [Hj|[Hjl Hj]].
    + by eapply Hs.
    + apply list_lookup_singleton_Some in Hj as [_ <-]. simpl.
      apply Hnew. by eapply list_elem_of_lookup_2.
    + apply list_lookup_singleton_Some in Hi as [_ <-]. simpl.
      rewrite strict_eq_sym. apply Hnew. by eapply list_elem_of_lookup_2.
    + apply list_lookup_singleton_Some in Hi as [? _].
      apply list_lookup_singleton_Some in Hj as [? _]. lia.
  - destruct (list_find (has_id (parseInt_string param)) (users s))
      as [[i0 u]|] eqn:Hf; [|by unfold put_user; rewrite Hf].
    destruct (put_user_store s now param req_body i0 u Hf)
      as [->|(u' & -> & _ & Hmail)]; [done|].
    apply list_find_Some in Hf as (Hi0 & _ & _).
    assert (forall j uj, users s !! j = Some uj -> j <> i0 ->
              strict_eq (email u') (email uj) = false) as Hu'.
    { intros j uj Hj Hne.
      destruct Hmail as [->|[-> [Hown|Hnone]]].
      - by eapply (Hs i0 j).
      - destruct (strict_eq (get_field req_body "email") (email uj)) eqn:Heq;
          [|done].
        rewrite strict_eq_sym in Heq.
        pose proof (strict_eq_euclid _ _ _ Hown Heq) as Hboth.
        by rewrite (Hs i0 j u uj) in Hboth.
      - apply list_find_None in Hnone. rewrite Forall_forall in Hnone.
        specialize (Hnone uj (list_elem_of_lookup_2 _ _ _ Hj)).
        unfold has_email in Hnone. rewrite strict_eq_sym.
        by destruct (strict_eq _ _). }
    intros i j ui uj Hi Hj Hne. simpl in *.
    apply list_lookup_insert_Some in Hi as [(-> & <- & _)|[Hii Hi]];
      apply list_lookup_insert_Some in Hj as [(-> & <- & _)|[Hjj Hj]].
    + done.
    + by eapply Hu'.
    + rewrite strict_eq_sym. by eapply Hu'.
    + by eapply Hs.
  - unfold delete_user.
    destruct (list_find _ _) as [[i0 u]|]; [|done]. simpl.
    intros i j ui uj Hi Hj Hne. simpl in *.
    rewrite list_lookup_delete in Hi, Hj.
    repeat case_decide; eapply Hs; eauto; lia.
Qed.

(** X1. No two users share an e-mail, at any time: from a store whose
    e-mails are pairwise different under [===], every sequence of requests
    leads to such a store. POST /users appends a record only when no record
    has its e-mail, and PUT /users/:id writes an e-mail only when it is the
    own e-mail of the record or the e-mail of no record. *)
Theorem emails_stay_unique (s : store) (rs : list request) :
  emails_unique s -> emails_unique (run s rs).2.
Proof.
  revert s. induction rs as [|r rs IH]; intros s Hs; simpl; [done|].
  pose proof (users_handle_emails_unique s r Hs) as H1.
  destruct (handle s r) as [a s1]. simpl in *.
  specialize (IH s1 H1). by destruct (run s1 rs).
Qed.

Lemma seed_emails_unique : emails_unique seed.
Proof.
  intros i j ui uj Hi Hj Hne.
  destruct i as [|[|[|i]]], j as [|[|[|j]]]; simplify_eq/=; done.
Qed.

Lemma emails_stay_unique_witness :
  emails_unique seed /\
  emails_unique
    (run seed
       [ PostUsers "2024-03-01T00:00:00.000Z"
           (VObj [("name", VStr "Alice Johnson"); ("email", VStr "alice@example.com")]);
         PutUser "2024-03-02T00:00:00.000Z" "2"
           (VObj [("email", VStr "alice@example.com")]) ]).2.
Proof.
  split; [exact seed_emails_unique|].
  exact (emails_stay_unique seed _ seed_emails_unique).
Defined.

(** X2. PUT /users/:id with the e-mail the user already has is no
    conflict: for an existing user and a body whose e-mail [===] the e-mail
    of that user, the answer is 200, whatever the other records are, and
    the e-mail of the record stays [===] what it was. *)
Theorem put_user_own_email
    (s : store) (now param : string) (req_body : value) (i : nat) (u : user) :
  list_find (has_id (parseInt_string param)) (users s) = Some (i, u) ->
  strict_eq (email u) (get_field req_body "email") = true ->
  exists u',
    put_user s now param req_body
      = (Response 200 (Done "User updated successfully" u'),
         {| users := <[i:=u']> (users s); nextUserId := nextUserId s |}) /\
    updatedAt u' = Some now /\
    strict_eq (email u) (email u') = true.
Proof.
  intros Hf Heq. unfold put_user. rewrite Hf, Heq.
  rewrite andb_false_r. simpl.
  eexists. split; [done|]. split; [done|].
  unfold assign_if_truthy.
  destruct (truthy (get_field req_body "email")) eqn:Ht.
  - by repeat case_match.
  - pose proof (strict_eq_euclid _ _ _ Heq Heq) as Hrefl.
    by destruct (truthy (get_field req_body "name")),
               (truthy (get_field req_body "role")).
Qed.

Lemma put_user_own_email_witness :
  list_find (has_id (parseInt_string "1")) (users seed)
    = Some (0%nat, User 1 (VStr "John Doe") (VStr "john.doe@example.com")
                      (VStr "admin") "2024-01-01T00:00:00.000Z" None) /\
  exists u',
    put_user seed "2024-03-01T00:00:00.000Z" "1"
      (VObj [("name", VStr "John Updated"); ("email", VStr "john.doe@example.com")])
      = (Response 200 (Done "User updated successfully" u'),
         {| users := <[0%nat:=u']> (users seed); nextUserId := nextUserId seed |}) /\
    updatedAt u' = Some "2024-03-01T00:00:00.000Z" /\
    strict_eq (VStr "john.doe@example.com") (email u') = true.
Proof.
  split; [reflexivity|].
  exact (put_user_own_email seed "2024-03-01T00:00:00.000Z" "1"
           (VObj [("name", VStr "John Updated"); ("email", VStr "john.doe@example.com")])
           0%nat _ eq_refl eq_refl).
Defined.

(** *** GET /stats/users *)

(** X3. recentUsers of GET /stats/users holds the last five records of
    the store, or all of them when there are fewer, the most recent first:
    its length is min(5, total), and its k-th record is the k-th record
    from the end of the store. *)
Theorem stats_recent_users (s : store) (k : nat) :
  let st := json (get_stats_users s) in
  total st = length (users s) /\
  length (recentUsers st) = Nat.min 5 (length (users s)) /\
  recentUsers st !! k =
    if decide (k < Nat.min 5 (length (users s)))%nat
    then users s !! (length (users s) - 1 - k)%nat
    else None.
Proof.
  cbv zeta. cbn [get_stats_users json total recentUsers].
  unfold last_five. split; [done|].
  assert (length (reverse (drop (length (users s) - 5) (users s)))
          = Nat.min 5 (length (users s))) as Hlen.
  { rewrite length_reverse, length_drop. lia. }
  split; [done|]. case_decide as Hk.
  - rewrite reverse_lookup by (rewrite length_drop; lia).
    rewrite lookup_drop, length_drop. f_equal. lia.
  - apply lookup_ge_None. lia.
Qed.

(** X4. After a POST /users that succeeds, GET /stats/users counts one
    user more and lists the created user first in recentUsers, followed by
    the first four of the former recentUsers. *)
Theorem stats_after_create
    (s s' : store) (now : string) (req_body : value) (message : string) (u : user) :
  post_users s now req_body = (Response 201 (Done message u), s') ->
  total (json (get_stats_users s')) = S (total (json (get_stats_users s))) /\
  recentUsers (json (get_stats_users s'))
    = u :: take 4 (recentUsers (json (get_stats_users s))).
Proof.
  unfold post_users.
  destruct (negb _ || negb _); [done|].
  destruct (list_find _ _); [done|].
  intros [= _ <- <-]. simpl. unfold last_five.
  rewrite length_app. simpl. split; [lia|].
  set (l := users s).
  rewrite take_reverse, length_drop, drop_drop.
  rewrite drop_app_le by lia. rewrite reverse_snoc.
  do 3 f_equal. lia.
Qed.

Lemma stats_after_create_witness :
  post_users seed "2024-03-01T00:00:00.000Z"
    (VObj [("name", VStr "Alice Johnson"); ("email", VStr "alice@example.com")])
  = (Response 201
       (Done "User created successfully"
          (User 4 (VStr "Alice Johnson") (VStr "alice@example.com") (VStr "user")
             "2024-03-01T00:00:00.000Z" None)),
     {| users := users seed ++
          [User 4 (VStr "Alice Johnson") (VStr "alice@example.com") (VStr "user")
             "2024-03-01T00:00:00.000Z" None];
        nextUserId := 5 |}) /\
  total (json (get_stats_users
     {| users := users seed ++
          [User 4 (VStr "Alice Johnson") (VStr "alice@example.com") (VStr "user")
             "2024-03-01T00:00:00.000Z" None];
        nextUserId := 5 |})) = 4%nat.
Proof.
  split; [reflexivity|].
  exact (proj1 (stats_after_create seed _ "2024-03-01T00:00:00.000Z"
                  (VObj [("name", VStr "Alice Johnson");
                         ("email", VStr "alice@example.com")])
                  _ _ eq_refl)).
Defined.

(** X5. In GET /stats/users the two counts of byRole never add up to more
    than total, and they add up to total exactly when every user has role
    "admin" or "user": a user created with another role is counted in total
    alone. *)
Theorem stats_by_role (s : store) :
  let st := json (get_stats_users s) in
  (byRole_admin st + byRole_user st <= total st)%nat /\
  ((byRole_admin st + byRole_user st = total st)%nat <->
   Forall (fun u => role u = VStr "admin" \/ role u = VStr "user") (users s)).
Proof.
  simpl. induction (users s) as [|u l [IHle IHeq]]; simpl.
  { split; [lia|]. split; [constructor | done]. }
  pose proof (JsFacts.strict_eq_string (role u) "admin") as Ha.
  pose proof (JsFacts.strict_eq_string (role u) "user") as Hu.
  rewrite Forall_cons.
  destruct (strict_eq (role u) (VStr "admin")),
           (strict_eq (role u) (VStr "user")); simpl.
  - pose proof (proj1 Ha eq_refl). pose proof (proj1 Hu eq_refl). congruence.
  - split; [lia|]. rewrite <- IHeq. split; [intros; split; [tauto | lia]|].
    intros [_ ?]. lia.
  - split; [lia|]. rewrite <- IHeq. split; [intros; split; [tauto | lia]|].
    intros [_ ?]. lia.
  - split; [lia|]. split; [lia|]. intros [[H|H] _].
    + by pose proof (proj2 Ha H).
    + by pose proof (proj2 Hu H).
Qed.

End UsersMoreFacts.

(** ** More on the products service *)
Module ProductsMoreFacts.
Import Js JsText Http Products Catalog.

(** *** Looking up by ID *)

Lemma products_find_insert_same (productId : option Z) (l : list product) i p p' :
  list_find (has_id productId) l = Some (i, p) ->
  id p' = id p ->
  list_find (has_id productId) (<[i:=p']> l) = Some (i, p').
Proof.
  intros (Hi & Hp & Hmin)%list_find_Some Hid.
  apply list_find_Some. split_and!.
  - apply list_lookup_insert_eq. by eapply lookup_lt_Some.
  - unfold has_id in *. by rewrite Hid.
  - intros j y Hj Hlt. rewrite list_lookup_insert_ne in Hj by lia. eauto.
Qed.

Lemma products_find_delete_same (productId : option Z) (l : list product) i p :
  NoDup (id <$> l) ->
  list_find (has_id productId) l = Some (i, p) ->
  list_find (has_id productId) (delete i l) = None.
Proof.
  intros Hnd (Hi & Hp & _)%list_find_Some.
  apply list_find_None, Forall_lookup. intros j v Hj Hv.
  unfold has_id in *.
  assert (id v = id p) as Hid by congruence.
  destruct (decide (j < i)%nat) as [Hlt|Hge].
  - rewrite list_lookup_delete_lt in Hj by done.
    assert (j = i); [|lia].
    eapply (NoDup_lookup (id <$> l) j i (id p)); [done|..];
      rewrite list_lookup_fmap; [by rewrite Hj; simpl; f_equal | by rewrite Hi].
  - rewrite list_lookup_delete_ge in Hj by lia.
    assert (S j = i); [|lia].
    eapply (NoDup_lookup (id <$> l) (S j) i (id p)); [done|..];
      rewrite list_lookup_fmap; [by rewrite Hj; simpl; f_equal | by rewrite Hi].
Qed.

(** *** IDs stay unique *)

Lemma products_handle_ids_unique s r :
  ids_below_counter s -> ids_unique s -> ids_unique (handle s r).2.
Proof.
  unfold ids_unique, ids_below_counter. intros Hlt Hnd.
  destruct r as [param|now req_body|now param req_body|param
                 |now param req_body]; simpl; try done.
  - unfold post_products.
    destruct (negb _ || negb _ || negb _); [done|].
    destruct (le_zero _) as [[|]|]; [done| |done].
    destruct (parseFloat _); [|done]. simpl.
    rewrite fmap_app. apply NoDup_app. split_and!; [done| |].
    + intros x Hx Hin. apply list_elem_of_fmap in Hx as (u & -> & Hu).
      rewrite Forall_forall in Hlt. specialize (Hlt u Hu).
      apply list_elem_of_singleton in Hin. simpl in *. lia.
    + apply NoDup_singleton.
  - destruct (list_find (has_id (parseInt_string param)) (products s))
      as [[i p]|] eqn:Hf; [|by unfold put_product; rewrite Hf].
    destruct (ProductsFacts.put_product_store s now param req_body i p Hf)
      as [->|(p' & -> & Hid)]; [done|].
    apply list_find_Some in Hf as (Hi & _ & _). simpl.
    rewrite list_fmap_insert, list_insert_id; [done|].
    by rewrite list_lookup_fmap, Hi, Hid.
  - unfold delete_product.
    destruct (list_find _ _) as [[i u]|]; [|done]. simpl.
    rewrite list_fmap_delete.
    eapply sublist_NoDup; [done | apply sublist_delete].
  - unfold patch_stock.
    destruct (list_find _ _) as [[i p]|] eqn:Hf; [|done].
    apply list_find_Some in Hf as (Hi & _ & _).
    destruct (negb _); [done|]. destruct (parseInt _); [|done]. simpl.
    rewrite list_fmap_insert, list_insert_id; [done|].
    by rewrite list_lookup_fmap, Hi.
Qed.

Lemma products_run_ids_unique s rs :
  ids_below_counter s -> ids_unique s -> ids_unique (run s rs).2.
Proof.
  revert s. induction rs as [|r rs IH]; intros s Hlt Hnd; simpl; [done|].
  pose proof (products_handle_ids_unique s r Hlt Hnd) as H1.
  pose proof (ProductsFacts.products_handle_ids_below_counter s r Hlt) as H2.
  destruct (handle s r) as [a s1]. simpl in *.
  specialize (IH s1 H2 H1). by destruct (run s1 rs).
Qed.

(** *** PUT /products/:id *)

(** X6. A PUT /products/:id that is answered by 500 may have changed
    the record: with a truthy name, no price and a stock that cannot be
    converted to a string (an object with an own "toString" property), the
    name has been written already when [parseInt(stock)] throws; the answer
    is the 500 of the error-handling middleware, the record of the store
    has the new name, and its stock and updatedAt are as before. *)
Theorem put_product_partial_write
    (s : store) (now param : string) (req_body : value) (i : nat) (p : product)
    (fs : list (string * value)) (w : value) :
  list_find (has_id (parseInt_string param)) (products s) = Some (i, p) ->
  truthy (get_field req_body "name") = true ->
  get_field req_body "price" = VUndefined ->
  get_field req_body "stock" = VObj fs ->
  lookup_key "toString" fs = Some w ->
  exists p',
    put_product s now param req_body = (internal_error, write s i p') /\
    name p' = get_field req_body "name" /\
    id p' = id p /\ price p' = price p /\ stock p' = stock p /\
    updatedAt p' = updatedAt p.
Proof.
  intros Hf Hname Hprice Hstock Hkey. unfold put_product.
  rewrite Hf, Hname, Hprice, Hstock. cbn [defined truthy].
  unfold parseInt. cbn [to_string bind]. rewrite Hkey.
  eexists. split; [reflexivity|].
  by destruct (defined (get_field req_body "description")),
              (truthy (get_field req_body "category")).
Qed.

Lemma put_product_partial_write_witness :
  list_find (has_id (parseInt_string "1")) (products seed)
    = Some (0%nat,
            Product 1 (VStr "Laptop Pro X1")
              (VStr "High-performance laptop for professionals")
              (Dec 129999 (-2)) (VStr "Electronics") (VNum (Dec 45 0))
              "2024-01-10T00:00:00.000Z" None) /\
  exists p',
    put_product seed "2024-03-01T00:00:00.000Z" "1"
      (VObj [("name", VStr "Renamed"); ("stock", VObj [("toString", VNull)])])
    = (internal_error, write seed 0 p') /\
    name p' = VStr "Renamed" /\
    id p' = 1 /\ price p' = Dec 129999 (-2) /\ stock p' = VNum (Dec 45 0) /\
    updatedAt p' = None.
Proof.
  split; [reflexivity|].
  exact (put_product_partial_write seed "2024-03-01T00:00:00.000Z" "1"
           (VObj [("name", VStr "Renamed"); ("stock", VObj [("toString", VNull)])])
           0%nat _ [("toString", VNull)] VNull
           eq_refl eq_refl eq_refl eq_refl eq_refl).
Defined.

(** X7. For every existing product ID and every body, a PUT
    /products/:id answered by 200 has written one record in place: name,
    description and category are as before or as supplied, the price is as
    before or [parseFloat] of the one supplied, the stock is as before or
    [parseInt] of the one supplied, and each of the five is as before when
    the body does not have it; id and createdAt stay, updatedAt is the time
    of the request, and GET /products/:id then returns the record. *)
Theorem put_product_overwrites_supplied_only
    (s s' : store) (now param : string) (req_body : value) (i : nat)
    (p : product) (a : reply) :
  list_find (has_id (parseInt_string param)) (products s) = Some (i, p) ->
  put_product s now param req_body = (a, s') -> status a = 200 ->
  exists p',
    a = Response 200 (Done "Product updated successfully" p') /\
    s' = write s i p' /\
    get_product s' param = Response 200 (Single p') /\
    id p' = id p /\ createdAt p' = createdAt p /\ updatedAt p' = Some now /\
    (name p' = name p \/ name p' = get_field req_body "name") /\
    (description p' = description p \/
     description p' = get_field req_body "description") /\
    (category p' = category p \/ category p' = get_field req_body "category") /\
    (price p' = price p \/
     parseFloat (get_field req_body "price") = Ok (price p')) /\
    (stock p' = stock p \/
     exists x, parseInt (get_field req_body "stock") = Ok x /\ stock p' = VNum x) /\
    (get_field req_body "name" = VUndefined -> name p' = name p) /\
    (get_field req_body "description" = VUndefined ->
     description p' = description p) /\
    (get_field req_body "category" = VUndefined -> category p' = category p) /\
    (get_field req_body "price" = VUndefined -> price p' = price p) /\
    (get_field req_body "stock" = VUndefined -> stock p' = stock p).
Proof.
  intros Hf Hput Hst. unfold put_product in Hput. rewrite Hf in Hput.
  destruct (if defined _ then le_zero _ else Ok false) as [[|]|];
    [by simplify_eq| |by simplify_eq].
  set (vn := get_field req_body "name") in *.
  set (vd := get_field req_body "description") in *.
  set (vp := get_field req_body "price") in *.
  set (vc := get_field req_body "category") in *.
  set (vs := get_field req_body "stock") in *.
  assert (status (@internal_error product) <> 200) as H500 by done.
  destruct (truthy vp) eqn:Htp;
    [destruct (parseFloat vp) as [x|] eqn:Hpf;
     [|by cbn [bind] in Hput; simplify_eq]|];
    (destruct (defined vs) eqn:Hds;
     [destruct (parseInt vs) as [y|] eqn:Hpi;
      [|by cbn [bind] in Hput; simplify_eq]|]);
    cbn [bind] in Hput; simplify_eq;
    (eexists; split; [reflexivity|]; split; [reflexivity|]; split;
     [ unfold get_product, write; cbn [products];
       erewrite products_find_insert_same; [done | done |];
       by destruct (truthy vn), (defined vd), (truthy vc)
     | ]);
    destruct (truthy vn) eqn:Htn, (defined vd) eqn:Hdd, (truthy vc) eqn:Htc;
    cbn; split_and!; eauto;
    try (intros Habs; rewrite Habs in *; done).
Qed.

Lemma put_product_overwrites_supplied_only_witness :
  list_find (has_id (parseInt_string "2")) (products seed)
    = Some (1%nat,
            Product 2 (VStr "Wireless Mouse")
              (VStr "Ergonomic wireless mouse with precision tracking")
              (Dec 2999 (-2)) (VStr "Accessories") (VNum (Dec 150 0))
              "2024-01-15T00:00:00.000Z" None) /\
  exists p',
    put_product seed "2024-03-01T00:00:00.000Z" "2"
      (VObj [("price", VNum (Dec 2499 (-2)))])
    = (Response 200 (Done "Product updated successfully" p'),
       write seed 1 p') /\
    price p' = Dec 2499 (-2) /\ name p' = VStr "Wireless Mouse" /\
    stock p' = VNum (Dec 150 0).
Proof.
  split; [reflexivity|].
  destruct (put_product_overwrites_supplied_only seed _
              "2024-03-01T00:00:00.000Z" "2"
              (VObj [("price", VNum (Dec 2499 (-2)))]) 1%nat _ _
              eq_refl eq_refl eq_refl)
    as (p' & Ha & Hs & _ & _ & _ & _ & _ & _ & _ & _ & _ & Hn & _ & _ & _ & Hst).
  exists p'. injection Ha as Hp'. subst p'.
  split; [reflexivity|]. split; [reflexivity|].
  split; [exact (Hn eq_refl) | exact (Hst eq_refl)].
Defined.

(** X8. PUT /products/:id tells an absent description or stock from a
    falsy one, and does not for name and category: with a body whose name
    and category are falsy (absent, "", 0, null), whose price is absent and
    whose description and stock are there, the answer is 200, the
    description becomes the one of the body, be it "" or null, the stock
    becomes [parseInt] of the one of the body, and the name and the
    category stay as they were. *)
Theorem put_product_presence
    (s : store) (now param : string) (req_body : value) (i : nat) (p : product)
    (x : number) :
  list_find (has_id (parseInt_string param)) (products s) = Some (i, p) ->
  truthy (get_field req_body "name") = false ->
  defined (get_field req_body "description") = true ->
  get_field req_body "price" = VUndefined ->
  truthy (get_field req_body "category") = false ->
  defined (get_field req_body "stock") = true ->
  parseInt (get_field req_body "stock") = Ok x ->
  put_product s now param req_body
  = (Response 200
       (Done "Product updated successfully"
          (Product (id p) (name p) (get_field req_body "description") (price p)
                   (category p) (VNum x) (createdAt p) (Some now))),
     write s i
       (Product (id p) (name p) (get_field req_body "description") (price p)
                (category p) (VNum x) (createdAt p) (Some now))).
Proof.
  intros Hf Hn Hd Hp Hc Hs Hx. unfold put_product.
  rewrite Hf, Hp. cbn [defined truthy]. by rewrite Hn, Hd, Hc, Hs, Hx.
Qed.

Lemma put_product_presence_witness :
  list_find (has_id (parseInt_string "3")) (products seed)
    = Some (2%nat,
            Product 3 (VStr "USB-C Hub")
              (VStr "7-in-1 USB-C hub with HDMI, USB 3.0, and card reader")
              (Dec 4999 (-2)) (VStr "Accessories") (VNum (Dec 80 0))
              "2024-02-01T00:00:00.000Z" None) /\
  put_product seed "2024-03-01T00:00:00.000Z" "3"
    (VObj [("name", VStr ""); ("description", VStr ""); ("category", VStr "");
           ("stock", VNum (Dec 0 0))])
  = (Response 200
       (Done "Product updated successfully"
          (Product 3 (VStr "USB-C Hub") (VStr "") (Dec 4999 (-2))
                   (VStr "Accessories") (VNum (Dec 0 0))
                   "2024-02-01T00:00:00.000Z" (Some "2024-03-01T00:00:00.000Z"))),
     write seed 2
       (Product 3 (VStr "USB-C Hub") (VStr "") (Dec 4999 (-2))
                (VStr "Accessories") (VNum (Dec 0 0))
                "2024-02-01T00:00:00.000Z" (Some "2024-03-01T00:00:00.000Z"))).
Proof.
  split; [reflexivity|].
  exact (put_product_presence seed "2024-03-01T00:00:00.000Z" "3"
           (VObj [("name", VStr ""); ("description", VStr "");
                  ("category", VStr ""); ("stock", VNum (Dec 0 0))])
           2%nat _ (Dec 0 0) eq_refl eq_refl eq_refl eq_refl eq_refl eq_refl
           eq_refl).
Defined.

(** X9. PATCH /products/:id/stock takes any quantity that is there: when
    [parseInt] finds no integer in it (a word, null, true, an empty array)
    the answer is still 200 and the stock of the record becomes NaN. *)
Theorem patch_stock_not_a_number
    (s : store) (now param : string) (req_body : value) (i : nat) (p : product)
    (text : string) :
  list_find (has_id (parseInt_string param)) (products s) = Some (i, p) ->
  defined (get_field req_body "quantity") = true ->
  to_string (get_field req_body "quantity") = Ok text ->
  parseInt_string text = None ->
  patch_stock s now param req_body
  = (Response 200
       (Done "Stock updated successfully" (set_updatedAt now (set_stock NaN p))),
     write s i (set_updatedAt now (set_stock NaN p))).
Proof.
  intros Hf Hd Ht Hn. unfold patch_stock, parseInt.
  by rewrite Hf, Hd, Ht; cbn [bind negb]; rewrite Hn.
Qed.

Lemma patch_stock_not_a_number_witness :
  list_find (has_id (parseInt_string "1")) (products seed)
    = Some (0%nat,
            Product 1 (VStr "Laptop Pro X1")
              (VStr "High-performance laptop for professionals")
              (Dec 129999 (-2)) (VStr "Electronics") (VNum (Dec 45 0))
              "2024-01-10T00:00:00.000Z" None) /\
  (patch_stock seed "2024-03-01T00:00:00.000Z" "1"
     (VObj [("quantity", VStr "plenty")])).1
  = Response 200
      (Done "Stock updated successfully"
         (Product 1 (VStr "Laptop Pro X1")
            (VStr "High-performance laptop for professionals")
            (Dec 129999 (-2)) (VStr "Electronics") (VNum NaN)
            "2024-01-10T00:00:00.000Z" (Some "2024-03-01T00:00:00.000Z"))).
Proof.
  split; [reflexivity|].
  exact (f_equal fst
           (patch_stock_not_a_number seed "2024-03-01T00:00:00.000Z" "1"
              (VObj [("quantity", VStr "plenty")]) 0%nat _ "plenty"
              eq_refl eq_refl eq_refl eq_refl)).
Defined.

(** *** Filters that may throw *)

Lemma filter_throwing_returns {A} (f : A -> completion bool) (g : A -> bool) l :
  Forall (fun x => f x = Returns (g x)) l ->
  filter_throwing f l = Returns (List.filter g l).
Proof.
  induction 1 as [|x l Hx _ IH]; simpl; [done|]. by rewrite Hx, IH.
Qed.

Lemma filter_throwing_throws {A} (f : A -> completion bool) l x message :
  x ∈ l -> f x = Throws message ->
  exists message', filter_throwing f l = Throws message'.
Proof.
  intros Hin Hx. induction Hin as [x l|x z l Hin IH]; simpl.
  - rewrite Hx. eauto.
  - destruct (IH Hx) as [m ->]. destruct (f z); eauto.
Qed.

Lemma filter_filter {A} (g1 g2 : A -> bool) l :
  List.filter g2 (List.filter g1 l) = List.filter (fun x => g1 x && g2 x) l.
Proof.
  induction l as [|x l IH]; simpl; [done|].
  destruct (g1 x); simpl; [|done]. destruct (g2 x); by rewrite IH.
Qed.

Lemma filter_true {A} (l : list A) : List.filter (fun _ => true) l = l.
Proof. induction l as [|x l IH]; simpl; [done|]. by rewrite IH. Qed.

(** One step of the listing whose callback does not throw is a filter by
    the test of the step, the test being true when the parameter is not
    given. *)
Lemma refine_returns q f (g : string -> product -> bool) l :
  (forall v, given q = Some v -> Forall (fun p => f v p = Returns (g v p)) l) ->
  refine q f (Returns l)
  = Returns (List.filter
               (fun p => match given q with Some v => g v p | None => true end) l).
Proof.
  intros H. unfold refine, given in *. destruct q as [v|].
  - destruct (truthy (VStr v)).
    + by apply filter_throwing_returns, H.
    + by rewrite filter_true.
  - by rewrite filter_true.
Qed.

(** *** GET /products *)

(** The three filtering steps of GET /products as one filter, when no
    callback throws. *)
Lemma refine_steps_filtered
    (s : store) (qcategory qminPrice qmaxPrice : option string) :
  Forall (fun p => is_string (category p) = true) (products s) ->
  refine qmaxPrice
    (fun maxPrice p => Returns (num_le (price p) (parseFloat_string maxPrice)))
    (refine qminPrice
       (fun minPrice p => Returns (num_ge (price p) (parseFloat_string minPrice)))
       (refine qcategory
          (fun category p =>
             match call_toLowerCase "p.category" (Products.category p) with
             | Throws message => Throws message
             | Returns c => Returns (String.eqb c (toLowerCase category))
             end)
          (Returns (products s))))
  = Returns (List.filter (selected qcategory qminPrice qmaxPrice) (products s)).
Proof.
  intros Hcat.
  rewrite (refine_returns qcategory _
             (fun c p => match category p with
                         | VStr pc => String.eqb (toLowerCase pc) (toLowerCase c)
                         | _ => false
                         end)).
  2:{ intros v _. eapply Forall_impl; [exact Hcat|]. intros p Hp. simpl in *.
      by destruct (category p). }
  rewrite (refine_returns qminPrice _
             (fun v p => num_ge (price p) (parseFloat_string v)))
    by (intros; by apply Forall_true).
  rewrite (refine_returns qmaxPrice _
             (fun v p => num_le (price p) (parseFloat_string v)))
    by (intros; by apply Forall_true).
  rewrite !filter_filter. f_equal.
  apply List.filter_ext. intros p. unfold selected. by rewrite andb_assoc.
Qed.

(** X10. On a store whose categories are strings, GET /products answers
    200 with the records that pass the tests of category (equal without
    regard to letter case), minPrice (price >= it) and maxPrice (price <=
    it) all at once, each test counting only when its parameter is given
    and not empty; the records come in store order, cut by
    [slice(0, parseInt(limit))] when a limit is given, and count is their
    number. *)
Theorem get_products_listing
    (s : store) (qcategory qminPrice qmaxPrice qlimit : option string) :
  Forall (fun p => is_string (category p) = true) (products s) ->
  let result :=
    limited qlimit
      (List.filter (selected qcategory qminPrice qmaxPrice) (products s)) in
  get_products s qcategory qminPrice qmaxPrice qlimit
  = Response 200 (Listing (length result) result).
Proof.
  intros Hcat result. unfold get_products. cbv zeta.
  rewrite refine_steps_filtered by done.
  unfold result, limited, given.
  by destruct qlimit as [v|]; [destruct (truthy (VStr v))|].
Qed.

Lemma get_products_listing_witness :
  Forall (fun p => is_string (category p) = true) (products seed) /\
  get_products seed (Some "accessories") (Some "40") (Some "200") None
  = Response 200
      (Listing 2
         [ Product 3 (VStr "USB-C Hub")
             (VStr "7-in-1 USB-C hub with HDMI, USB 3.0, and card reader")
             (Dec 4999 (-2)) (VStr "Accessories") (VNum (Dec 80 0))
             "2024-02-01T00:00:00.000Z" None;
           Product 4 (VStr "Mechanical Keyboard")
             (VStr "RGB mechanical gaming keyboard with Cherry MX switches")
             (Dec 15999 (-2)) (VStr "Accessories") (VNum (Dec 60 0))
             "2024-02-05T00:00:00.000Z" None ]).
Proof.
  assert (Forall (fun p => is_string (category p) = true) (products seed)) as H.
  { repeat constructor. }
  split; [exact H|].
  exact (get_products_listing seed (Some "accessories") (Some "40") (Some "200")
           None H).
Defined.

Lemma num_ge_NaN x : num_ge x NaN = false.
Proof. by destruct x. Qed.

Lemma num_le_NaN x : num_le x NaN = false.
Proof. by destruct x. Qed.

(** X11. A minPrice or maxPrice in which [parseFloat] finds no number
    lifts no bound: on a store whose categories are strings, the listing is
    then empty, with count 0, whatever the other parameters. *)
Theorem get_products_bound_not_a_number
    (s : store) (qcategory qminPrice qmaxPrice qlimit : option string)
    (v : string) :
  Forall (fun p => is_string (category p) = true) (products s) ->
  given qminPrice = Some v \/ given qmaxPrice = Some v ->
  parseFloat_string v = NaN ->
  get_products s qcategory qminPrice qmaxPrice qlimit
  = Response 200 (Listing 0 []).
Proof.
  intros Hcat Hv Hnan. unfold get_products. cbv zeta.
  rewrite refine_steps_filtered by done.
  assert (List.filter (selected qcategory qminPrice qmaxPrice) (products s) = [])
    as ->.
  { assert (forall p, selected qcategory qminPrice qmaxPrice p = false) as Hno.
    { intros p. unfold selected. destruct Hv as [-> | ->]; rewrite Hnan.
      - by rewrite num_ge_NaN, andb_false_r.
      - by rewrite num_le_NaN, andb_false_r. }
    clear Hcat. induction (products s) as [|p l IH]; simpl; [done|].
    by rewrite Hno. }
  destruct qlimit as [l|]; [|done].
  destruct (truthy (VStr l)); [|done].
  unfold slice0. by rewrite take_nil.
Qed.

Lemma get_products_bound_not_a_number_witness :
  Forall (fun p => is_string (category p) = true) (products seed) /\
  (given (Some "cheap") = Some "cheap" \/ given None = Some "cheap") /\
  parseFloat_string "cheap" = NaN /\
  get_products seed None (Some "cheap") None None = Response 200 (Listing 0 []).
Proof.
  assert (Forall (fun p => is_string (category p) = true) (products seed)) as H.
  { repeat constructor. }
  split; [exact H|]. split; [by left|]. split; [reflexivity|].
  exact (get_products_bound_not_a_number seed None (Some "cheap") None None
           "cheap" H (or_introl eq_refl) eq_refl).
Defined.

(** X12. One record whose category is not a string (POST /products takes
    any truthy category: a number, true, an array) is enough for every
    GET /products with a category to be answered by 500: the callback of the
    filter calls [toLowerCase] on the category of each record. *)
Theorem get_products_category_crash
    (s : store) (qcategory qminPrice qmaxPrice qlimit : option string)
    (c : string) (p : product) :
  given qcategory = Some c -> p ∈ products s ->
  is_string (category p) = false ->
  exists message,
    get_products s qcategory qminPrice qmaxPrice qlimit
    = Response 500 (Internal "Internal server error" message).
Proof.
  intros Hc Hin Hp. unfold get_products.
  assert (exists message,
            refine qcategory
              (fun category p =>
                 match call_toLowerCase "p.category" (Products.category p) with
                 | Throws message => Throws message
                 | Returns c => Returns (String.eqb c (toLowerCase category))
                 end) (Returns (products s)) = Throws message) as [m ->].
  { unfold refine, given in *. destruct qcategory as [v|]; [|done].
    destruct (truthy (VStr v)); [|done].
    assert (exists m, call_toLowerCase "p.category" (category p) = Throws m)
      as [m Hm] by (destruct (category p); try done; eexists; reflexivity).
    eapply filter_throwing_throws; [exact Hin|]. by rewrite Hm. }
  simpl. eauto.
Qed.

Lemma get_products_category_crash_witness :
  let s :=
    (post_products seed "2024-03-01T00:00:00.000Z"
       (VObj [("name", VStr "Cable"); ("price", VNum (Dec 5 0));
              ("category", VNum (Dec 7 0))])).2 in
  given (Some "Accessories") = Some "Accessories" /\
  Product 6 (VStr "Cable") (VStr "") (Dec 5 0) (VNum (Dec 7 0)) (VNum (Dec 0 0))
    "2024-03-01T00:00:00.000Z" None ∈ products s /\
  exists message,
    get_products s (Some "Accessories") None None None
    = Response 500 (Internal "Internal server error" message).
Proof.
  intros s.
  assert (Product 6 (VStr "Cable") (VStr "") (Dec 5 0) (VNum (Dec 7 0))
            (VNum (Dec 0 0)) "2024-03-01T00:00:00.000Z" None ∈ products s) as Hin.
  { apply list_elem_of_lookup. by exists 5%nat. }
  split; [reflexivity|]. split; [exact Hin|].
  exact (get_products_category_crash s (Some "Accessories") None None None
           "Accessories" _ eq_refl Hin eq_refl).
Defined.

(** *** GET /search *)

Lemma prefix_spec t s :
  String.prefix t s = true <-> exists b, s = t +:+ b.
Proof.
  revert s. induction t as [|c t IH]; intros s.
  - split; [|by destruct s]. intros _. by exists s.
  - destruct s as [|d s]; simpl.
    + split; [done|]. by intros [b Hb].
    + destruct (ascii_dec c d) as [->|Hne].
      * rewrite IH. split; intros [b Hb]; exists b.
        -- by rewrite Hb.
        -- rewrite JsFacts.append_cons in Hb. by simplify_eq.
      * split; [done|]. intros [b Hb].
        rewrite JsFacts.append_cons in Hb. by simplify_eq.
Qed.

(** [includes s t] holds exactly when [t] occurs in [s]. *)
Lemma includes_spec s t :
  includes s t = true <-> exists a b, s = a +:+ t +:+ b.
Proof.
  induction s as [|c s IH].
  - cbn [includes]. rewrite orb_false_r, prefix_spec. split.
    + intros [b Hb]. by exists "", b.
    + intros (a & b & Hab). destruct a; [by exists b|].
      rewrite JsFacts.append_cons in Hab. done.
  - cbn [includes]. rewrite orb_true_iff, prefix_spec, IH. split.
    + intros [[b Hb] | (a & b & Hab)].
      * by exists "", b.
      * exists (String c a), b. by rewrite JsFacts.append_cons, Hab.
    + intros (a & b & Hab). destruct a as [|d a].
      * left. by exists b.
      * right. exists a, b. rewrite JsFacts.append_cons in Hab. by simplify_eq.
Qed.

Lemma has_term_spec term v :
  has_term term v = true
  <-> exists x a b, v = VStr x /\ toLowerCase x = a +:+ term +:+ b.
Proof.
  destruct v as [| | | |x| |]; simpl;
    try (split; [done | by intros (? & ? & ? & ? & ?)]).
  rewrite includes_spec. split.
  - intros (a & b & H). by exists x, a, b.
  - intros (y & a & b & Hy & H). simplify_eq. by exists a, b.
Qed.

Lemma matches_textual term p :
  textual p = true ->
  matches term p
  = Returns (has_term term (name p) || has_term term (description p)
             || has_term term (category p)).
Proof.
  unfold textual, matches. intros H.
  destruct (name p); try done. destruct (description p); try done.
  destruct (category p); try done. simpl.
  by repeat (match goal with |- context [includes ?a ?b] =>
                 destruct (includes a b) end; simpl).
Qed.

(** X13. On a store whose names, descriptions and categories are strings,
    GET /search with a non-empty q answers 200 with q, and with the
    records, in store order, one of whose name, description and category
    has q in it, letter case apart; count is their number. *)
Theorem search_finds (s : store) (q : string) :
  Forall (fun p => textual p = true) (products s) ->
  q <> "" ->
  let results := List.filter (found q) (products s) in
  search s (Some q) = Response 200 (Found q (length results) results) /\
  forall p,
    p ∈ results
    <-> p ∈ products s /\
        exists x a b,
          (name p = VStr x \/ description p = VStr x \/ category p = VStr x) /\
          toLowerCase x = a +:+ toLowerCase q +:+ b.
Proof.
  intros Htext Hq results. split.
  - unfold search. destruct q as [|c q]; [done|]. cbn [truthy].
    erewrite filter_throwing_returns; [reflexivity|].
    eapply Forall_impl; [exact Htext|].
    intros p Hp. cbv beta in *. rewrite matches_textual by done. reflexivity.
  - intros p. unfold results. rewrite list_elem_of_In, List.filter_In,
      <- list_elem_of_In.
    apply and_iff_compat_l. unfold found.
    rewrite !orb_true_iff, !has_term_spec. split.
    + intros [[(x & a & b & Hx & H) | (x & a & b & Hx & H)]
             | (x & a & b & Hx & H)]; exists x, a, b; eauto.
    + intros (x & a & b & [Hx | [Hx | Hx]] & H).
      * left; left. by exists x, a, b.
      * left; right. by exists x, a, b.
      * right. by exists x, a, b.
Qed.

Lemma search_finds_witness :
  Forall (fun p => textual p = true) (products seed) /\
  "USB" <> "" /\
  search seed (Some "USB")
  = Response 200
      (Found "USB" 1
         [ Product 3 (VStr "USB-C Hub")
             (VStr "7-in-1 USB-C hub with HDMI, USB 3.0, and card reader")
             (Dec 4999 (-2)) (VStr "Accessories") (VNum (Dec 80 0))
             "2024-02-01T00:00:00.000Z" None ]).
Proof.
  assert (Forall (fun p => textual p = true) (products seed)) as H.
  { repeat constructor. }
  assert ("USB" <> "") as Hq by done.
  split; [exact H|]. split; [exact Hq|].
  exact (proj1 (search_finds seed "USB" H Hq)).
Defined.

(** X14. One record whose name is not a string (POST /products takes any
    truthy name: a number, true, an array) is enough for every GET /search
    with a non-empty q to be answered by 500, whatever q. *)
Theorem search_name_crash (s : store) (q : string) (p : product) :
  q <> "" -> p ∈ products s -> is_string (name p) = false ->
  exists message,
    search s (Some q)
    = Response 500 (Crashed "Internal server error" message).
Proof.
  intros Hq Hin Hp. unfold search. destruct q as [|c q]; [done|]. cbn [truthy].
  assert (exists m, matches (toLowerCase (String c q)) p = Throws m) as [m Hm].
  { unfold matches. destruct (name p); try done; eexists; reflexivity. }
  destruct (filter_throwing_throws _ _ _ _ Hin Hm) as [m' ->]. eauto.
Qed.

Lemma search_name_crash_witness :
  let s :=
    (post_products seed "2024-03-01T00:00:00.000Z"
       (VObj [("name", VNum (Dec 42 0)); ("price", VNum (Dec 5 0));
              ("category", VStr "Misc")])).2 in
  "laptop" <> "" /\
  Product 6 (VNum (Dec 42 0)) (VStr "") (Dec 5 0) (VStr "Misc") (VNum (Dec 0 0))
    "2024-03-01T00:00:00.000Z" None ∈ products s /\
  exists message,
    search s (Some "laptop")
    = Response 500 (Crashed "Internal server error" message).
Proof.
  intros s.
  assert (Product 6 (VNum (Dec 42 0)) (VStr "") (Dec 5 0) (VStr "Misc")
            (VNum (Dec 0 0)) "2024-03-01T00:00:00.000Z" None ∈ products s)
    as Hin.
  { apply list_elem_of_lookup. by exists 5%nat. }
  assert ("laptop" <> "") as Hq by done.
  split; [exact Hq|]. split; [exact Hin|].
  exact (search_name_crash s "laptop" _ Hq Hin eq_refl).
Defined.

End ProductsMoreFacts.

(** ** The two stores: what their records and IDs go through *)
Module StoreMoreFacts.
Import Js Http.

(** X15. For every sequence of requests on a store whose IDs are distinct and
    below the counter, as they are at start-up, the IDs of the store are
    still distinct at the end: no create, update or delete makes two records
    share an ID. This holds for the users store and for the products
    store. *)
Theorem ids_stay_unique
    (us : Users.store) (ps : Products.store)
    (urs : list Users.request) (prs : list Products.request) :
  Users.ids_below_counter us -> UsersStats.ids_unique us ->
  Products.ids_below_counter ps -> Catalog.ids_unique ps ->
  UsersStats.ids_unique (Users.run us urs).2 /\
  Catalog.ids_unique (Products.run ps prs).2.
Proof.
  intros Hu1 Hu2 Hp1 Hp2. split.
  - by apply UsersMoreFacts.users_run_ids_unique.
  - by apply ProductsMoreFacts.products_run_ids_unique.
Qed.

Lemma ids_stay_unique_witness :
  let urs :=
    [ Users.PostUsers "2024-03-01T00:00:00.000Z"
        (VObj [("name", VStr "Alice Johnson"); ("email", VStr "alice@example.com")]);
      Users.DeleteUser "2";
      Users.PutUser "2024-03-02T00:00:00.000Z" "4"
        (VObj [("name", VStr "Alice J.")]) ] in
  let prs :=
    [ Products.DeleteProduct "1";
      Products.PostProducts "2024-03-02T00:00:00.000Z"
        (VObj [("name", VStr "Gaming Mouse"); ("price", VNum (Dec 7999 (-2)));
               ("category", VStr "Accessories"); ("stock", VNum (Dec 100 0))]) ] in
  Users.ids_below_counter Users.seed /\ UsersStats.ids_unique Users.seed /\
  Products.ids_below_counter Products.seed /\ Catalog.ids_unique Products.seed /\
  Users.id <$> Users.users (Users.run Users.seed urs).2 = [1; 3; 4] /\
  Products.id <$> Products.products (Products.run Products.seed prs).2
  = [2; 3; 4; 5; 6] /\
  UsersStats.ids_unique (Users.run Users.seed urs).2 /\
  Catalog.ids_unique (Products.run Products.seed prs).2.
Proof.
  intros urs prs.
  assert (Users.ids_below_counter Users.seed) as Hu1 by repeat constructor.
  assert (UsersStats.ids_unique Users.seed) as Hu2.
  { unfold UsersStats.ids_unique. simpl. apply (bool_decide_unpack _). reflexivity. }
  assert (Products.ids_below_counter Products.seed) as Hp1 by repeat constructor.
  assert (Catalog.ids_unique Products.seed) as Hp2.
  { unfold Catalog.ids_unique. simpl. apply (bool_decide_unpack _). reflexivity. }
  split; [exact Hu1|]. split; [exact Hu2|].
  split; [exact Hp1|]. split; [exact Hp2|].
  split; [reflexivity|]. split; [reflexivity|].
  exact (ids_stay_unique Users.seed Products.seed urs prs Hu1 Hu2 Hp1 Hp2).
Defined.

Lemma num_int_value_int z : num_int_value (Dec z 0) = Some z.
Proof. simpl. f_equal. lia. Qed.

(** X16. DELETE /users/:id that succeeds on a store with distinct IDs takes
    exactly one record away and leaves the counter: right after it,
    GET /users/:id with the same parameter and a second DELETE are both
    answered by 404, and GET with a parameter that [parseInt] reads as
    another ID is answered as before the delete. *)
Theorem delete_user_then_get (s : Users.store) (param : string) :
  UsersStats.ids_unique s ->
  status (Users.delete_user s param).1 = 200 ->
  let s' := (Users.delete_user s param).2 in
  Users.get_user s' param
  = Response 404 (Missing "User not found" (parseInt_string param)) /\
  Users.delete_user s' param
  = (Response 404 (Missing "User not found" (parseInt_string param)), s') /\
  S (length (Users.users s')) = length (Users.users s) /\
  Users.nextUserId s' = Users.nextUserId s /\
  forall param',
    parseInt_string param' <> parseInt_string param ->
    Users.get_user s' param' = Users.get_user s param'.
Proof.
  unfold Users.delete_user, Users.get_user. intros Hnd Hst.
  destruct (list_find _ (Users.users s)) as [[i u]|] eqn:Hfind; [|done].
  cbn [fst snd Users.users Users.nextUserId].
  rewrite (UsersMoreFacts.users_find_delete_same _ _ _ _ Hnd Hfind).
  apply list_find_Some in Hfind as (Hi & Hu & _).
  split_and!; try done.
  - rewrite length_delete by eauto.
    apply lookup_lt_Some in Hi. lia.
  - intros param' Hne.
    pose proof (UsersMoreFacts.list_find_delete_other
                  (Users.has_id (parseInt_string param')) (Users.users s) i u Hi)
      as Hother.
    rewrite <- Hu in Hne.
    specialize (Hother ltac:(unfold Users.has_id; congruence)).
    by destruct (list_find _ (delete i _)) as [[? ?]|],
                (list_find _ (Users.users s)) as [[? ?]|]; simplify_eq/=.
Qed.

Lemma delete_user_then_get_witness :
  UsersStats.ids_unique Users.seed /\
  status (Users.delete_user Users.seed "2").1 = 200 /\
  Users.get_user (Users.delete_user Users.seed "2").2 "2"
  = Response 404 (Missing "User not found" (Some 2)).
Proof.
  assert (UsersStats.ids_unique Users.seed) as Hnd.
  { unfold UsersStats.ids_unique. simpl. apply (bool_decide_unpack _). reflexivity. }
  split; [exact Hnd|]. split; [reflexivity|].
  exact (proj1 (delete_user_then_get Users.seed "2" Hnd eq_refl)).
Defined.

(** X17. DELETE /products/:id that succeeds on a store with distinct IDs
    takes exactly one record away and leaves the counter: right after it,
    GET /products/:id with the same parameter and a second DELETE are both
    answered by 404, and GET with a parameter that [parseInt] reads as
    another ID is answered as before the delete. *)
Theorem delete_product_then_get (s : Products.store) (param : string) :
  Catalog.ids_unique s ->
  status (Products.delete_product s param).1 = 200 ->
  let s' := (Products.delete_product s param).2 in
  Products.get_product s' param
  = Response 404 (Missing "Product not found" (parseInt_string param)) /\
  Products.delete_product s' param
  = (Response 404 (Missing "Product not found" (parseInt_string param)), s') /\
  S (length (Products.products s')) = length (Products.products s) /\
  Products.nextProductId s' = Products.nextProductId s /\
  forall param',
    parseInt_string param' <> parseInt_string param ->
    Products.get_product s' param' = Products.get_product s param'.
Proof.
  unfold Products.delete_product, Products.get_product. intros Hnd Hst.
  destruct (list_find _ (Products.products s)) as [[i u]|] eqn:Hfind; [|done].
  cbn [fst snd Products.products Products.nextProductId].
  rewrite (ProductsMoreFacts.products_find_delete_same _ _ _ _ Hnd Hfind).
  apply list_find_Some in Hfind as (Hi & Hu & _).
  split_and!; try done.
  - rewrite length_delete by eauto.
    apply lookup_lt_Some in Hi. lia.
  - intros param' Hne.
    pose proof (UsersMoreFacts.list_find_delete_other
                  (Products.has_id (parseInt_string param'))
                  (Products.products s) i u Hi) as Hother.
    rewrite <- Hu in Hne.
    specialize (Hother ltac:(unfold Products.has_id; congruence)).
    by destruct (list_find _ (delete i _)) as [[? ?]|],
                (list_find _ (Products.products s)) as [[? ?]|]; simplify_eq/=.
Qed.

Lemma delete_product_then_get_witness :
  Catalog.ids_unique Products.seed /\
  status (Products.delete_product Products.seed "3").1 = 200 /\
  Products.get_product (Products.delete_product Products.seed "3").2 "3"
  = Response 404 (Missing "Product not found" (Some 3)).
Proof.
  assert (Catalog.ids_unique Products.seed) as Hnd.
  { unfold Catalog.ids_unique. simpl. apply (bool_decide_unpack _). reflexivity. }
  split; [exact Hnd|]. split; [reflexivity|].
  exact (proj1 (delete_product_then_get Products.seed "3" Hnd eq_refl)).
Defined.

(** X18. A POST /users answered by 201 can be read back: on a store whose
    IDs are below the counter, the counter being below 10^21 in magnitude,
    GET /users/:id with the ID of the reply, written as JSON writes it,
    answers 200 with the very record of the reply. *)
Theorem post_users_then_get
    (s : Users.store) (now : string) (req_body : value)
    (message : string) (u : Users.user) :
  Users.ids_below_counter s ->
  Z.abs (Users.nextUserId s) < 10 ^ 21 ->
  (Users.post_users s now req_body).1 = Response 201 (Done message u) ->
  Users.get_user (Users.post_users s now req_body).2
    (number_to_string (Dec (Users.id u) 0))
  = Response 200 (Single u).
Proof.
  unfold Users.post_users, Users.ids_below_counter. intros Hlt Hbound Hpost.
  destruct (negb _ || negb _); [done|].
  destruct (list_find _ _); [done|]. simpl in Hpost. simplify_eq.
  cbn [snd Users.id]. unfold Users.get_user. cbn [Users.users].
  rewrite (JsFacts.parseInt_integer _ _ (num_int_value_int _) Hbound).
  rewrite list_find_app_r.
  - simpl. by rewrite decide_True.
  - apply list_find_None. eapply Forall_impl; [exact Hlt|].
    intros v Hv Hid. unfold Users.has_id in Hid. cbv beta in Hv.
    simplify_eq. lia.
Qed.

Lemma post_users_then_get_witness :
  let req_body :=
    VObj [("name", VStr "Alice Johnson"); ("email", VStr "alice@example.com")] in
  let u :=
    Users.User 4 (VStr "Alice Johnson") (VStr "alice@example.com") (VStr "user")
      "2024-03-01T00:00:00.000Z" None in
  Users.ids_below_counter Users.seed /\
  Z.abs (Users.nextUserId Users.seed) < 10 ^ 21 /\
  (Users.post_users Users.seed "2024-03-01T00:00:00.000Z" req_body).1
  = Response 201 (Done "User created successfully" u) /\
  Users.get_user
    (Users.post_users Users.seed "2024-03-01T00:00:00.000Z" req_body).2 "4"
  = Response 200 (Single u).
Proof.
  intros req_body u.
  assert (Users.ids_below_counter Users.seed) as Hlt by repeat constructor.
  assert (Z.abs (Users.nextUserId Users.seed) < 10 ^ 21) as Hb by (simpl; lia).
  split; [exact Hlt|]. split; [exact Hb|]. split; [reflexivity|].
  exact (post_users_then_get Users.seed "2024-03-01T00:00:00.000Z" req_body
           "User created successfully" u Hlt Hb eq_refl).
Defined.

(** X19. A POST /products answered by 201 can be read back: on a store
    whose IDs are below the counter, the counter being below 10^21 in
    magnitude, GET /products/:id with the ID of the reply, written as JSON
    writes it, answers 200 with the very record of the reply. *)
Theorem post_products_then_get
    (s : Products.store) (now : string) (req_body : value)
    (message : string) (p : Products.product) :
  Products.ids_below_counter s ->
  Z.abs (Products.nextProductId s) < 10 ^ 21 ->
  (Products.post_products s now req_body).1 = Response 201 (Done message p) ->
  Products.get_product (Products.post_products s now req_body).2
    (number_to_string (Dec (Products.id p) 0))
  = Response 200 (Single p).
Proof.
  unfold Products.post_products, Products.ids_below_counter.
  intros Hlt Hbound Hpost.
  destruct (negb _ || negb _ || negb _); [done|].
  destruct (le_zero _) as [[|]|]; [done| |done].
  destruct (parseFloat _); [|done]. simpl in Hpost. simplify_eq.
  cbn [snd Products.id]. unfold Products.get_product. cbn [Products.products].
  rewrite (JsFacts.parseInt_integer _ _ (num_int_value_int _) Hbound).
  rewrite list_find_app_r.
  - simpl. by rewrite decide_True.
  - apply list_find_None. eapply Forall_impl; [exact Hlt|].
    intros v Hv Hid. unfold Products.has_id in Hid. cbv beta in Hv.
    simplify_eq. lia.
Qed.

Lemma post_products_then_get_witness :
  let req_body :=
    VObj [("name", VStr "Gaming Mouse"); ("price", VStr "79.99");
          ("category", VStr "Accessories")] in
  let p :=
    Products.Product 6 (VStr "Gaming Mouse") (VStr "") (Dec 7999 (-2))
      (VStr "Accessories") (VNum (Dec 0 0)) "2024-03-01T00:00:00.000Z" None in
  Products.ids_below_counter Products.seed /\
  Z.abs (Products.nextProductId Products.seed) < 10 ^ 21 /\
  (Products.post_products Products.seed "2024-03-01T00:00:00.000Z" req_body).1
  = Response 201 (Done "Product created successfully" p) /\
  Products.get_product
    (Products.post_products Products.seed "2024-03-01T00:00:00.000Z" req_body).2
    "6"
  = Response 200 (Single p).
Proof.
  intros req_body p.
  assert (Products.ids_below_counter Products.seed) as Hlt by repeat constructor.
  assert (Z.abs (Products.nextProductId Products.seed) < 10 ^ 21) as Hb
    by (simpl; lia).
  split; [exact Hlt|]. split; [exact Hb|]. split; [reflexivity|].
  exact (post_products_then_get Products.seed "2024-03-01T00:00:00.000Z" req_body
           "Product created successfully" p Hlt Hb eq_refl).
Defined.

(** X20. The users store changes only when a create is answered by 201, or
    an update or a delete by 200: a listing, a read and every request
    answered by 400, 404 or 409 leave the records and the counter as they
    were. *)
Theorem users_store_changes_on_success_only
    (s : Users.store) (r : Users.request) :
  (Users.handle s r).2 <> s ->
  match r with
  | Users.PostUsers _ _ => status (Users.handle s r).1 = 201
  | Users.PutUser _ _ _ | Users.DeleteUser _ => status (Users.handle s r).1 = 200
  | Users.GetUsers _ _ | Users.GetUser _ => False
  end.
Proof.
  destruct r as [qrole qlimit|param|now req_body|now param req_body|param];
    simpl; intros Hne; try done.
  - unfold Users.post_users in *.
    destruct (negb _ || negb _); [done|].
    by destruct (list_find _ _).
  - unfold Users.put_user in *.
    destruct (list_find _ _) as [[i u]|]; [|done].
    by destruct (truthy _ && negb _ && bool_decide _).
  - unfold Users.delete_user in *.
    by destruct (list_find _ _) as [[i u]|].
Qed.

Lemma users_store_changes_on_success_only_witness :
  (Users.handle Users.seed (Users.DeleteUser "3")).2 <> Users.seed /\
  status (Users.handle Users.seed (Users.DeleteUser "3")).1 = 200.
Proof.
  assert ((Users.handle Users.seed (Users.DeleteUser "3")).2 <> Users.seed)
    as Hne by (intros H; discriminate H).
  split; [exact Hne|].
  exact (users_store_changes_on_success_only Users.seed (Users.DeleteUser "3")
           Hne).
Defined.

(** X21. The products store changes only when a create is answered by 201
    or by 500, an update by 200 or by 500, or a delete or a stock update by
    200: a read and every request answered by 400 or 404 leave the records
    and the counter as they were. *)
Theorem products_store_changes_on_success_or_crash
    (s : Products.store) (r : Products.request) :
  (Products.handle s r).2 <> s ->
  match r with
  | Products.PostProducts _ _ =>
      status (Products.handle s r).1 = 201 \/
      status (Products.handle s r).1 = 500
  | Products.PutProduct _ _ _ =>
      status (Products.handle s r).1 = 200 \/
      status (Products.handle s r).1 = 500
  | Products.DeleteProduct _ | Products.PatchStock _ _ _ =>
      status (Products.handle s r).1 = 200
  | Products.GetProduct _ => False
  end.
Proof.
  destruct r as [param|now req_body|now param req_body|param
                 |now param req_body]; simpl; intros Hne; try done.
  - unfold Products.post_products in *.
    destruct (negb _ || negb _ || negb _); [done|].
    destruct (le_zero _) as [[|]|]; [done| |done].
    destruct (parseFloat _); by eauto.
  - unfold Products.put_product in *.
    destruct (list_find _ _) as [[i p]|]; [|done].
    destruct (if Products.defined _ then _ else _) as [[|]|]; [done| |done].
    destruct (if truthy (get_field req_body "price") then _ else _);
      [|by eauto].
    destruct (if Products.defined (get_field req_body "stock") then _ else _);
      by eauto.
  - unfold Products.delete_product in *.
    by destruct (list_find _ _) as [[i p]|].
  - unfold Products.patch_stock in *.
    destruct (list_find _ _) as [[i p]|]; [|done].
    destruct (negb _); [done|]. by destruct (parseInt _).
Qed.

Lemma products_store_changes_on_success_or_crash_witness :
  (Products.handle Products.seed (Products.DeleteProduct "3")).2
  <> Products.seed /\
  status (Products.handle Products.seed (Products.DeleteProduct "3")).1 = 200.
Proof.
  assert ((Products.handle Products.seed (Products.DeleteProduct "3")).2
          <> Products.seed) as Hne by (intros H; discriminate H).
  split; [exact Hne|].
  exact (products_store_changes_on_success_or_crash Products.seed
           (Products.DeleteProduct "3") Hne).
Defined.

End StoreMoreFacts.

(** ** The gateway: collection routes *)
Module GatewayMoreFacts.
Import Js Http Gateway GatewayCollections.

(** X22. GET and POST on /api/users and on /api/products are each handled,
    by one axios call to the backend of the route. When the backend
    answers this request with a status from 200 to 299, whichever it is,
    the gateway answers 200 (GET) or 201 (POST) with the body of the
    backend. Every failure is answered by 500 with the error of the route
    and the message of the failure, the body of the backend being dropped:
    no response at all, and any status outside 200..299, the backend's 400,
    404 and 409 included, that is not a redirect with a Location, which
    axios follows. After redirects, the same translation applies to how
    the call settles. *)
Theorem collection_route_translation
    (c : config) (k : client) (b : backend) (m : method) (res : resource)
    (path q : string) (body : value) :
  defined_route (Collection m res) = true ->
  let o := {| o_method := m;
              o_url := base_url c res +:+ collection_path res;
              o_data := match m with
                        | POST => Some body
                        | _ => None
                        end |} in
  exists a,
    gateway c k b (Request (Collection m res) path q body) = Some (o, a) /\
    match b o with
    | Responded st location data =>
        (200 <= st < 300 -> a = Response (success_status m) (Relay data)) /\
        (~ 200 <= st < 300 -> (300 <= st < 400 -> location = None) ->
         a = Response 500
               (Failed (collection_error m res)
                       ("Request failed with status code "
                          +:+ number_to_string (Dec st 0))))
    | NoResponse message =>
        a = Response 500 (Failed (collection_error m res) message)
    end /\
    match follow k b (maxRedirects k) o with
    | Fulfilled _ data => a = Response (success_status m) (Relay data)
    | Rejected _ message =>
        a = Response 500 (Failed (collection_error m res) message)
    end.
Proof.
  intros Hdef o. eexists. split; [by apply GatewayFacts.collection_route_reply|].
  subst o. split.
  - destruct (b _) as [st location data|message] eqn:Hb.
    + split.
      * intros Hst. rewrite (GatewayFacts.follow_final _ _ _ _ _ _ _ Hb) by lia.
        rewrite GatewayFacts.validate_success by done. by destruct m.
      * intros Hst Hloc.
        rewrite (GatewayFacts.follow_final _ _ _ _ _ _ _ Hb) by done.
        rewrite GatewayFacts.validate_failure by done. by destruct m, res.
    + rewrite (GatewayFacts.follow_no_response _ _ _ _ _ Hb). by destruct m, res.
  - destruct (follow _ _ _ _) as [st data|st message];
      by destruct m, res.
Qed.

Lemma collection_route_translation_witness :
  let b : backend :=
    fun _ => Responded 409 None
               (VObj [("error", VStr "User with this email already exists")]) in
  let body :=
    VObj [("name", VStr "John"); ("email", VStr "john.doe@example.com")] in
  defined_route (Collection POST UsersR) = true /\
  exists a,
    gateway default_config example_client b
      (Request (Collection POST UsersR) "/api/users" "" body)
    = Some (Outbound POST "http://192.168.56.11:3001/users" (Some body), a) /\
    a = Response 500
          (Failed "Failed to create user" "Request failed with status code 409").
Proof.
  intros b body. split; [reflexivity|].
  destruct (collection_route_translation default_config example_client b
              POST UsersR "/api/users" "" body eq_refl)
    as (a & Hgw & Hfirst & _).
  exists a. split; [exact Hgw|].
  exact (proj2 Hfirst ltac:(lia) ltac:(lia)).
Defined.

End GatewayMoreFacts.
